(** * AI Course Designer: the generation-and-synchronisation pipeline of [src/App.jsx]

    A shallow embedding of the retry wrapper ([withRetry]), the generation
    client ([callGeminiApi]), the three generation workflows
    ([handleGenerateCourse], [handleGenerateMCQs], [handleGenerateLab]), the
    snapshot listeners of the component, its start-up effect, its router and
    the handlers bound in its views, followed by the properties that the
    specification states about them and by further properties of the code.

    Conventions.
    - JavaScript values are the inductive type [value]; strings are byte
      strings (the UTF-8 form of the JavaScript string); numbers are [number].
    - Asynchronous code is sequential state passing: a computation is a
      function from a state to a result (a value or a thrown exception) and a
      new state.  Every [await] is a plain bind.
    - The built-ins of the host ([JSON.parse], [String.prototype.trim], the
      number/string conversions) and the build-time constants are the fields of
      the class [Host]; the theorems hold for every host.  [Reference.host] is
      one executable host, used to run the model on concrete inputs.
    - The document store is the one of the specification: collections addressed
      by path, with create, delete and read-all operations that succeed; the
      validation of field values by the Firestore SDK is not modelled.  In the
      program an insertion that the SDK refuses (a field whose value is
      [undefined]) throws, and the run ends with an error as after any other
      exception. *)

From Stdlib Require Import List String Ascii ZArith QArith Bool Arith Lia.
From Stdlib Require Import Permutation Sorted.
Import ListNotations.

Set Implicit Arguments.
Set Warnings "-register-all".
Close Scope Q_scope.
Open Scope list_scope.
Open Scope string_scope.

(** ** JavaScript values *)

(** A JavaScript number: every finite double is a rational; the two zeros are
    not distinguished (both are falsy and both coerce alike here). *)
Inductive number : Type :=
| NaN
| Infinity (negative : bool)
| Finite (q : Q).

Inductive value : Type :=
| VUndefined
| VNull
| VBool (b : bool)
| VNum (n : number)
| VStr (s : string)
| VArr (items : list value)
| VObj (props : list (string * value)).

Inductive exn : Type :=
| Error (message : string)
| TypeError (message : string)
| SyntaxError (message : string).

Definition message (e : exn) : string :=
  match e with Error m | TypeError m | SyntaxError m => m end.

Inductive Result (A : Type) : Type :=
| Ok (a : A)
| Throw (e : exn).
Arguments Ok {A} a.
Arguments Throw {A} e.

Definition of_Z (z : Z) : number := Finite (inject_Z z).

Definition number_truthy (n : number) : bool :=
  match n with
  | NaN => false
  | Infinity _ => true
  | Finite q => negb (Qeq_bool q 0)
  end.

(** [Number.isInteger]. *)
Definition is_integer (n : number) : bool :=
  match n with
  | Finite q => Pos.eqb (Qden (Qred q)) 1
  | _ => false
  end.

(** ToBoolean. *)
Definition truthy (v : value) : bool :=
  match v with
  | VUndefined | VNull => false
  | VBool b => b
  | VNum n => number_truthy n
  | VStr s => negb (s =? "")
  | VArr _ | VObj _ => true
  end.

Definition nullish (v : value) : bool :=
  match v with VUndefined | VNull => true | _ => false end.

(** [a || b]. *)
Definition or_else (a b : value) : value := if truthy a then a else b.

Definition isArray (v : value) : bool :=
  match v with VArr _ => true | _ => false end.

Fixpoint own_property (k : string) (props : list (string * value)) : value :=
  match props with
  | [] => VUndefined
  | (k', v) :: rest => if k' =? k then v else own_property k rest
  end.

(** [v.k] for the property names this program reads ([title], [objective],
    [topic_title], [content_draft], [question], [options],
    [correct_answer_index], [problemStatement], [steps], [expectedOutcome],
    [candidates], [content], [parts], [text]): none of them is defined on a
    prototype, so only an object's own properties can answer; reading a
    property of [null] or [undefined] throws. *)
Definition get (v : value) (k : string) : Result value :=
  match v with
  | VUndefined => Throw (TypeError ("Cannot read properties of undefined (reading '" ++ k ++ "')"))
  | VNull => Throw (TypeError ("Cannot read properties of null (reading '" ++ k ++ "')"))
  | VObj props => Ok (own_property k props)
  | _ => Ok VUndefined
  end.

(** [v?.k]. *)
Definition opt_get (v : value) (k : string) : value :=
  match v with
  | VObj props => own_property k props
  | _ => VUndefined
  end.

(** [v?.[0]]. *)
Definition opt_first (v : value) : value :=
  match v with
  | VArr (x :: _) => x
  | VObj props => own_property "0" props
  | VStr (String c _) => VStr (String c "")
  | _ => VUndefined
  end.

(** ** The host: built-ins and build-time constants *)

Class Host : Type := {
  (** [JSON.parse]: [None] when it throws a [SyntaxError]. *)
  JSON_parse : string -> option value;
  (** [String.prototype.trim]. *)
  trim : string -> string;
  (** Number::toString. *)
  NumberToString : number -> string;
  (** StringToNumber, the conversion behind [Number(s)]. *)
  StringToNumber : string -> number;
  (** [import.meta.env.VITE_FIREBASE_APP_ID]. *)
  appId : string;
  (** [import.meta.env.VITE_GEMINI_API_KEY]. *)
  API_KEY : string
}.

Fixpoint join (sep : string) (l : list string) : string :=
  match l with
  | [] => ""
  | [s] => s
  | s :: rest => s ++ sep ++ join sep rest
  end.

Fixpoint has_own (k : string) (props : list (string * value)) : bool :=
  match props with
  | [] => false
  | (k', _) :: rest => (k' =? k) || has_own k rest
  end.

(** Whether an array or an object converts to a primitive value.  It is
    converted by its [toString] method: [Array.prototype.toString], which
    joins the conversions of the elements, and [Object.prototype.toString].
    An object with an entry ["toString"] of its own has no method to call
    ([JSON.parse] makes no functions), and its conversion throws. *)
Fixpoint convertible (v : value) : bool :=
  match v with
  | VArr items => forallb convertible items
  | VObj props => negb (has_own "toString" props)
  | _ => true
  end.

Section Conversions.
Context {host : Host}.

(** ToString, as used by template literals (on a [convertible] value). *)
Fixpoint ToString (v : value) : string :=
  match v with
  | VUndefined => "undefined"
  | VNull => "null"
  | VBool true => "true"
  | VBool false => "false"
  | VNum n => NumberToString n
  | VStr s => s
  | VArr items =>
      join "," (map (fun x => if nullish x then "" else ToString x) items)
  | VObj _ => "[object Object]"
  end.

(** ToNumber, i.e. [Number(v)]: an array or an object is converted to a
    string first, which throws when it is not [convertible]. *)
Definition ToNumber (v : value) : Result number :=
  match v with
  | VUndefined => Ok NaN
  | VNull => Ok (of_Z 0)
  | VBool true => Ok (of_Z 1)
  | VBool false => Ok (of_Z 0)
  | VNum n => Ok n
  | VStr s => Ok (StringToNumber s)
  | VArr _ | VObj _ =>
      if convertible v then Ok (StringToNumber (ToString v))
      else Throw (TypeError "Cannot convert object to primitive value")
  end.
End Conversions.

(** Decimal rendering of a natural number (template literals on loop
    counters and on the HTTP status). *)
Definition digit (n : N) : string :=
  String (ascii_of_N (48 + n)) "".

Fixpoint decimal_aux (fuel : nat) (n : N) (acc : string) : string :=
  match fuel with
  | O => acc
  | S fuel' =>
      let acc' := digit (n mod 10) ++ acc in
      if (n / 10 =? 0)%N then acc' else decimal_aux fuel' (n / 10) acc'
  end.

Definition decimal_N (n : N) : string := decimal_aux (S (N.size_nat n)) n "".

Definition decimal (n : nat) : string := decimal_N (N.of_nat n).

(** [s.includes(needle)]. *)
Fixpoint prefix_of (p s : string) : bool :=
  match p, s with
  | EmptyString, _ => true
  | String a p', String b s' => Ascii.eqb a b && prefix_of p' s'
  | String _ _, EmptyString => false
  end.

Fixpoint includes (s needle : string) : bool :=
  prefix_of needle s ||
  match s with
  | EmptyString => false
  | String _ s' => includes s' needle
  end.

(** ** Computations *)

Definition M (S A : Type) : Type := S -> Result A * S.

Definition ret {S A} (a : A) : M S A := fun s => (Ok a, s).

Definition throw {S A} (e : exn) : M S A := fun s => (Throw e, s).

Definition bind {S A B} (m : M S A) (k : A -> M S B) : M S B :=
  fun s =>
    match m s with
    | (Ok a, s') => k a s'
    | (Throw e, s') => (Throw e, s')
    end.

(** [try { body } catch (e) { handler e }]. *)
Definition try_catch {S A} (body : M S A) (handler : exn -> M S A) : M S A :=
  fun s =>
    match body s with
    | (Ok a, s') => (Ok a, s')
    | (Throw e, s') => handler e s'
    end.

(** [try { body } finally { cleanup }], for a cleanup block that completes
    normally. *)
Definition finally {S A} (body : M S A) (cleanup : S -> S) : M S A :=
  fun s => let (r, s') := body s in (r, cleanup s').

(** A statement executed for its effect on the state. *)
Definition effect {S} (f : S -> S) : M S unit := fun s => (Ok tt, f s).

(** Lifting of an expression that may throw. *)
Definition lift {S A} (r : Result A) : M S A := fun s => (r, s).

Declare Scope js_scope.
Delimit Scope js_scope with js.
Notation "x <- m ;; k" := (bind m (fun x => k))
  (at level 100, m at next level, right associativity) : js_scope.
Notation "m ;;; k" := (bind m (fun _ => k))
  (at level 100, right associativity) : js_scope.
Open Scope js_scope.

(** ** Resilient caller: [withRetry] *)

Section ResilientCaller.
Variable S : Type.
(** [await new Promise(resolve => setTimeout(resolve, delay))]. *)
Variable sleep : Z -> S -> S.
(** [console.warn(`Attempt ${i + 1} failed. Retrying in ${delay}ms...`, error)]. *)
Variable warn : nat -> Z -> exn -> S -> S.

Variable fn : M S value.
Variable maxRetries : nat.

(** The [for] loop, [remaining] iterations before [i] reaches [maxRetries].
    Falling out of the loop returns [undefined]. *)
Fixpoint withRetry_loop (remaining i : nat) (delay : Z) : M S value :=
  match remaining with
  | O => ret VUndefined
  | Datatypes.S remaining' =>
      fun s =>
        match fn s with
        | (Ok v, s') => (Ok v, s')
        | (Throw error, s') =>
            if (i =? maxRetries - 1)%nat then (Throw error, s')
            else
              withRetry_loop remaining' (i + 1) (delay * 2)%Z
                (sleep delay (warn (i + 1) delay error s'))
        end
  end.

Definition withRetry : M S value := withRetry_loop maxRetries 0 1000%Z.
End ResilientCaller.

(** A scripted operation in place of the wrapped thunk: each invocation
    consumes the next scripted outcome; the state keeps, in order, what
    happened: invocations of the operation, warnings and sleeps of the
    caller. *)
Module Mock.
Inductive event : Type :=
| Invoked
| Warned (attempt : nat) (delay : Z) (e : exn)
| Slept (delay : Z).

Record state : Type := mk {
  script : list (Result value);
  trace : list event
}.

Definition init (outcomes : list (Result value)) : state := mk outcomes [].

Definition operation : M state value :=
  fun s =>
    match script s with
    | [] => (Throw (Error "no scripted outcome left"), mk [] ((trace s ++ [Invoked])%list))
    | r :: rest => (r, mk rest ((trace s ++ [Invoked])%list))
    end.

Definition sleep (delay : Z) (s : state) : state :=
  mk (script s) ((trace s ++ [Slept delay])%list).

Definition warn (attempt : nat) (delay : Z) (e : exn) (s : state) : state :=
  mk (script s) ((trace s ++ [Warned attempt delay e])%list).

Definition run (maxRetries : nat) : M state value :=
  withRetry sleep warn operation maxRetries.

(** The delays slept, in order. *)
Definition sleeps (t : list event) : list Z :=
  flat_map (fun ev => match ev with Slept d => [d] | _ => [] end) t.

(** The number of invocations of the operation. *)
Definition invocations (t : list event) : nat :=
  List.length (filter (fun ev => match ev with Invoked => true | _ => false end) t).
End Mock.

(** What failed attempts number [attempt], [attempt + 1], ... leave in the
    trace when none of them is the last one allowed: the invocation, the
    warning and the sleep of each, the delay doubling from [delay] on. *)
Fixpoint failed_attempts (attempt : nat) (delay : Z) (errors : list exn)
  : list Mock.event :=
  match errors with
  | [] => []
  | e :: rest =>
      Mock.Invoked :: Mock.Warned attempt delay e :: Mock.Slept delay
      :: failed_attempts (Datatypes.S attempt) (delay * 2)%Z rest
  end.

(** ** The document store *)

(** Document ids.  Firestore draws them at random; here they come from a
    counter, which keeps a new id different from the earlier ones. *)
Definition DocId : Type := nat.

Record Course : Type := mkCourse {
  course_title : string;
  course_status : string;
  course_createdAt : Z;
  course_userId : option string
}.

Record Module_ : Type := mkModule {
  module_courseId : DocId;
  module_title : value;
  module_objective : value;
  module_order : Z;
  module_createdAt : Z
}.

Record Topic : Type := mkTopic {
  topic_moduleId : DocId;
  topic_title : value;
  topic_content : value;
  topic_order : Z;
  topic_createdAt : Z
}.

Inductive AssetType : Type := mcq | lab.

(** The two shapes of asset documents written by the workflows; the [type]
    field is the constructor. *)
Inductive Asset : Type :=
| McqAsset (topicId : DocId) (question options : value) (correctIndex : number)
           (createdAt : Z)
| LabAsset (topicId : DocId) (title : string)
           (problemStatement steps expectedOutcome : value) (createdAt : Z).

Definition asset_topicId (a : Asset) : DocId :=
  match a with
  | McqAsset t _ _ _ _ => t
  | LabAsset t _ _ _ _ _ => t
  end.

Definition asset_type (a : Asset) : AssetType :=
  match a with
  | McqAsset _ _ _ _ _ => mcq
  | LabAsset _ _ _ _ _ _ => lab
  end.

Definition AssetType_eqb (a b : AssetType) : bool :=
  match a, b with
  | mcq, mcq | lab, lab => true
  | _, _ => false
  end.

Inductive Doc : Type :=
| DCourse (c : Course)
| DModule (m : Module_)
| DTopic (t : Topic)
| DAsset (a : Asset).

(** A collection is the sequence of its documents, in insertion order; the
    store maps a collection path to its collection. *)
Definition Collection : Type := list (DocId * Doc).
Definition Store : Type := string -> Collection.

Definition store_set (st : Store) (path : string) (c : Collection) : Store :=
  fun p => if p =? path then c else st p.

Definition remove_doc (id : DocId) (c : Collection) : Collection :=
  filter (fun d => negb (fst d =? id)%nat) c.

(** ** The generation service *)

Inductive Schema : Type :=
| STRING
| NUMBER
| ARRAY (items : Schema)
| OBJECT (properties : list (string * Schema)).

Record GenerationConfig : Type := mkGenerationConfig {
  responseMimeType : string;
  responseSchema : Schema
}.

(** The request body: [contents[0].parts[0].text], the [google_search] tool,
    [systemInstruction.parts[0].text] and the optional [generationConfig]. *)
Record Payload : Type := mkPayload {
  contents : string;
  tools : list string;
  systemInstruction : string;
  generationConfig : option GenerationConfig
}.

Record Response : Type := mkResponse {
  ok : bool;
  status : nat;
  body : string
}.

(** What one [fetch] does: it rejects (a network failure) or resolves to a
    response. *)
Inductive FetchOutcome : Type :=
| Rejects (e : exn)
| Resolves (r : Response).

(** ** Component state and the world *)

Inductive View : Type := home | modules_view | module_view | topic_view.
Inductive Tab : Type := content_tab | mcqs_tab | lab_tab.

(** The [useState] cells of [App]; a listed document is the object
    [{ id: doc.id, ...doc.data() }]. *)
Record AppState : Type := mkApp {
  db : bool;
  userId : option string;
  isAuthReady : bool;
  error : option string;
  currentView : View;
  courseName : string;
  course : option (DocId * Course);
  modules : list (DocId * Module_);
  isLoading : bool;
  activeModule : option (DocId * Module_);
  topics : list (DocId * Topic);
  activeTopic : option (DocId * Topic);
  selectedTab : Tab;
  mcqs : list (DocId * Asset);
  lab_ : option (DocId * Asset)
}.

Inductive Event : Type :=
| Fetch (url : string) (payload : Payload)
| Sleep (delay : Z)
| ConsoleWarn (attempt : nat) (delay : Z) (e : exn)
| ConsoleError (label : string) (e : exn)
| ConsoleErrorText (label : string) (text : string)
| GetDocs (path : string)
| DeleteDoc (path : string) (id : DocId)
| AddDoc (path : string) (id : DocId) (doc : Doc).

(** Everything a handler can read or change: the component state, the store,
    the answers the service is going to give (the [n]-th [fetch] gets
    [service n]), the clock, and the chronological log of effects. *)
Record World : Type := mkWorld {
  app : AppState;
  store : Store;
  next_id : DocId;
  service : nat -> FetchOutcome;
  fetched : nat;
  clock : Z;
  log : list Event
}.

Definition with_app (f : AppState -> AppState) (w : World) : World :=
  mkWorld (f (app w)) (store w) (next_id w) (service w) (fetched w) (clock w) (log w).

Definition emit (e : Event) (w : World) : World :=
  mkWorld (app w) (store w) (next_id w) (service w) (fetched w) (clock w) ((log w ++ [e])%list).

Definition setIsLoading (b : bool) (a : AppState) : AppState :=
  mkApp (db a) (userId a) (isAuthReady a) (error a) (currentView a) (courseName a)
        (course a) (modules a) b (activeModule a) (topics a) (activeTopic a)
        (selectedTab a) (mcqs a) (lab_ a).

Definition setError (e : option string) (a : AppState) : AppState :=
  mkApp (db a) (userId a) (isAuthReady a) e (currentView a) (courseName a)
        (course a) (modules a) (isLoading a) (activeModule a) (topics a) (activeTopic a)
        (selectedTab a) (mcqs a) (lab_ a).

Definition setSelectedTab (t : Tab) (a : AppState) : AppState :=
  mkApp (db a) (userId a) (isAuthReady a) (error a) (currentView a) (courseName a)
        (course a) (modules a) (isLoading a) (activeModule a) (topics a) (activeTopic a)
        t (mcqs a) (lab_ a).

Definition setCurrentView (v : View) (a : AppState) : AppState :=
  mkApp (db a) (userId a) (isAuthReady a) (error a) v (courseName a)
        (course a) (modules a) (isLoading a) (activeModule a) (topics a) (activeTopic a)
        (selectedTab a) (mcqs a) (lab_ a).

Definition setCourse (c : option (DocId * Course)) (a : AppState) : AppState :=
  mkApp (db a) (userId a) (isAuthReady a) (error a) (currentView a) (courseName a)
        c (modules a) (isLoading a) (activeModule a) (topics a) (activeTopic a)
        (selectedTab a) (mcqs a) (lab_ a).

Definition setModules (l : list (DocId * Module_)) (a : AppState) : AppState :=
  mkApp (db a) (userId a) (isAuthReady a) (error a) (currentView a) (courseName a)
        (course a) l (isLoading a) (activeModule a) (topics a) (activeTopic a)
        (selectedTab a) (mcqs a) (lab_ a).

Definition setActiveModule (m : option (DocId * Module_)) (a : AppState) : AppState :=
  mkApp (db a) (userId a) (isAuthReady a) (error a) (currentView a) (courseName a)
        (course a) (modules a) (isLoading a) m (topics a) (activeTopic a)
        (selectedTab a) (mcqs a) (lab_ a).

Definition setTopics (l : list (DocId * Topic)) (a : AppState) : AppState :=
  mkApp (db a) (userId a) (isAuthReady a) (error a) (currentView a) (courseName a)
        (course a) (modules a) (isLoading a) (activeModule a) l (activeTopic a)
        (selectedTab a) (mcqs a) (lab_ a).

Definition setActiveTopic (t : option (DocId * Topic)) (a : AppState) : AppState :=
  mkApp (db a) (userId a) (isAuthReady a) (error a) (currentView a) (courseName a)
        (course a) (modules a) (isLoading a) (activeModule a) (topics a) t
        (selectedTab a) (mcqs a) (lab_ a).

Definition setMcqs (l : list (DocId * Asset)) (a : AppState) : AppState :=
  mkApp (db a) (userId a) (isAuthReady a) (error a) (currentView a) (courseName a)
        (course a) (modules a) (isLoading a) (activeModule a) (topics a) (activeTopic a)
        (selectedTab a) l (lab_ a).

Definition setLab (l : option (DocId * Asset)) (a : AppState) : AppState :=
  mkApp (db a) (userId a) (isAuthReady a) (error a) (currentView a) (courseName a)
        (course a) (modules a) (isLoading a) (activeModule a) (topics a) (activeTopic a)
        (selectedTab a) (mcqs a) l.

(** ** Primitive effects *)

Definition setState (f : AppState -> AppState) : M World unit :=
  effect (with_app f).

(** [await new Promise(resolve => setTimeout(resolve, delay))]. *)
Definition sleep (delay : Z) (w : World) : World :=
  emit (Sleep delay)
    (mkWorld (app w) (store w) (next_id w) (service w) (fetched w)
             (clock w + delay)%Z (log w)).

Definition console_warn (attempt : nat) (delay : Z) (e : exn) (w : World) : World :=
  emit (ConsoleWarn attempt delay e) w.

Definition console_error (label : string) (e : exn) : M World unit :=
  effect (emit (ConsoleError label e)).

Definition console_error_text (label text : string) : M World unit :=
  effect (emit (ConsoleErrorText label text)).

(** [new Date()]. *)
Definition new_Date : M World Z := fun w => (Ok (clock w), w).

(** [await fetch(url, { method: 'POST', headers, body: JSON.stringify(payload) })]. *)
Definition fetch (url : string) (payload : Payload) : M World Response :=
  fun w =>
    let w' := emit (Fetch url payload)
                (mkWorld (app w) (store w) (next_id w) (service w)
                         (Datatypes.S (fetched w)) (clock w) (log w)) in
    match service w (fetched w) with
    | Rejects e => (Throw e, w')
    | Resolves r => (Ok r, w')
    end.

(** [collection(db, path)]: a reference to the collection at a path; the
    Firestore SDK throws when the path is not a string. *)
Definition collection (path : option string) : M World string :=
  match path with
  | Some p => ret p
  | None => throw (Error "Function collection() cannot be called with an empty path.")
  end.

(** [await getDocs(query(collectionRef))]. *)
Definition getDocs (path : string) : M World Collection :=
  fun w => (Ok (store w path), emit (GetDocs path) w).

(** [await deleteDoc(ref)]. *)
Definition deleteDoc (path : string) (id : DocId) : M World unit :=
  fun w =>
    (Ok tt,
     emit (DeleteDoc path id)
       (mkWorld (app w) (store_set (store w) path (remove_doc id (store w path)))
                (next_id w) (service w) (fetched w) (clock w) (log w))).

(** [await addDoc(collectionRef, data)]: the new document gets a fresh id,
    which is the [id] of the returned reference. *)
Definition addDoc (path : string) (data : Doc) : M World DocId :=
  fun w =>
    let id := next_id w in
    (Ok id,
     emit (AddDoc path id data)
       (mkWorld (app w) (store_set (store w) path ((store w path ++ [(id, data)])%list))
                (Datatypes.S id) (service w) (fetched w) (clock w) (log w))).

(** [for (const x of l) { await body(x) }]. *)
Fixpoint for_of {S A} (l : list A) (body : A -> M S unit) : M S unit :=
  match l with
  | [] => ret tt
  | x :: rest => body x ;;; for_of rest body
  end.

(** [for (let i = start; i < start + l.length; i++) { await body(i, l[i - start]) }]. *)
Fixpoint for_index {S A} (l : list A) (i : nat) (body : nat -> A -> M S unit) : M S unit :=
  match l with
  | [] => ret tt
  | x :: rest => body i x ;;; for_index rest (Datatypes.S i) body
  end.

Definition elements (v : value) : list value :=
  match v with VArr l => l | _ => [] end.

Definition newline : string := String (ascii_of_nat 10) "".

(** ** Generation client: [callGeminiApi] *)

Definition GEMINI_API_URL_BASE : string :=
  "https://generativelanguage.googleapis.com/v1beta/models/gemini-2.5-flash-preview-09-2025:generateContent?key=".

Definition array_schema : Schema :=
  ARRAY (OBJECT
    [ ("title", STRING);
      ("objective", STRING);
      ("topic_title", STRING);
      ("content_draft", STRING);
      ("question", STRING);
      ("options", ARRAY STRING);
      ("correct_answer_index", NUMBER);
      ("problemStatement", STRING);
      ("steps", ARRAY STRING);
      ("expectedOutcome", STRING) ]).

Definition lab_schema : Schema :=
  OBJECT
    [ ("problemStatement", STRING);
      ("steps", ARRAY STRING);
      ("expectedOutcome", STRING) ].

(** The [payload] object of [callGeminiApi], after the two [if]s. *)
Definition request_payload (systemPrompt userQuery : string) (isJson : bool) : Payload :=
  let payload := mkPayload userQuery ["google_search"] systemPrompt None in
  if isJson then
    let generationConfig := mkGenerationConfig "application/json" array_schema in
    let generationConfig :=
      if includes systemPrompt "single JSON object"
      then mkGenerationConfig (responseMimeType generationConfig) lab_schema
      else generationConfig in
    mkPayload (contents payload) (tools payload) (systemInstruction payload)
              (Some generationConfig)
  else payload.

Definition EmptyResponse : exn := Error "AI did not return content.".

Definition MalformedJson (rawText : string) : exn :=
  Error ("Received invalid JSON response from AI. Raw response: " ++ rawText).

Section GenerationClient.
Context {host : Host}.

(** [await response.json()]. *)
Definition response_json (r : Response) : M World value :=
  match JSON_parse (body r) with
  | Some v => ret v
  | None => throw (SyntaxError "Unexpected token in JSON")
  end.

(** [candidate.content?.parts?.[0]?.text], for a truthy [candidate]. *)
Definition candidate_text (candidate : value) : value :=
  opt_get (opt_first (opt_get (opt_get candidate "content") "parts")) "text".

Definition callGeminiApi (systemPrompt userQuery : string) (isJson : bool)
  : M World value :=
  let url := GEMINI_API_URL_BASE ++ API_KEY in
  let payload := request_payload systemPrompt userQuery isJson in
  response <- fetch url payload ;;
  if negb (ok response) then
    let errorText := body response in
    throw (Error ("API call failed with status " ++ decimal (status response)
                  ++ ": " ++ errorText))
  else
    result <- response_json response ;;
    candidates <- lift (get result "candidates") ;;
    let candidate := opt_first candidates in
    if truthy candidate && truthy (candidate_text candidate) then
      match candidate_text candidate with
      | VStr text =>
          let rawText := trim text in
          if isJson then
            match JSON_parse rawText with
            | Some v => ret v
            | None =>
                console_error_text "Failed to parse JSON response:" rawText ;;;
                throw (MalformedJson rawText)
            end
          else ret (VStr rawText)
      | _ => throw (TypeError "candidate.content.parts[0].text.trim is not a function")
      end
    else throw EmptyResponse.

(** [withRetry(() => callGeminiApi(systemPrompt, userQuery, isJson))], with
    the default [maxRetries = 5]. *)
Definition generate (systemPrompt userQuery : string) (isJson : bool) : M World value :=
  withRetry sleep console_warn (callGeminiApi systemPrompt userQuery isJson) 5.
End GenerationClient.

(** ** Pipeline orchestrator *)

Section Orchestrator.
Context {host : Host}.

Definition getCollectionPath (uid : option string) (collectionName : string)
           (isPublic : bool) : option string :=
  match uid with
  | None => None
  | Some u =>
      if u =? "" then None
      else if isPublic
           then Some ("artifacts/" ++ appId ++ "/public/data/" ++ collectionName)
           else Some ("artifacts/" ++ appId ++ "/users/" ++ u ++ "/" ++ collectionName)
  end.

(** [e.message || fallback]. *)
Definition message_or (e : exn) (fallback : string) : string :=
  if message e =? "" then fallback else message e.

Definition course_systemPrompt : string :=
  "You are a senior curriculum designer. Generate a comprehensive course structure for a specified course aimed at entry-level IT professionals. The output must be structured into 8 distinct modules. Respond only with a JSON array object containing 'title' and 'objective' for each module.".

Definition topic_systemPrompt : string :=
  "For the module and course specified, generate 5 essential, progressive learning topics. For each topic, provide a 'topic_title' and draft the core theoretical content ('content_draft', approx. 200 words) as the lesson material. Respond only with a JSON array object.".

Definition mcq_systemPrompt : string :=
  "Based only on the provided content, generate 5 multiple-choice questions (MCQs) suitable for a beginner assessment. Each question must have 4 options and clearly identify the correct answer using a 0-indexed integer for 'correct_answer_index'. Respond only with a JSON array object containing 'question', 'options' (array of 4 strings), and 'correct_answer_index'.".

Definition lab_systemPrompt : string :=
  "Design one concise practice exercise or Lab Instruction suitable for a developer based on the content. The output should be a single JSON object containing three fields: 'problemStatement' (short User Story), 'steps' (an array of 3-5 technical steps), and 'expectedOutcome' (a clear final result description). Respond only with a single JSON object.".

(** The body of the inner loop of [handleGenerateCourse]: one topic. *)
Definition save_topic (topicsCollection : string) (moduleId : DocId)
           (j : nat) (topic : value) : M World unit :=
  topic_title <- lift (get topic "topic_title") ;;
  content_draft <- lift (get topic "content_draft") ;;
  createdAt <- new_Date ;;
  _ <- addDoc topicsCollection
         (DTopic (mkTopic moduleId
                    (or_else topic_title (VStr ("Topic " ++ decimal (j + 1))))
                    (or_else content_draft (VStr "Content draft pending."))
                    (Z.of_nat (j + 1))
                    createdAt)) ;;
  ret tt.

(** The body of the outer loop of [handleGenerateCourse]: one module. *)
Definition save_module (modulesCollection topicsCollection : string)
           (name : string) (newCourseId : DocId)
           (i : nat) (moduleData : value) : M World unit :=
  title <- lift (get moduleData "title") ;;
  objective <- lift (get moduleData "objective") ;;
  createdAt <- new_Date ;;
  newModuleId <- addDoc modulesCollection
                   (DModule (mkModule newCourseId title objective
                               (Z.of_nat (i + 1)) createdAt)) ;;
  let topicUserQuery :=
    "Generate 5 topics for the module '" ++ ToString title
    ++ "' within the course '" ++ name ++ "'." in
  generatedTopicsData <- generate topic_systemPrompt topicUserQuery true ;;
  if isArray generatedTopicsData then
    for_index (elements generatedTopicsData) 0
              (save_topic topicsCollection newModuleId)
  else ret tt.

(** The [try] block of [handleGenerateCourse]. *)
Definition generate_course (st : AppState) : M World unit :=
  let userQuery := "Generate a course structure for a " ++ courseName st ++ " course." in
  generatedModulesData <- generate course_systemPrompt userQuery true ;;
  if negb (isArray generatedModulesData)
     || (List.length (elements generatedModulesData) =? 0)%nat
  then throw (Error "AI failed to generate module structure.")
  else
    coursesCollection <- collection (getCollectionPath (userId st) "courses" false) ;;
    modulesCollection <- collection (getCollectionPath (userId st) "modules" false) ;;
    topicsCollection <- collection (getCollectionPath (userId st) "topics" false) ;;
    assetsCollection <- collection (getCollectionPath (userId st) "assets" false) ;;
    existingCoursesSnapshot <- getDocs coursesCollection ;;
    for_of existingCoursesSnapshot
           (fun doc => deleteDoc coursesCollection (fst doc)) ;;;
    createdAt <- new_Date ;;
    newCourseId <- addDoc coursesCollection
                     (DCourse (mkCourse (courseName st) "draft" createdAt (userId st))) ;;
    for_index (elements generatedModulesData) 0
              (save_module modulesCollection topicsCollection (courseName st) newCourseId).

Definition handleGenerateCourse : M World unit :=
  fun w =>
    let st := app w in
    if negb (db st) || (courseName st =? "") || (trim (courseName st) =? "")
    then (Ok tt, w)
    else
      (setState (setIsLoading true) ;;;
       setState (setError None) ;;;
       finally
         (try_catch (generate_course st)
            (fun e =>
               console_error "Course Generation Error:" e ;;;
               setState (setError (Some (message_or e
                 "An unexpected error occurred during course generation.")))))
         (with_app (setIsLoading false))) w.

(** [n || 0] for a number [n]. *)
Definition or_zero (n : number) : number :=
  if number_truthy n then n else of_Z 0.

(** [Number(x) || 0]. *)
Definition number_or_zero (x : value) : Result number :=
  match ToNumber x with
  | Ok n => Ok (or_zero n)
  | Throw e => Throw e
  end.

(** The body of the insertion loop of [handleGenerateMCQs]: one item. *)
Definition save_mcq (assetsCollection : string) (topicId : DocId)
           (item : value) : M World unit :=
  question <- lift (get item "question") ;;
  options <- lift (get item "options") ;;
  correct_answer_index <- lift (get item "correct_answer_index") ;;
  correctIndex <- lift (number_or_zero correct_answer_index) ;;
  createdAt <- new_Date ;;
  _ <- addDoc assetsCollection
         (DAsset (McqAsset topicId question options correctIndex createdAt)) ;;
  ret tt.

Definition asset_userQuery (t : Topic) : string :=
  "Topic: " ++ ToString (topic_title t) ++ newline
  ++ "Content: " ++ ToString (topic_content t).

(** The [try] block of [handleGenerateMCQs]. *)
Definition generate_mcqs (st : AppState) (topic : DocId * Topic) : M World unit :=
  generatedMCQsData <- generate mcq_systemPrompt (asset_userQuery (snd topic)) true ;;
  if negb (isArray generatedMCQsData)
     || (List.length (elements generatedMCQsData) =? 0)%nat
  then throw (Error "AI failed to generate MCQs.")
  else
    assetsCollection <- collection (getCollectionPath (userId st) "assets" false) ;;
    let existingMcqs := map fst (mcqs st) in
    for_of existingMcqs (fun docRef => deleteDoc assetsCollection docRef) ;;;
    for_of (elements generatedMCQsData) (save_mcq assetsCollection (fst topic)) ;;;
    setState (setSelectedTab mcqs_tab).

Definition handleGenerateMCQs : M World unit :=
  fun w =>
    let st := app w in
    match db st, activeTopic st with
    | true, Some topic =>
        (setState (setIsLoading true) ;;;
         setState (setError None) ;;;
         finally
           (try_catch (generate_mcqs st topic)
              (fun e =>
                 console_error "MCQ Generation Error:" e ;;;
                 setState (setError (Some (message_or e
                   "An unexpected error occurred during MCQ generation.")))))
           (with_app (setIsLoading false))) w
    | _, _ => (Ok tt, w)
    end.

(** The [try] block of [handleGenerateLab].  The property reads happen on a
    truthy [generatedLabData], where [v.k] cannot throw and equals [v?.k]. *)
Definition generate_lab (st : AppState) (topic : DocId * Topic) : M World unit :=
  generatedLabData <- generate lab_systemPrompt (asset_userQuery (snd topic)) true ;;
  if negb (truthy generatedLabData)
     || negb (truthy (opt_get generatedLabData "problemStatement"))
  then throw (Error "AI failed to generate lab instructions.")
  else
    assetsCollection <- collection (getCollectionPath (userId st) "assets" false) ;;
    match lab_ st with
    | Some l => deleteDoc assetsCollection (fst l)
    | None => ret tt
    end ;;;
    createdAt <- new_Date ;;
    _ <- addDoc assetsCollection
           (DAsset (LabAsset (fst topic)
                      (ToString (topic_title (snd topic)) ++ " Practice Lab")
                      (opt_get generatedLabData "problemStatement")
                      (opt_get generatedLabData "steps")
                      (opt_get generatedLabData "expectedOutcome")
                      createdAt)) ;;
    setState (setSelectedTab lab_tab).

Definition handleGenerateLab : M World unit :=
  fun w =>
    let st := app w in
    match db st, activeTopic st with
    | true, Some topic =>
        (setState (setIsLoading true) ;;;
         setState (setError None) ;;;
         finally
           (try_catch (generate_lab st topic)
              (fun e =>
                 console_error "Lab Generation Error:" e ;;;
                 setState (setError (Some (message_or e
                   "An unexpected error occurred during lab generation.")))))
           (with_app (setIsLoading false))) w
    | _, _ => (Ok tt, w)
    end.
End Orchestrator.

(** ** Sync engine: the snapshot listeners and the navigation handlers *)

(** [list.sort((a, b) => a.order - b.order)] on integer orders.
    [Array.prototype.sort] is stable, which determines its result for this
    comparator; insertion from the right computes that result. *)
Fixpoint insert_by {A} (order : A -> Z) (x : A) (l : list A) : list A :=
  match l with
  | [] => [x]
  | y :: rest =>
      if (order x <=? order y)%Z then x :: y :: rest
      else y :: insert_by order x rest
  end.

Fixpoint sort_by {A} (order : A -> Z) (l : list A) : list A :=
  match l with
  | [] => []
  | x :: rest => insert_by order x (sort_by order rest)
  end.

(** The listener of the courses query. *)
Definition on_courses (docs : list (DocId * Course)) (a : AppState) : AppState :=
  match docs with
  | courseDoc :: _ => setCurrentView modules_view (setCourse (Some courseDoc) a)
  | [] => setCurrentView home (setCourse None a)
  end.

(** The listener of the modules query.  [sort] works in place, so [find]
    searches the sorted list. *)
Definition on_modules (docs : list (DocId * Module_)) (a : AppState) : AppState :=
  let moduleList := sort_by (fun m => module_order (snd m)) docs in
  let a' := setModules moduleList a in
  match currentView a, activeModule a with
  | module_view, Some active | topic_view, Some active =>
      match find (fun m => (fst m =? fst active)%nat) moduleList with
      | Some updatedActive => setActiveModule (Some updatedActive) a'
      | None => a'
      end
  | _, _ => a'
  end.

(** The listener of the topics query. *)
Definition on_topics (docs : list (DocId * Topic)) (a : AppState) : AppState :=
  setTopics (sort_by (fun t => topic_order (snd t)) docs) a.

(** The listeners of the two asset queries. *)
Definition on_mcqs (docs : list (DocId * Asset)) (a : AppState) : AppState :=
  setMcqs docs a.

Definition on_lab (docs : list (DocId * Asset)) (a : AppState) : AppState :=
  match docs with
  | d :: _ => setLab (Some d) a
  | [] => setLab None a
  end.

Definition handleViewModule (moduleData : DocId * Module_) (a : AppState) : AppState :=
  setSelectedTab content_tab (setTopics [] (setActiveTopic None
    (setCurrentView module_view (setActiveModule (Some moduleData) a)))).

Definition handleViewModulesList (a : AppState) : AppState :=
  setActiveTopic None (setActiveModule None (setCurrentView modules_view a)).

Definition handleViewTopic (topicData : DocId * Topic) (a : AppState) : AppState :=
  setSelectedTab content_tab (setCurrentView topic_view
    (setActiveTopic (Some topicData) a)).

(** The result set of
    [query(assets, where('topicId', '==', t), where('type', '==', ty))]. *)
Fixpoint assets_where (c : Collection) (t : DocId) (ty : AssetType)
  : list (DocId * Asset) :=
  match c with
  | [] => []
  | (id, DAsset a) :: rest =>
      if (asset_topicId a =? t)%nat && AssetType_eqb (asset_type a) ty
      then (id, a) :: assets_where rest t ty
      else assets_where rest t ty
  | _ :: rest => assets_where rest t ty
  end.

Section Subscriptions.
Context {host : Host}.

(** The assets effect with its two listeners notified of the current
    contents of the store: afterwards the [mcqs] and [lab] cells reflect
    the store. *)
Definition notify_assets (w : World) : World :=
  let a := app w in
  match isAuthReady a && db a, activeTopic a with
  | true, Some topic =>
      match getCollectionPath (userId a) "assets" false with
      | Some path =>
          with_app (fun a =>
            on_lab (assets_where (store w path) (fst topic) lab)
              (on_mcqs (assets_where (store w path) (fst topic) mcq) a)) w
      | None => with_app (fun a => setLab None (setMcqs [] a)) w
      end
  | _, _ => with_app (fun a => setLab None (setMcqs [] a)) w
  end.
End Subscriptions.

(** ** An executable host

    [JSON_parse] follows the JSON grammar (ECMA-404) on byte strings; a
    [\u] escape is written out in UTF-8.  Numbers keep the exact value of
    their literal (no rounding to a double).  [trim] and the number
    conversions cover the ASCII forms. *)
Module Reference.

Definition code (c : ascii) : N := N_of_ascii c.

Definition is_ws (c : ascii) : bool :=
  match code c with
  | 9%N | 10%N | 13%N | 32%N => true
  | _ => false
  end.

Fixpoint skip_ws (s : string) : string :=
  match s with
  | String c s' => if is_ws c then skip_ws s' else s
  | EmptyString => s
  end.

Definition is_digit (c : ascii) : bool :=
  (48 <=? code c)%N && (code c <=? 57)%N.

(** The longest prefix of digits, and what follows it. *)
Fixpoint span_digits (s : string) : string * string :=
  match s with
  | String c s' =>
      if is_digit c
      then let (ds, rest) := span_digits s' in (String c ds, rest)
      else (EmptyString, s)
  | EmptyString => (EmptyString, EmptyString)
  end.

Fixpoint Z_of_digits (ds : string) (acc : Z) : Z :=
  match ds with
  | String c ds' => Z_of_digits ds' (acc * 10 + Z.of_N (code c - 48))%Z
  | EmptyString => acc
  end.

Definition hex_val (c : ascii) : option N :=
  let n := code c in
  if is_digit c then Some (n - 48)%N
  else if (97 <=? n)%N && (n <=? 102)%N then Some (n - 87)%N
  else if (65 <=? n)%N && (n <=? 70)%N then Some (n - 55)%N
  else None.

Definition hex4 (a b c d : ascii) : option N :=
  match hex_val a, hex_val b, hex_val c, hex_val d with
  | Some x, Some y, Some z, Some t => Some (((x * 16 + y) * 16 + z) * 16 + t)%N
  | _, _, _, _ => None
  end.

Definition byte (n : N) : string := String (ascii_of_N n) "".

(** UTF-8 bytes of a code point (a lone surrogate is written like any other
    three-byte code point). *)
Definition utf8 (cp : N) : string :=
  if (cp <? 128)%N then byte cp
  else if (cp <? 2048)%N then byte (192 + cp / 64) ++ byte (128 + cp mod 64)
  else if (cp <? 65536)%N then
    byte (224 + cp / 4096) ++ byte (128 + (cp / 64) mod 64) ++ byte (128 + cp mod 64)
  else
    byte (240 + cp / 262144) ++ byte (128 + (cp / 4096) mod 64)
    ++ byte (128 + (cp / 64) mod 64) ++ byte (128 + cp mod 64).

Definition is_high (n : N) : bool := (55296 <=? n)%N && (n <=? 56319)%N.
Definition is_low (n : N) : bool := (56320 <=? n)%N && (n <=? 57343)%N.

Definition flush (pending : option N) : string :=
  match pending with
  | Some hi => utf8 hi
  | None => ""
  end.

Definition prepend (p : string) (r : option (string * string))
  : option (string * string) :=
  match r with
  | Some (str, rest) => Some (p ++ str, rest)
  | None => None
  end.

(** The character denoted by a one-letter escape. *)
Definition simple_escape (e : ascii) : option N :=
  match code e with
  | 34%N => Some 34%N
  | 92%N => Some 92%N
  | 47%N => Some 47%N
  | 98%N => Some 8%N
  | 102%N => Some 12%N
  | 110%N => Some 10%N
  | 114%N => Some 13%N
  | 116%N => Some 9%N
  | _ => None
  end.

(** The characters of a string literal after its opening quote; [pending]
    is a high surrogate read from a [\u] escape and not yet written. *)
Fixpoint string_body (s : string) (pending : option N) : option (string * string) :=
  match s with
  | EmptyString => None
  | String c s' =>
      if (code c =? 34)%N then Some (flush pending, s')
      else if (code c =? 92)%N then
        match s' with
        | String e s'' =>
            if (code e =? 117)%N then
              match s'' with
              | String h1 (String h2 (String h3 (String h4 s3))) =>
                  match hex4 h1 h2 h3 h4 with
                  | Some n =>
                      match pending with
                      | Some hi =>
                          if is_low n then
                            prepend (utf8 (65536 + (hi - 55296) * 1024 + (n - 56320)))
                                    (string_body s3 None)
                          else if is_high n then
                            prepend (utf8 hi) (string_body s3 (Some n))
                          else prepend (utf8 hi ++ utf8 n) (string_body s3 None)
                      | None =>
                          if is_high n then string_body s3 (Some n)
                          else prepend (utf8 n) (string_body s3 None)
                      end
                  | None => None
                  end
              | _ => None
              end
            else
              match simple_escape e with
              | Some n => prepend (flush pending ++ byte n) (string_body s'' None)
              | None => None
              end
        | EmptyString => None
        end
      else if (code c <? 32)%N then None
      else prepend (flush pending ++ String c "") (string_body s' None)
  end.

(** [m * 10 ^ e]. *)
Definition scale (m e : Z) : Q :=
  if (0 <=? e)%Z then inject_Z (m * 10 ^ e)
  else Qred (Qmake m (Z.to_pos (10 ^ (- e)))).

Definition nonempty (s : string) : bool :=
  match s with EmptyString => false | _ => true end.

(** An optional fraction: a dot and at least one digit. *)
Definition fraction (s : string) : option (string * string) :=
  match s with
  | String c s' =>
      if (code c =? 46)%N then
        let (ds, rest) := span_digits s' in
        if nonempty ds then Some (ds, rest) else None
      else Some (EmptyString, s)
  | EmptyString => Some (EmptyString, s)
  end.

(** An optional exponent: [e] or [E], an optional sign, at least one digit. *)
Definition exponent (s : string) : option (Z * string) :=
  match s with
  | String c s' =>
      if (code c =? 101)%N || (code c =? 69)%N then
        match s' with
        | String sg s'' =>
            if (code sg =? 45)%N then
              let (ds, rest) := span_digits s'' in
              if nonempty ds then Some ((- Z_of_digits ds 0)%Z, rest) else None
            else if (code sg =? 43)%N then
              let (ds, rest) := span_digits s'' in
              if nonempty ds then Some (Z_of_digits ds 0, rest) else None
            else
              let (ds, rest) := span_digits s' in
              if nonempty ds then Some (Z_of_digits ds 0, rest) else None
        | EmptyString => None
        end
      else Some (0%Z, s)
  | EmptyString => Some (0%Z, s)
  end.

(** What follows the integer part [ip] of a decimal literal. *)
Definition decimal_tail (negative : bool) (ip rest : string) : option (number * string) :=
  match fraction rest with
  | Some (fp, rest1) =>
      match exponent rest1 with
      | Some (e, rest2) =>
          let m := Z_of_digits (ip ++ fp) 0 in
          let m := if negative then (- m)%Z else m in
          Some (Finite (scale m (e - Z.of_nat (String.length fp))), rest2)
      | None => None
      end
  | None => None
  end.

(** A JSON number: an optional minus sign, an integer part without a
    leading zero (unless it is the digit zero alone), an optional fraction
    and an optional exponent. *)
Definition json_number (s : string) : option (number * string) :=
  let (negative, s1) :=
    match s with
    | String c s' => if (code c =? 45)%N then (true, s') else (false, s)
    | EmptyString => (false, s)
    end in
  let (ip, rest) := span_digits s1 in
  match ip with
  | EmptyString => None
  | String d EmptyString => decimal_tail negative ip rest
  | String d _ => if (code d =? 48)%N then None else decimal_tail negative ip rest
  end.

Fixpoint set_property (k : string) (v : value) (props : list (string * value))
  : list (string * value) :=
  match props with
  | [] => [(k, v)]
  | (k', v') :: rest =>
      if k' =? k then (k', v) :: rest else (k', v') :: set_property k v rest
  end.

Definition starts_with (c : N) (s : string) : option string :=
  match s with
  | String c' s' => if (code c' =? c)%N then Some s' else None
  | EmptyString => None
  end.

Definition keyword (k : string) (v : value) (s : string) : option (value * string) :=
  if prefix_of k s
  then Some (v, substring (String.length k) (String.length s - String.length k) s)
  else None.

(** Recursive descent; every call consumes fuel. [json_elements] reads
    the elements of an array after the first one, [json_members] the members
    of an object after the first one. *)
Fixpoint json_value (fuel : nat) (s : string) : option (value * string) :=
  match fuel with
  | O => None
  | Datatypes.S fuel' =>
      match skip_ws s with
      | EmptyString => None
      | String c s' =>
          if (code c =? 123)%N then
            match starts_with 125 (skip_ws s') with
            | Some rest => Some (VObj [], rest)
            | None =>
                match json_member fuel' s' with
                | Some (k, v, rest) => json_members fuel' [(k, v)] rest
                | None => None
                end
            end
          else if (code c =? 91)%N then
            match starts_with 93 (skip_ws s') with
            | Some rest => Some (VArr [], rest)
            | None =>
                match json_value fuel' s' with
                | Some (v, rest) => json_elements fuel' [v] rest
                | None => None
                end
            end
          else if (code c =? 34)%N then
            match string_body s' None with
            | Some (str, rest) => Some (VStr str, rest)
            | None => None
            end
          else if (code c =? 116)%N then keyword "true" (VBool true) (String c s')
          else if (code c =? 102)%N then keyword "false" (VBool false) (String c s')
          else if (code c =? 110)%N then keyword "null" VNull (String c s')
          else
            match json_number (String c s') with
            | Some (n, rest) => Some (VNum n, rest)
            | None => None
            end
      end
  end
with json_member (fuel : nat) (s : string) : option (string * value * string) :=
  match fuel with
  | O => None
  | Datatypes.S fuel' =>
      match starts_with 34 (skip_ws s) with
      | Some s1 =>
          match string_body s1 None with
          | Some (k, s2) =>
              match starts_with 58 (skip_ws s2) with
              | Some s3 =>
                  match json_value fuel' s3 with
                  | Some (v, rest) => Some (k, v, rest)
                  | None => None
                  end
              | None => None
              end
          | None => None
          end
      | None => None
      end
  end
with json_elements (fuel : nat) (acc : list value) (s : string)
  : option (value * string) :=
  match fuel with
  | O => None
  | Datatypes.S fuel' =>
      match skip_ws s with
      | String c s' =>
          if (code c =? 93)%N then Some (VArr acc, s')
          else if (code c =? 44)%N then
            match json_value fuel' s' with
            | Some (v, rest) => json_elements fuel' (acc ++ [v])%list rest
            | None => None
            end
          else None
      | EmptyString => None
      end
  end
with json_members (fuel : nat) (acc : list (string * value)) (s : string)
  : option (value * string) :=
  match fuel with
  | O => None
  | Datatypes.S fuel' =>
      match skip_ws s with
      | String c s' =>
          if (code c =? 125)%N then Some (VObj acc, s')
          else if (code c =? 44)%N then
            match json_member fuel' s' with
            | Some (k, v, rest) => json_members fuel' (set_property k v acc) rest
            | None => None
            end
          else None
      | EmptyString => None
      end
  end.

Definition JSON_parse (s : string) : option value :=
  match json_value (2 * String.length s + 2) s with
  | Some (v, rest) =>
      match skip_ws rest with
      | EmptyString => Some v
      | _ => None
      end
  | None => None
  end.

(** [trim], for the ASCII white space and line terminators. *)
Definition is_space (c : ascii) : bool :=
  match code c with
  | 9%N | 10%N | 11%N | 12%N | 13%N | 32%N => true
  | _ => false
  end.

Fixpoint trim_left (s : string) : string :=
  match s with
  | String c s' => if is_space c then trim_left s' else s
  | EmptyString => s
  end.

Fixpoint trim_right (s : string) : string :=
  match s with
  | String c s' =>
      match trim_right s' with
      | EmptyString => if is_space c then EmptyString else String c EmptyString
      | t => String c t
      end
  | EmptyString => EmptyString
  end.

Definition trim (s : string) : string := trim_right (trim_left s).

(** The digits of [r / d] after the decimal point, for [r < d]. *)
Fixpoint fraction_digits (fuel : nat) (r d : N) : string :=
  match fuel with
  | O => ""
  | Datatypes.S fuel' =>
      if (r =? 0)%N then ""
      else digit ((r * 10) / d) ++ fraction_digits fuel' ((r * 10) mod d) d
  end.

(** Number::toString in plain decimal notation. *)
Definition NumberToString (n : number) : string :=
  match n with
  | NaN => "NaN"
  | Infinity false => "Infinity"
  | Infinity true => "-Infinity"
  | Finite q =>
      let q := Qred q in
      let a := Z.abs_N (Qnum q) in
      let d := Npos (Qden q) in
      let sign := if (Qnum q <? 0)%Z then "-" else "" in
      let ip := decimal_N (a / d) in
      if (a mod d =? 0)%N then sign ++ ip
      else sign ++ ip ++ "." ++ fraction_digits 40 (a mod d) d
  end.

(** The digits of a literal in a radix 2, 8 or 16. *)
Fixpoint radix_value (radix : N) (s : string) (acc : N) : option N :=
  match s with
  | EmptyString => Some acc
  | String c s' =>
      match hex_val c with
      | Some v => if (v <? radix)%N then radix_value radix s' (acc * radix + v) else None
      | None => None
      end
  end.

Definition unsigned_decimal (negative : bool) (s : string) : number :=
  let (ip, rest) := span_digits s in
  let (fp, rest1) :=
    match starts_with 46 rest with
    | Some r => span_digits r
    | None => (EmptyString, rest)
    end in
  if nonempty ip || nonempty fp then
    match exponent rest1 with
    | Some (e, EmptyString) =>
        let m := Z_of_digits (ip ++ fp) 0 in
        let m := if negative then (- m)%Z else m in
        Finite (scale m (e - Z.of_nat (String.length fp)))
    | _ => NaN
    end
  else NaN.

Definition radix_literal (radix : N) (ds : string) : number :=
  if nonempty ds then
    match radix_value radix ds 0 with
    | Some n => of_Z (Z.of_N n)
    | None => NaN
    end
  else NaN.

(** StringToNumber. *)
Definition StringToNumber (s : string) : number :=
  let t := trim s in
  if t =? "" then of_Z 0
  else if (t =? "Infinity") || (t =? "+Infinity") then Infinity false
  else if t =? "-Infinity" then Infinity true
  else
    match t with
    | String c t' =>
        if (code c =? 45)%N then unsigned_decimal true t'
        else if (code c =? 43)%N then unsigned_decimal false t'
        else if prefix_of "0x" t || prefix_of "0X" t then
          radix_literal 16 (substring 2 (String.length t - 2) t)
        else if prefix_of "0o" t || prefix_of "0O" t then
          radix_literal 8 (substring 2 (String.length t - 2) t)
        else if prefix_of "0b" t || prefix_of "0B" t then
          radix_literal 2 (substring 2 (String.length t - 2) t)
        else unsigned_decimal false t
    | EmptyString => of_Z 0
    end.

Definition host : Host :=
  Build_Host JSON_parse trim NumberToString StringToNumber "course-designer" "key".

(** *** Writing JSON texts

    A literal written with single quotes stands for the same text with
    double quotes. *)
Fixpoint js (s : string) : string :=
  match s with
  | String c s' => String (if (code c =? 39)%N then ascii_of_N 34 else c) (js s')
  | EmptyString => EmptyString
  end.

(** The characters of a JSON string literal denoting [s]. *)
Fixpoint escape (s : string) : string :=
  match s with
  | String c s' =>
      (if (code c =? 34)%N then byte 92 ++ byte 34
       else if (code c =? 92)%N then byte 92 ++ byte 92
       else if (code c =? 10)%N then byte 92 ++ "n"
       else String c "") ++ escape s'
  | EmptyString => EmptyString
  end.

(** The body of a response of the service whose first candidate carries
    the text [text]. *)
Definition envelope (text : string) : string :=
  js "{'candidates':[{'content':{'parts':[{'text':'" ++ escape text ++ js "'}]}}]}".

Definition answers (text : string) : FetchOutcome :=
  Resolves (mkResponse true 200 (envelope text)).

(** A service that gives the listed answers in turn, and then only network
    failures. *)
Definition scripted (outcomes : list FetchOutcome) : nat -> FetchOutcome :=
  fun n => nth n outcomes (Rejects (TypeError "Failed to fetch")).
End Reference.

(** ** Vocabulary of the statements *)

(** *** The service *)

(** The text of the first part of the first candidate, as the client reads
    it. *)
Definition response_text (result : value) : value :=
  opt_get (opt_first (opt_get (opt_get (opt_first (opt_get result "candidates"))
                                        "content") "parts")) "text".

(** The textual payload of a decoded service response: that text, when it is
    a non-empty string. *)
Definition textual_payload (result : value) : option string :=
  match response_text result with
  | VStr EmptyString => None
  | VStr text => Some text
  | _ => None
  end.

(** A value has the shape a schema declares (all properties are optional). *)
Fixpoint conforms (sch : Schema) (v : value) : bool :=
  match sch, v with
  | STRING, VStr _ => true
  | NUMBER, VNum _ => true
  | ARRAY item, VArr l => forallb (conforms item) l
  | OBJECT fields, VObj props =>
      forallb (fun f => match own_property (fst f) props with
                        | VUndefined => true
                        | x => conforms (snd f) x
                        end) fields
  | _, _ => false
  end.

(** The schema a structured request declares. *)
Definition declared_schema (systemPrompt : string) : option Schema :=
  option_map responseSchema
    (generationConfig (request_payload systemPrompt "" true)).

Section ServiceView.
Context {host : Host}.

(** What one call of [callGeminiApi] returns, as a function of what its
    [fetch] does. *)
Definition decode (isJson : bool) (o : FetchOutcome) : Result value :=
  match o with
  | Rejects e => Throw e
  | Resolves response =>
      if negb (ok response) then
        Throw (Error ("API call failed with status " ++ decimal (status response)
                      ++ ": " ++ body response))
      else
        match JSON_parse (body response) with
        | None => Throw (SyntaxError "Unexpected token in JSON")
        | Some result =>
            match get result "candidates" with
            | Throw e => Throw e
            | Ok candidates =>
                let candidate := opt_first candidates in
                if truthy candidate && truthy (candidate_text candidate) then
                  match candidate_text candidate with
                  | VStr text =>
                      if isJson then
                        match JSON_parse (trim text) with
                        | Some v => Ok v
                        | None => Throw (MalformedJson (trim text))
                        end
                      else Ok (VStr (trim text))
                  | _ => Throw (TypeError "candidate.content.parts[0].text.trim is not a function")
                  end
                else Throw EmptyResponse
            end
        end
  end.

(** One [withRetry(() => callGeminiApi(...))] seen from the service: the
    state is the index of the next [fetch]; the result is paired with the
    index after the call. *)
Definition generation (service_ : nat -> FetchOutcome) (isJson : bool)
  : M nat value :=
  withRetry (fun _ n => n) (fun _ _ _ n => n)
            (fun n => (decode isJson (service_ n), Datatypes.S n)) 5.

(** The results of [k] consecutive structured generation calls, the first
    of which starts at [fetch] number [n]. *)
Fixpoint generations (service_ : nat -> FetchOutcome) (n k : nat)
  : list (Result value) :=
  match k with
  | O => []
  | Datatypes.S k' =>
      let (r, n') := generation service_ true n in
      r :: generations service_ n' k'
  end.
End ServiceView.

(** *** Worlds *)

(** The store operations among logged events. *)
Definition is_store_op (e : Event) : bool :=
  match e with
  | GetDocs _ | DeleteDoc _ _ | AddDoc _ _ _ => true
  | _ => false
  end.

Definition store_ops (l : list Event) : list Event := filter is_store_op l.

(** An [addDoc] on one of the given collections. *)
Definition adds_to (paths : list string) (e : Event) : Prop :=
  exists path id d, e = AddDoc path id d /\ In path paths.

(** [w'] differs from [w] by network activity only: the component state, the
    store and the id counter are the same, and the events logged in between
    are no store operations. *)
Definition only_network (w w' : World) : Prop :=
  app w' = app w /\ store w' = store w /\ next_id w' = next_id w
  /\ service w' = service w
  /\ exists l, log w' = (log w ++ l)%list /\ store_ops l = [].

(** [w'] is [w] up to the store, the id counter and the log. *)
Definition same_session (w w' : World) : Prop :=
  app w' = app w /\ service w' = service w /\ fetched w' = fetched w
  /\ clock w' = clock w.

(** The parts of the component state that the generation workflows and the
    asset listeners never write. *)
Definition same_selection (a a' : AppState) : Prop :=
  db a' = db a /\ userId a' = userId a /\ isAuthReady a' = isAuthReady a
  /\ activeTopic a' = activeTopic a /\ courseName a' = courseName a.

(** *** Documents and collections *)

(** The private collection of a user. *)
Definition private_path `{Host} (u collectionName : string) : string :=
  "artifacts/" ++ appId ++ "/users/" ++ u ++ "/" ++ collectionName.

(** A collection after the deletion of the documents with the given ids, one
    [deleteDoc] after the other. *)
Fixpoint remove_docs (ids : list DocId) (c : Collection) : Collection :=
  match ids with
  | [] => c
  | id :: rest => remove_docs rest (remove_doc id c)
  end.

(** The asset of one generated MCQ item, with the number [c] as its
    [correctIndex]. *)
Definition mcq_asset (topicId : DocId) (createdAt : Z) (item : value) (c : number) : Asset :=
  McqAsset topicId (opt_get item "question") (opt_get item "options") c createdAt.

(** The [correctIndex] under which the insertion loop of generate-assessment
    persists an item, when it gets past it: it does not when the item is
    [null] or when [Number()] throws on its [correct_answer_index]. *)
Definition correctIndex_for `{Host} (item : value) : option number :=
  if nullish item then None
  else match number_or_zero (opt_get item "correct_answer_index") with
       | Ok c => Some c
       | Throw _ => None
       end.

(** The items the loop gets past: those before the first one it stops at. *)
Fixpoint persisted_items `{Host} (items : list value) : list (value * number) :=
  match items with
  | [] => []
  | item :: rest =>
      match correctIndex_for item with
      | Some c => (item, c) :: persisted_items rest
      | None => []
      end
  end.

(** The documents inserted for the items the loop gets past. *)
Definition saved_docs `{Host} (topicId : DocId) (createdAt : Z) (next : DocId)
           (items : list value) : Collection :=
  combine (seq next (List.length (persisted_items items)))
          (map (fun s => DAsset (mcq_asset topicId createdAt (fst s) (snd s)))
               (persisted_items items)).

(** The asset [a] is the record of the generated item [item]: it has the
    question and the options of the item, and as [correctIndex] the number
    [Number(correct_answer_index) || 0]. *)
Definition mcq_saved `{Host} (topicId : DocId) (item : value) (a : Asset) : Prop :=
  nullish item = false
  /\ exists (n : number) (createdAt : Z),
       ToNumber (opt_get item "correct_answer_index") = Ok n
       /\ a = mcq_asset topicId createdAt item (or_zero n).

(** The [correctIndex] of a stored MCQ asset. *)
Definition correctIndex_of (d : Doc) : option number :=
  match d with
  | DAsset (McqAsset _ _ _ i _) => Some i
  | _ => None
  end.

(** The lab asset built from a generated lab object. *)
Definition lab_asset `{Host} (topic : DocId * Topic) (createdAt : Z) (data : value) : Asset :=
  LabAsset (fst topic) (ToString (topic_title (snd topic)) ++ " Practice Lab")
           (opt_get data "problemStatement") (opt_get data "steps")
           (opt_get data "expectedOutcome") createdAt.

(** One regeneration as the user triggers it: the asset listeners have
    caught up with the store, then the handler runs. *)
Definition regenerate_mcqs `{Host} (w : World) : World :=
  snd (handleGenerateMCQs (notify_assets w)).

Definition regenerate_lab `{Host} (w : World) : World :=
  snd (handleGenerateLab (notify_assets w)).

(** *** The course tree *)

(** What a run of generate-course adds below the course: the module
    documents, each with the topic documents written for it. *)
Definition Tree : Type := list (DocId * Module_ * list (DocId * Topic)).

Definition module_id (n : DocId * Module_ * list (DocId * Topic)) : DocId :=
  fst (fst n).

Definition tree_modules (t : Tree) : Collection :=
  map (fun n => (module_id n, DModule (snd (fst n)))) t.

Definition topic_docs (l : list (DocId * Topic)) : Collection :=
  map (fun d => (fst d, DTopic (snd d))) l.

Definition tree_topics (t : Tree) : Collection :=
  flat_map (fun n => topic_docs (snd n)) t.

(** The [j]-th element (0-indexed) of a topics array, as the topic record [d]
    of the module [moduleId]. *)
Definition topic_saved (moduleId : DocId) (entry : nat * value) (d : DocId * Topic) : Prop :=
  topic_moduleId (snd d) = moduleId
  /\ topic_order (snd d) = Z.of_nat (fst entry + 1)
  /\ topic_title (snd d)
     = or_else (opt_get (snd entry) "topic_title")
               (VStr ("Topic " ++ decimal (fst entry + 1)))
  /\ topic_content (snd d)
     = or_else (opt_get (snd entry) "content_draft") (VStr "Content draft pending.").

(** The [i]-th generated module (0-indexed) as the module record [d] of the
    course [courseId]. *)
Definition module_record (courseId : DocId) (entry : nat * value)
           (d : DocId * Module_) : Prop :=
  module_courseId (snd d) = courseId
  /\ module_order (snd d) = Z.of_nat (fst entry + 1)
  /\ module_title (snd d) = opt_get (snd entry) "title"
  /\ module_objective (snd d) = opt_get (snd entry) "objective".

Definition module_docs (l : list (DocId * Module_)) : Collection :=
  map (fun d => (fst d, DModule (snd d))) l.

(** The [i]-th generated module (0-indexed), with the value its
    topic-generation call returned, as the module record of [n] with its
    topic records: one per element when that value is an array, none
    otherwise. *)
Definition module_saved (courseId : DocId) (entry : nat * (value * value))
           (n : DocId * Module_ * list (DocId * Topic)) : Prop :=
  let moduleData := fst (snd entry) in
  let generatedTopicsData := snd (snd entry) in
  module_courseId (snd (fst n)) = courseId
  /\ module_order (snd (fst n)) = Z.of_nat (fst entry + 1)
  /\ module_title (snd (fst n)) = opt_get moduleData "title"
  /\ module_objective (snd (fst n)) = opt_get moduleData "objective"
  /\ Forall2 (topic_saved (module_id n))
             (combine (seq 0 (List.length (elements generatedTopicsData)))
                      (elements generatedTopicsData))
             (snd n).

(** ** Worlds to run the model on *)

(** The component right after authentication, with the initial values of its
    [useState] cells. *)
Definition initial_app : AppState :=
  mkApp true (Some "user-1") true None home "Full Stack Java" None [] false
        None [] None content_tab [] None.

Definition empty_store : Store := fun _ => [].

Definition world_of (a : AppState) (st : Store) (next : DocId)
           (service_ : nat -> FetchOutcome) : World :=
  mkWorld a st next service_ 0 0 [].

(** A 2xx response with the given body. *)
Definition replies (body_ : string) : FetchOutcome :=
  Resolves (mkResponse true 200 body_).

(** *** Answers of the service *)

(** The service answers the first request with a JSON object where an array
    was declared. *)
Definition object_reply_world : World :=
  world_of initial_app empty_store 0 (Reference.scripted [Reference.answers "{}"]).

(** The service answers with a text that is no JSON. *)
Definition garbled_reply_world : World :=
  world_of initial_app empty_store 0 (Reference.scripted [Reference.answers "oops"]).

(** The service answers with an envelope without candidates. *)
Definition empty_reply_world : World :=
  world_of initial_app empty_store 0 (Reference.scripted [replies "{}"]).

(** The service answers with the JSON text [null]. *)
Definition null_reply_world : World :=
  world_of initial_app empty_store 0 (Reference.scripted [replies "null"]).

(** The service answers first without candidates, then with a text that is no
    JSON, then with an empty array. *)
Definition flaky_world : World :=
  world_of initial_app empty_store 0
    (Reference.scripted [replies "{}"; Reference.answers "oops"; Reference.answers "[]"]).

(** *** A session of the sync engine

    The user opens module 1; then the courses listener is notified (the course
    document changed), which switches the view back to the module list and
    leaves the active module in place. *)
Definition module_1 : DocId * Module_ :=
  (1, mkModule 7 (VStr "Basics") (VStr "Learn the basics") 1 0).

Definition module_1_revised : DocId * Module_ :=
  (1, mkModule 7 (VStr "Basics, revised") (VStr "Learn the basics") 1 0).

Definition module_2 : DocId * Module_ :=
  (2, mkModule 7 (VStr "Next steps") (VStr "Go further") 2 0).

Definition course_7 : DocId * Course :=
  (7, mkCourse "Full Stack Java" "draft" 0 (Some "user-1")).

Definition viewing_module_1 : AppState :=
  handleViewModule module_1 (on_modules [module_1; module_2] (on_courses [course_7] initial_app)).

Definition back_on_module_list : AppState :=
  on_courses [course_7] viewing_module_1.

(** *** A topic to generate assets for *)

Definition topic_5 : DocId * Topic :=
  (5, mkTopic 3 (VStr "Loops") (VStr "A loop repeats a block of statements.") 1 0).

Definition on_topic_5 : AppState :=
  handleViewTopic topic_5 viewing_module_1.

(** The service returns one MCQ whose [correct_answer_index] is 1.5. *)
Definition fractional_index_world : World :=
  world_of on_topic_5 empty_store 0
    (Reference.scripted
       [Reference.answers
          (Reference.js "[{'question':'Q','options':['a','b','c','d'],'correct_answer_index':1.5}]")]).

(** The service returns two MCQs, the [correct_answer_index] of the second
    being an object with a [toString] entry of its own. *)
Definition unconvertible_index_world : World :=
  world_of on_topic_5 empty_store 0
    (Reference.scripted
       [Reference.answers
          (Reference.js "[{'question':'Q1','options':['a','b','c','d'],'correct_answer_index':1},{'question':'Q2','options':['a','b','c','d'],'correct_answer_index':{'toString':1}}]")]).

(** The service returns two MCQs, then one. *)
Definition two_assessments_world : World :=
  world_of on_topic_5 empty_store 0
    (Reference.scripted
       [Reference.answers
          (Reference.js "[{'question':'Q1','options':['a','b','c','d'],'correct_answer_index':2},{'question':'Q2','options':['a','b','c','d']}]");
        Reference.answers
          (Reference.js "[{'question':'Q3','options':['a','b','c','d'],'correct_answer_index':'1'}]")]).

(** The service returns two MCQs, then an array whose second element is
    [null]. *)
Definition interrupted_assessment_world : World :=
  world_of on_topic_5 empty_store 0
    (Reference.scripted
       [Reference.answers
          (Reference.js "[{'question':'Q1','options':['a','b','c','d'],'correct_answer_index':2},{'question':'Q2','options':['a','b','c','d'],'correct_answer_index':0}]");
        Reference.answers
          (Reference.js "[{'question':'Q3','options':['a','b','c','d'],'correct_answer_index':1},null]")]).

(** The service returns a lab, then an empty envelope five times (a failed
    generation), then a second lab. *)
Definition three_labs_world : World :=
  world_of on_topic_5 empty_store 0
    (Reference.scripted
       [Reference.answers
          (Reference.js "{'problemStatement':'P1','steps':['a','b','c'],'expectedOutcome':'O1'}");
        replies "{}"; replies "{}"; replies "{}"; replies "{}"; replies "{}";
        Reference.answers
          (Reference.js "{'problemStatement':'P2','steps':['d','e','f'],'expectedOutcome':'O2'}")]).

(** *** Courses to generate *)

Definition two_modules_text : string :=
  Reference.js "[{'title':'Basics','objective':'Start'},{'title':'Next','objective':'Go on'}]".

(** The caller has an old course; the service returns two modules, two
    topics for the first one and a JSON object instead of a topics array for
    the second one. *)
Definition course_world : World :=
  world_of initial_app
    (store_set empty_store (@private_path Reference.host "user-1" "courses")
       [(40, DCourse (mkCourse "Old course" "draft" 0 (Some "user-1")))])
    41
    (Reference.scripted
       [Reference.answers two_modules_text;
        Reference.answers
          (Reference.js "[{'topic_title':'T1','content_draft':'C1'},{'content_draft':'C2'}]");
        Reference.answers (Reference.js "{'topic_title':'T'}")]).

(** The service returns two modules and then stops answering: the topic
    generation of the first module fails on all five attempts. *)
Definition failing_topics_world : World :=
  world_of initial_app empty_store 0
    (Reference.scripted [Reference.answers two_modules_text]).


(** ** Further vocabulary *)

(** *** What a log shows *)

Definition is_fetch (e : Event) : bool :=
  match e with Fetch _ _ => true | _ => false end.

(** The requests among logged events. *)
Definition fetches (l : list Event) : list Event := filter is_fetch l.

(** The delays of the [setTimeout] waits among logged events, in order. *)
Definition sleeps_of (l : list Event) : list Z :=
  flat_map (fun e => match e with Sleep d => [d] | _ => [] end) l.

(** The warnings among logged events, in order. *)
Definition warnings_of (l : list Event) : list (nat * Z * exn) :=
  flat_map (fun e => match e with ConsoleWarn a d x => [(a, d, x)] | _ => [] end) l.

(** The first [k] delays of the backoff: 1000, 2000, 4000, ... *)
Definition backoff (k : nat) : list Z :=
  map (fun j => (1000 * 2 ^ Z.of_nat j)%Z) (seq 0 k).

Definition total (l : list Z) : Z := fold_right Z.add 0%Z l.

(** *** Runs that only add documents *)

(** [w'] is [w] after requests were made and documents were added, every
    added document [d] satisfying [P path d] for the collection [path] it
    went to: nothing was deleted, the component state is the same, and the
    new documents have fresh ids. *)
Definition extended (P : string -> Doc -> Prop) (w w' : World) : Prop :=
  app w' = app w /\ service w' = service w
  /\ fetched w <= fetched w' /\ next_id w <= next_id w'
  /\ (forall p, exists added,
        store w' p = (store w p ++ added)%list
        /\ Forall (fun d => P p (snd d) /\ next_id w <= fst d < next_id w') added)
  /\ exists l, log w' = (log w ++ l)%list
       /\ Forall (fun e => exists p id d, e = AddDoc p id d /\ P p d) (store_ops l).

(** A computation that, whatever its outcome, only does that. *)
Definition extends (P : string -> Doc -> Prop) {A : Type} (m : M World A) : Prop :=
  forall w, extended P w (snd (m w)).

(** The cells of the component state that only the listeners and the
    navigation handlers write. *)
Definition same_cells (a a' : AppState) : Prop :=
  db a' = db a /\ userId a' = userId a /\ isAuthReady a' = isAuthReady a
  /\ currentView a' = currentView a /\ courseName a' = courseName a
  /\ course a' = course a /\ modules a' = modules a
  /\ activeModule a' = activeModule a /\ topics a' = topics a
  /\ activeTopic a' = activeTopic a /\ mcqs a' = mcqs a /\ lab_ a' = lab_ a.

(** The end of a generation handler: what its [catch] and [finally] blocks
    make of the outcome of its [try] block. *)
Definition settle (label fallback : string) (r : Result unit * World) : World :=
  match r with
  | (Ok _, w1) => with_app (setIsLoading false) w1
  | (Throw e, w1) =>
      with_app (setIsLoading false)
        (with_app (setError (Some (message_or e fallback)))
           (emit (ConsoleError label e) w1))
  end.

(** The world in which the [try] block of a generation handler starts. *)
Definition started (w : World) : World :=
  with_app (setError None) (with_app (setIsLoading true) w).

(** *** A topic that has assets already

    The assets collection of the caller holds an MCQ and a lab of topic 5
    and an MCQ of topic 6. *)
Definition mixed_assets : Store :=
  store_set empty_store (@private_path Reference.host "user-1" "assets")
    [(10, DAsset (McqAsset 5 (VStr "Old Q") (VArr []) (of_Z 0) 0));
     (11, DAsset (LabAsset 5 "Loops Practice Lab" (VStr "Old P") (VArr []) (VStr "Old O") 0));
     (12, DAsset (McqAsset 6 (VStr "Other Q") (VArr []) (of_Z 1) 0))].

(** The service returns one MCQ. *)
Definition assessment_over_assets_world : World :=
  world_of on_topic_5 mixed_assets 13
    (Reference.scripted
       [Reference.answers (Reference.js "[{'question':'Q1','correct_answer_index':2}]")]).

(** The service returns a lab. *)
Definition lab_over_assets_world : World :=
  world_of on_topic_5 mixed_assets 13
    (Reference.scripted
       [Reference.answers
          (Reference.js "{'problemStatement':'P1','steps':['a','b','c'],'expectedOutcome':'O1'}")]).

(** *** The queries of the course, module and topic listeners *)

(** The result set of [query(collection(db, coursesCollectionPath))]. *)
Fixpoint courses_in (c : Collection) : list (DocId * Course) :=
  match c with
  | [] => []
  | (id, DCourse x) :: rest => (id, x) :: courses_in rest
  | _ :: rest => courses_in rest
  end.

(** The result set of [query(modules, where('courseId', '==', courseId))]. *)
Fixpoint modules_where (c : Collection) (courseId : DocId) : list (DocId * Module_) :=
  match c with
  | [] => []
  | (id, DModule m) :: rest =>
      if (module_courseId m =? courseId)%nat
      then (id, m) :: modules_where rest courseId
      else modules_where rest courseId
  | _ :: rest => modules_where rest courseId
  end.

(** The result set of [query(topics, where('moduleId', '==', moduleId))]. *)
Fixpoint topics_where (c : Collection) (moduleId : DocId) : list (DocId * Topic) :=
  match c with
  | [] => []
  | (id, DTopic t) :: rest =>
      if (topic_moduleId t =? moduleId)%nat
      then (id, t) :: topics_where rest moduleId
      else topics_where rest moduleId
  | _ :: rest => topics_where rest moduleId
  end.

Section TreeSubscriptions.
Context {host : Host}.

(** The courses effect with its listener notified of the current contents
    of the store; without a user, a store handle or authentication there is
    no subscription. *)
Definition notify_courses (w : World) : World :=
  let a := app w in
  match isAuthReady a && db a, getCollectionPath (userId a) "courses" false with
  | true, Some path => with_app (on_courses (courses_in (store w path))) w
  | _, _ => w
  end.

(** The modules effect, which also needs a course. *)
Definition notify_modules (w : World) : World :=
  let a := app w in
  match isAuthReady a && db a, course a,
        getCollectionPath (userId a) "modules" false with
  | true, Some c, Some path =>
      with_app (on_modules (modules_where (store w path) (fst c))) w
  | _, _, _ => w
  end.

(** The topics effect, which also needs an active module. *)
Definition notify_topics (w : World) : World :=
  let a := app w in
  match isAuthReady a && db a, activeModule a,
        getCollectionPath (userId a) "topics" false with
  | true, Some m, Some path =>
      with_app (on_topics (topics_where (store w path) (fst m))) w
  | _, _, _ => w
  end.
End TreeSubscriptions.

(** *** A second course

    The caller has a course with one module and one topic; the service
    returns two modules, two topics for the first one and one for the
    second one. *)
Definition second_course_world : World :=
  world_of initial_app
    (store_set
       (store_set
          (store_set empty_store (@private_path Reference.host "user-1" "courses")
             [(40, DCourse (mkCourse "Old course" "draft" 0 (Some "user-1")))])
          (@private_path Reference.host "user-1" "modules")
          [(30, DModule (mkModule 40 (VStr "Old module") (VStr "Old objective") 1 0))])
       (@private_path Reference.host "user-1" "topics")
       [(31, DTopic (mkTopic 30 (VStr "Old topic") (VStr "Old content") 1 0))])
    41
    (Reference.scripted
       [Reference.answers two_modules_text;
        Reference.answers
          (Reference.js "[{'topic_title':'T1','content_draft':'C1'},{'content_draft':'C2'}]");
        Reference.answers (Reference.js "[{'topic_title':'T3','content_draft':'C3'}]")]).

(** ** The component as a whole: start-up, rendering and user actions *)

Definition setDb (b : bool) (a : AppState) : AppState :=
  mkApp b (userId a) (isAuthReady a) (error a) (currentView a) (courseName a)
        (course a) (modules a) (isLoading a) (activeModule a) (topics a) (activeTopic a)
        (selectedTab a) (mcqs a) (lab_ a).

Definition setUserId (u : option string) (a : AppState) : AppState :=
  mkApp (db a) u (isAuthReady a) (error a) (currentView a) (courseName a)
        (course a) (modules a) (isLoading a) (activeModule a) (topics a) (activeTopic a)
        (selectedTab a) (mcqs a) (lab_ a).

Definition setIsAuthReady (b : bool) (a : AppState) : AppState :=
  mkApp (db a) (userId a) b (error a) (currentView a) (courseName a)
        (course a) (modules a) (isLoading a) (activeModule a) (topics a) (activeTopic a)
        (selectedTab a) (mcqs a) (lab_ a).

Definition setCourseName (s : string) (a : AppState) : AppState :=
  mkApp (db a) (userId a) (isAuthReady a) (error a) (currentView a) s
        (course a) (modules a) (isLoading a) (activeModule a) (topics a) (activeTopic a)
        (selectedTab a) (mcqs a) (lab_ a).

(** The initial values of the [useState] cells. *)
Definition mounted_app : AppState :=
  mkApp false None false None home "Full Stack Java" None [] false
        None [] None content_tab [] None.

(** *** Start-up *)

(** The module-level caches [dbInstance] and [authInstance]: whether each
    holds a handle. *)
Record Instances : Type := mkInstances {
  dbInstance : bool;
  authInstance : bool
}.

(** A computation on the world, run beside the caches. *)
Definition on_world {A : Type} (m : M World A) : M (Instances * World) A :=
  fun s => let (r, w') := m (snd s) in (r, (fst s, w')).

(** The initialisation effect, given what [initializeApp], [getFirestore]
    and [getAuth] do when called; the result tells whether the effect went
    on to subscribe [onAuthStateChanged].  ([setAuth] writes a cell that
    nothing reads.) *)
Definition init_effect (initializeApp getFirestore getAuth : Result unit)
  : M (Instances * World) bool :=
  fun s =>
    let attempt : M (Instances * World) unit :=
      if negb (dbInstance (fst s)) then
        lift initializeApp ;;;
        lift getFirestore ;;;
        effect (fun s => (mkInstances true (authInstance (fst s)), snd s)) ;;;
        lift getAuth ;;;
        effect (fun s => (mkInstances (dbInstance (fst s)) true, snd s)) ;;;
        on_world (setState (setDb true))
      else ret tt in
    match attempt s with
    | (Throw e, s1) =>
        (on_world (console_error "Firebase initialization failed:" e) ;;;
         on_world (setState (setError
           (Some "Firebase initialization failed. Check console for details."))) ;;;
         on_world (setState (setIsAuthReady true)) ;;;
         ret false) s1
    | (Ok _, s1) =>
        if negb (authInstance (fst s1)) then (Ok false, s1) else (Ok true, s1)
    end.

(** [const initialAuthToken = null]. *)
Definition initialAuthToken : option string := None.

(** The listener given to [onAuthStateChanged]: [user] is the [uid] of the
    signed-in user, if any; the two sign-in calls resolve to the [uid] of
    the credential's user or reject; [randomUUID] is what
    [crypto.randomUUID()] returns. *)
Definition auth_listener (signInWithCustomToken : string -> Result string)
           (signInAnonymously : Result string) (randomUUID : string)
           (user : option string) : M World unit :=
  match user with
  | Some uid => setState (setUserId (Some uid))
  | None =>
      try_catch
        (match initialAuthToken with
         | Some token =>
             uid <- lift (signInWithCustomToken token) ;;
             setState (setUserId (Some uid))
         | None =>
             uid <- lift signInAnonymously ;;
             setState (setUserId (Some uid))
         end)
        (fun e =>
           console_error "Anonymous or Custom Token sign-in failed:" e ;;;
           setState (setUserId (Some ("guest-" ++ randomUUID))))
  end ;;;
  setState (setIsAuthReady true).

(** *** Rendering *)

(** What [App] returns: the error card, the initialisation spinner, one of
    the four views, or the spinner of the router. *)
Inductive Screen : Type :=
| ApplicationError
| Initializing
| HomeView
| ModulesView
| ModuleDetailView
| TopicDetailView
| LoadingState.

Definition is_some {A : Type} (o : option A) : bool :=
  match o with Some _ => true | None => false end.

Definition View_eqb (v v' : View) : bool :=
  match v, v' with
  | home, home | modules_view, modules_view | module_view, module_view
  | topic_view, topic_view => true
  | _, _ => false
  end.

(** Truthiness of the [error] cell, a string or [null]. *)
Definition error_truthy (a : AppState) : bool :=
  match error a with
  | Some m => negb (m =? "")
  | None => false
  end.

Definition render (a : AppState) : Screen :=
  if error_truthy a && negb (isAuthReady a) then ApplicationError
  else if negb (isAuthReady a) || negb (db a) then Initializing
  else if negb (is_some (course a)) && negb (isLoading a) then HomeView
  else if View_eqb (currentView a) modules_view
          || (is_some (course a) && negb (is_some (activeModule a)))
       then ModulesView
  else if View_eqb (currentView a) module_view && is_some (activeModule a)
          && negb (is_some (activeTopic a))
       then ModuleDetailView
  else if View_eqb (currentView a) topic_view && is_some (activeTopic a)
       then TopicDetailView
  else LoadingState.

(** *** User actions *)

Inductive Action : Type :=
| TypeCourseName (value : string)
| ClickGenerateCourse
| ClickModule (m : DocId * Module_)
| ClickBackToModules
| ClickTopic (t : DocId * Topic)
| ClickBackToTopics
| ClickTab (tab : Tab)
| ClickGenerateMCQs
| ClickGenerateLab.

Section Actions.
Context {host : Host}.

(** The actions that the screen rendered for a state offers: the bound
    handlers of the elements that are not disabled ([Button] is disabled
    while [isLoading]). *)
Definition offers (a : AppState) (act : Action) : Prop :=
  match render a, act with
  | HomeView, TypeCourseName _ => isLoading a = false
  | HomeView, ClickGenerateCourse => trim (courseName a) <> "" /\ isLoading a = false
  | ModulesView, ClickModule m => In m (modules a)
  | ModulesView, ClickGenerateCourse => isLoading a = false
  | ModuleDetailView, ClickBackToModules => True
  | ModuleDetailView, ClickTopic t => In t (topics a)
  | TopicDetailView, ClickBackToTopics => True
  | TopicDetailView, ClickTab _ => True
  | TopicDetailView, ClickGenerateMCQs => selectedTab a = mcqs_tab /\ isLoading a = false
  | TopicDetailView, ClickGenerateLab => selectedTab a = lab_tab /\ isLoading a = false
  | _, _ => False
  end.

(** What an action does to the state at once.  The three generation
    handlers are asynchronous: their writes come later. *)
Definition perform (act : Action) (a : AppState) : AppState :=
  match act with
  | TypeCourseName value => setCourseName value a
  | ClickModule m => handleViewModule m a
  | ClickBackToModules => handleViewModulesList a
  | ClickTopic t => handleViewTopic t a
  | ClickBackToTopics =>
      setSelectedTab content_tab (setTopics [] (setActiveTopic None
        (setCurrentView module_view (setActiveModule (activeModule a) a))))
  | ClickTab tab => setSelectedTab tab a
  | ClickGenerateCourse | ClickGenerateMCQs | ClickGenerateLab => a
  end.

(** The conditions under which the effects subscribe their listeners. *)
Definition signed_in (a : AppState) : bool :=
  isAuthReady a && db a
  && match userId a with Some u => negb (u =? "") | None => false end.

Definition courses_subscribed (a : AppState) : bool := signed_in a.
Definition modules_subscribed (a : AppState) : bool := signed_in a && is_some (course a).
Definition topics_subscribed (a : AppState) : bool :=
  signed_in a && is_some (activeModule a).
Definition assets_subscribed (a : AppState) : bool :=
  signed_in a && is_some (activeTopic a).

(** One step of the running component: an effect or a listener runs, the
    user acts on what is rendered, or a generation handler that was started
    from a view makes progress (it writes no cell other than [isLoading],
    [error] and [selectedTab]).  Every step starts from a rendered state:
    the writes of a step are rendered, and the effects that depend on them
    have run again, before the next listener or user event is handled.  A
    listener is given any result set. *)
Inductive step : Instances * World -> Instances * World -> Prop :=
| step_init (s : Instances * World) (initializeApp getFirestore getAuth : Result unit) :
    step s (snd (init_effect initializeApp getFirestore getAuth s))
| step_auth (i : Instances) (w : World) (custom : string -> Result string)
            (anonymous : Result string) (uuid : string) (user : option string) :
    authInstance i = true ->
    step (i, w) (i, snd (auth_listener custom anonymous uuid user w))
| step_courses (i : Instances) (w : World) (docs : list (DocId * Course)) :
    courses_subscribed (app w) = true ->
    step (i, w) (i, with_app (on_courses docs) w)
| step_courses_error (i : Instances) (w : World) (e : exn) :
    courses_subscribed (app w) = true ->
    step (i, w)
         (i, snd ((console_error "Firestore error fetching course:" e ;;;
                   setState (setError (Some "Failed to load course data."))) w))
| step_modules (i : Instances) (w : World) (docs : list (DocId * Module_)) :
    modules_subscribed (app w) = true ->
    step (i, w) (i, with_app (on_modules docs) w)
| step_topics (i : Instances) (w : World) (docs : list (DocId * Topic)) :
    topics_subscribed (app w) = true ->
    step (i, w) (i, with_app (on_topics docs) w)
| step_mcqs (i : Instances) (w : World) (docs : list (DocId * Asset)) :
    assets_subscribed (app w) = true ->
    step (i, w) (i, with_app (on_mcqs docs) w)
| step_lab (i : Instances) (w : World) (docs : list (DocId * Asset)) :
    assets_subscribed (app w) = true ->
    step (i, w) (i, with_app (on_lab docs) w)
| step_assets_reset (i : Instances) (w : World) :
    assets_subscribed (app w) = false ->
    step (i, w) (i, with_app (fun a => setLab None (setMcqs [] a)) w)
| step_action (i : Instances) (w : World) (act : Action) :
    offers (app w) act ->
    step (i, w) (i, with_app (perform act) w)
| step_progress (i : Instances) (w w' : World) :
    isAuthReady (app w) = true -> db (app w) = true ->
    same_cells (app w) (app w') ->
    step (i, w) (i, w').

(** The states the component can be in, from a mount on. *)
Inductive reachable : Instances * World -> Prop :=
| reachable_mounted (i : Instances) (w : World) :
    app w = mounted_app -> reachable (i, w)
| reachable_step (s s' : Instances * World) :
    reachable s -> step s s' -> reachable s'.

(** Any number of steps. *)
Inductive steps : Instances * World -> Instances * World -> Prop :=
| steps_done (s : Instances * World) : steps s s
| steps_more (s s1 s' : Instances * World) :
    step s s1 -> steps s1 s' -> steps s s'.
End Actions.

(** What holds between any two steps of the running component: without a
    course the view is the home view, and there is no error before
    authentication is ready. *)
Definition settled (a : AppState) : Prop :=
  (course a = None -> currentView a = home)
  /\ (isAuthReady a = false -> error a = None).

(** *** A session

    Fresh caches, a successful initialisation, an anonymous sign-in, and a
    first courses notification. *)
Definition fresh : Instances := mkInstances false false.

Definition mounted_world : World :=
  world_of mounted_app empty_store 0 (fun _ => Rejects (Error "offline")).

Definition signed_in_session : Instances * World :=
  let s1 := snd (init_effect (Ok tt) (Ok tt) (Ok tt) (fresh, mounted_world)) in
  let w2 := snd (auth_listener (fun _ => Throw (Error "no token")) (Ok "user-1") "uuid"
                   None (snd s1)) in
  (fst s1, with_app (on_courses [course_7]) w2).

(** The topic view of topic 5, on its MCQ tab. *)
Definition on_mcq_tab_world : World :=
  world_of (setSelectedTab mcqs_tab on_topic_5) empty_store 0
    (fun _ => Rejects (Error "offline")).

(** * Properties *)

(** ** Resilient caller *)

Section ResilientCallerFacts.
Variable S : Type.
Variable sleep_ : Z -> S -> S.
Variable warn_ : nat -> Z -> exn -> S -> S.
Variable fn : M S value.

(** A successful attempt ends the loop at once. *)
Lemma withRetry_loop_success (maxRetries remaining i : nat) (delay : Z) (s s' : S) (v : value) :
  fn s = (Ok v, s') ->
  withRetry_loop sleep_ warn_ fn maxRetries (Datatypes.S remaining) i delay s = (Ok v, s').
Proof. intros H. simpl. rewrite H. reflexivity. Qed.

(** A failed attempt that is not the last one warns, sleeps, doubles the
    delay and goes on. *)
Lemma withRetry_loop_retry (maxRetries remaining i : nat) (delay : Z) (s s' : S) (e : exn) :
  fn s = (Throw e, s') ->
  i <> maxRetries - 1 ->
  withRetry_loop sleep_ warn_ fn maxRetries (Datatypes.S remaining) i delay s
  = withRetry_loop sleep_ warn_ fn maxRetries remaining (i + 1) (delay * 2)%Z
      (sleep_ delay (warn_ (i + 1) delay e s')).
Proof.
  intros H Hi. simpl. rewrite H.
  destruct (Nat.eqb_spec i (maxRetries - 1)); [contradiction | reflexivity].
Qed.

(** The failure of the last attempt is rethrown. *)
Lemma withRetry_loop_last (maxRetries remaining : nat) (delay : Z) (s s' : S) (e : exn) :
  fn s = (Throw e, s') ->
  withRetry_loop sleep_ warn_ fn maxRetries (Datatypes.S remaining) (maxRetries - 1) delay s
  = (Throw e, s').
Proof. intros H. simpl. rewrite H, Nat.eqb_refl. reflexivity. Qed.
End ResilientCallerFacts.

(** The scripted operation under [withRetry]: after [k] scripted failures
    with attempts to spare, the next outcome decides. *)
Lemma mock_loop_failures (maxRetries : nat) (errors : list exn) :
  forall (remaining i : nat) (delay : Z) (tail : list (Result value))
         (tr : list Mock.event),
    remaining = maxRetries - i ->
    i + List.length errors < maxRetries ->
    withRetry_loop Mock.sleep Mock.warn Mock.operation maxRetries remaining i delay
      (Mock.mk (map Throw errors ++ tail)%list tr)
    = withRetry_loop Mock.sleep Mock.warn Mock.operation maxRetries
        (remaining - List.length errors) (i + List.length errors)
        (delay * 2 ^ Z.of_nat (List.length errors))%Z
        (Mock.mk tail (tr ++ failed_attempts (i + 1) delay errors)%list).
Proof.
  induction errors as [|e errors IH]; intros remaining i delay tail tr Hr Hk.
  - simpl. rewrite Nat.sub_0_r, Nat.add_0_r, app_nil_r, Z.mul_1_r. reflexivity.
  - simpl List.length in *.
    destruct remaining as [|remaining]; [lia|].
    rewrite withRetry_loop_retry
      with (e := e) (s' := Mock.mk (map Throw errors ++ tail)%list (tr ++ [Mock.Invoked])%list);
      [ | reflexivity | lia ].
    unfold Mock.sleep, Mock.warn. cbn [Mock.script Mock.trace].
    rewrite IH by lia.
    replace (i + 1 + List.length errors) with (i + Datatypes.S (List.length errors)) by lia.
    replace (Datatypes.S remaining - Datatypes.S (List.length errors))
      with (remaining - List.length errors) by lia.
    rewrite <- !app_assoc. cbn [app failed_attempts].
    replace (i + 1 + 1) with (Datatypes.S (i + 1)) by lia.
    rewrite Nat2Z.inj_succ, Z.pow_succ_r by lia.
    replace (delay * 2 * 2 ^ Z.of_nat (List.length errors))%Z
      with (delay * (2 * 2 ^ Z.of_nat (List.length errors)))%Z by ring.
    reflexivity.
Qed.

(** C2. With at most five attempts: when the operation fails on attempts
    [1..k] ([k <= 4]) and succeeds on attempt [k+1], the success value is
    returned; the operation has been invoked [k+1] times and, between
    consecutive attempts, the caller has slept the first [k] of 1000, 2000,
    4000, 8000, in that order.  When the operation fails five times, the
    fifth error is raised after exactly five invocations and those four
    sleeps.  In both cases the rest of the script is left untouched: nothing
    is invoked after a success or after the fifth failure. *)
Theorem withRetry_five_attempts :
  (forall (errors : list exn) (v : value) (rest : list (Result value)),
      List.length errors <= 4 ->
      let t := (failed_attempts 1 1000 errors ++ [Mock.Invoked])%list in
      Mock.run 5 (Mock.init (map Throw errors ++ Ok v :: rest)%list)
      = (Ok v, Mock.mk rest t)
      /\ Mock.invocations t = List.length errors + 1
      /\ Mock.sleeps t = firstn (List.length errors) [1000; 2000; 4000; 8000]%Z)
  /\
  (forall (errors : list exn) (last : exn) (rest : list (Result value)),
      List.length errors = 4 ->
      let t := (failed_attempts 1 1000 errors ++ [Mock.Invoked])%list in
      Mock.run 5 (Mock.init (map Throw errors ++ Throw last :: rest)%list)
      = (Throw last, Mock.mk rest t)
      /\ Mock.invocations t = 5
      /\ Mock.sleeps t = [1000; 2000; 4000; 8000]%Z).
Proof.
  split.
  - intros errors v rest Hk t. split.
    + unfold Mock.run, withRetry, Mock.init.
      rewrite mock_loop_failures by lia.
      destruct (5 - List.length errors) as [|remaining] eqn:Hrem; [lia|].
      apply withRetry_loop_success. reflexivity.
    + unfold t.
      do 5 (destruct errors as [|? errors]; [split; reflexivity|]).
      simpl in Hk. lia.
  - intros errors last rest Hk t. split.
    + unfold Mock.run, withRetry, Mock.init.
      rewrite mock_loop_failures by lia.
      rewrite Hk. change (5 - 4) with 1. change (0 + 4) with (5 - 1).
      apply withRetry_loop_last. reflexivity.
    + unfold t.
      do 4 (destruct errors as [|? errors]; [discriminate Hk|]).
      destruct errors; [split; reflexivity | discriminate Hk].
Qed.

Lemma withRetry_five_attempts_witness :
  Mock.run 5 (Mock.init [Throw (Error "a"); Throw (Error "b"); Throw (Error "c");
                         Throw (Error "d"); Ok (VStr "done"); Ok VNull])
  = (Ok (VStr "done"),
     Mock.mk [Ok VNull]
       [Mock.Invoked; Mock.Warned 1 1000 (Error "a"); Mock.Slept 1000;
        Mock.Invoked; Mock.Warned 2 2000 (Error "b"); Mock.Slept 2000;
        Mock.Invoked; Mock.Warned 3 4000 (Error "c"); Mock.Slept 4000;
        Mock.Invoked; Mock.Warned 4 8000 (Error "d"); Mock.Slept 8000;
        Mock.Invoked])
  /\
  Mock.run 5 (Mock.init [Throw (Error "a"); Throw (Error "b"); Throw (Error "c");
                         Throw (Error "d"); Throw (Error "e"); Ok (VStr "late")])
  = (Throw (Error "e"),
     Mock.mk [Ok (VStr "late")]
       [Mock.Invoked; Mock.Warned 1 1000 (Error "a"); Mock.Slept 1000;
        Mock.Invoked; Mock.Warned 2 2000 (Error "b"); Mock.Slept 2000;
        Mock.Invoked; Mock.Warned 3 4000 (Error "c"); Mock.Slept 4000;
        Mock.Invoked; Mock.Warned 4 8000 (Error "d"); Mock.Slept 8000;
        Mock.Invoked]).
Proof.
  split.
  - refine (proj1 (proj1 withRetry_five_attempts
                     [Error "a"; Error "b"; Error "c"; Error "d"] (VStr "done") [Ok VNull]
                     _)).
    simpl. lia.
  - refine (proj1 (proj2 withRetry_five_attempts
                     [Error "a"; Error "b"; Error "c"; Error "d"] (Error "e")
                     [Ok (VStr "late")] _)).
    reflexivity.
Defined.

(** ** Generation client *)

Lemma prefix_of_spec (p s : string) :
  prefix_of p s = true <-> exists post, s = p ++ post.
Proof.
  revert s. induction p as [|a p IH]; intros s.
  - simpl. split; [eauto | reflexivity].
  - destruct s as [|b s]; simpl.
    + split; [discriminate | intros [post H]; discriminate].
    + rewrite andb_true_iff, IH. split.
      * intros [Hab [post ->]]. apply Ascii.eqb_eq in Hab. subst. eauto.
      * intros [post H]. injection H as -> ->. split; [apply Ascii.eqb_refl | eauto].
Qed.

Lemma includes_spec (s needle : string) :
  includes s needle = true <-> exists pre post, s = pre ++ needle ++ post.
Proof.
  induction s as [|c s IH].
  - simpl. rewrite orb_false_r, prefix_of_spec. split.
    + intros [post H]. exists "", post. exact H.
    + intros [pre [post H]]. destruct pre; [eauto | discriminate].
  - cbn [includes]. rewrite orb_true_iff, prefix_of_spec, IH. split.
    + intros [[post H] | [pre [post H]]].
      * exists "", post. exact H.
      * exists (String c pre), post. simpl. now rewrite H.
    + intros [pre [post H]]. destruct pre as [|c' pre].
      * left. eauto.
      * right. simpl in H. injection H as _ H. eauto.
Qed.

(** C6. A structured call declares, in the request it sends, the
    single-object schema with the lab fields when the system prompt contains
    the text "single JSON object", and otherwise an array of objects with the
    ten optional fields of modules, topics, MCQs and labs. *)
Theorem schema_selection `{Host} (systemPrompt userQuery : string) (w : World) :
  let payload := request_payload systemPrompt userQuery true in
  (exists rest,
      log (snd (callGeminiApi systemPrompt userQuery true w))
      = (log w ++ Fetch (GEMINI_API_URL_BASE ++ API_KEY) payload :: rest)%list)
  /\
  ((exists pre post, systemPrompt = pre ++ "single JSON object" ++ post) ->
   generationConfig payload
   = Some (mkGenerationConfig "application/json"
             (OBJECT [("problemStatement", STRING);
                      ("steps", ARRAY STRING);
                      ("expectedOutcome", STRING)])))
  /\
  (~ (exists pre post, systemPrompt = pre ++ "single JSON object" ++ post) ->
   exists fields,
     generationConfig payload
     = Some (mkGenerationConfig "application/json" (ARRAY (OBJECT fields)))
     /\ map fst fields
        = ["title"; "objective"; "topic_title"; "content_draft"; "question";
           "options"; "correct_answer_index"; "problemStatement"; "steps";
           "expectedOutcome"]).
Proof.
  intros payload. split; [|split].
  - unfold callGeminiApi, bind, fetch. fold payload.
    destruct (service w (fetched w)) as [e | r].
    + exists []. reflexivity.
    + cbn [emit log]. destruct (negb (ok r)).
      * exists []. reflexivity.
      * unfold response_json.
        destruct (JSON_parse (body r)) as [result|]; [|exists []; reflexivity].
        cbn [ret lift]. destruct (get result "candidates") as [candidates|e];
          [|exists []; reflexivity].
        destruct (truthy (opt_first candidates)
                  && truthy (candidate_text (opt_first candidates)));
          [|exists []; reflexivity].
        destruct (candidate_text (opt_first candidates)); try (exists []; reflexivity).
        destruct (JSON_parse (trim s)); [exists []; reflexivity|].
        eexists. unfold console_error_text, effect, throw, emit. cbn [log].
        rewrite <- app_assoc. reflexivity.
  - intros Hin. apply includes_spec in Hin.
    unfold payload, request_payload. rewrite Hin. reflexivity.
  - intros Hout. unfold payload, request_payload.
    destruct (includes systemPrompt "single JSON object") eqn:E.
    + exfalso. apply Hout, includes_spec, E.
    + eexists. split; reflexivity.
Qed.

Lemma schema_selection_witness :
  generationConfig (request_payload lab_systemPrompt "Topic: Loops" true)
  = Some (mkGenerationConfig "application/json"
            (OBJECT [("problemStatement", STRING);
                     ("steps", ARRAY STRING);
                     ("expectedOutcome", STRING)]))
  /\
  exists fields,
    generationConfig (request_payload course_systemPrompt "Generate a course" true)
    = Some (mkGenerationConfig "application/json" (ARRAY (OBJECT fields)))
    /\ map fst fields
       = ["title"; "objective"; "topic_title"; "content_draft"; "question";
          "options"; "correct_answer_index"; "problemStatement"; "steps";
          "expectedOutcome"].
Proof.
  split.
  - apply (proj1 (proj2 (@schema_selection Reference.host lab_systemPrompt "Topic: Loops"
                           (world_of initial_app empty_store 0 (Reference.scripted []))))).
    apply includes_spec. vm_compute. reflexivity.
  - apply (proj2 (proj2 (@schema_selection Reference.host course_systemPrompt
                           "Generate a course"
                           (world_of initial_app empty_store 0 (Reference.scripted []))))).
    intros Hin. apply includes_spec in Hin. vm_compute in Hin. discriminate Hin.
Defined.

Section GenerationClientFacts.
Context {host : Host}.

Lemma store_ops_app (l1 l2 : list Event) :
  store_ops (l1 ++ l2)%list = (store_ops l1 ++ store_ops l2)%list.
Proof. apply filter_app. Qed.

Lemma only_network_refl (w : World) : only_network w w.
Proof.
  repeat split. exists []. split; [now rewrite app_nil_r | reflexivity].
Qed.

Lemma only_network_trans (w1 w2 w3 : World) :
  only_network w1 w2 -> only_network w2 w3 -> only_network w1 w3.
Proof.
  intros (Ha & Hs & Hn & Hv & l & Hl & Ho) (Ha' & Hs' & Hn' & Hv' & l' & Hl' & Ho').
  repeat split; try congruence.
  exists (l ++ l')%list. split.
  - rewrite Hl', Hl, app_assoc. reflexivity.
  - rewrite store_ops_app, Ho, Ho'. reflexivity.
Qed.

(** The result of a call is decided by the answer to its [fetch]. *)
Lemma callGeminiApi_result (systemPrompt userQuery : string) (isJson : bool) (w : World) :
  fst (callGeminiApi systemPrompt userQuery isJson w)
  = decode isJson (service w (fetched w)).
Proof.
  unfold callGeminiApi, decode, bind, fetch.
  destruct (service w (fetched w)) as [e | r]; [reflexivity|].
  destruct (negb (ok r)); [reflexivity|].
  unfold response_json. destruct (JSON_parse (body r)) as [result|]; [|reflexivity].
  cbn [ret lift]. destruct (get result "candidates") as [candidates|e]; [|reflexivity].
  destruct (truthy (opt_first candidates)
            && truthy (candidate_text (opt_first candidates))); [|reflexivity].
  destruct (candidate_text (opt_first candidates)); try reflexivity.
  destruct isJson; [|reflexivity].
  destruct (JSON_parse (trim s)); reflexivity.
Qed.

(** Closes the goal of [callGeminiApi_world] once the call has come to its
    end on a path that logs nothing after the [fetch]. *)
Ltac fetch_only :=
  cbn; repeat split; eexists; split; [reflexivity | reflexivity].

(** A call performs exactly one [fetch] and touches nothing but the
    network. *)
Lemma callGeminiApi_world (systemPrompt userQuery : string) (isJson : bool) (w : World) :
  let w' := snd (callGeminiApi systemPrompt userQuery isJson w) in
  only_network w w' /\ fetched w' = Datatypes.S (fetched w) /\ clock w' = clock w.
Proof.
  unfold callGeminiApi, bind, fetch, only_network.
  destruct (service w (fetched w)) as [e | r]; [fetch_only|].
  destruct (negb (ok r)); [fetch_only|].
  unfold response_json. destruct (JSON_parse (body r)) as [result|]; [|fetch_only].
  cbn [ret lift]. destruct (get result "candidates") as [candidates|e]; [|fetch_only].
  destruct (truthy (opt_first candidates)
            && truthy (candidate_text (opt_first candidates))); [|fetch_only].
  destruct (candidate_text (opt_first candidates)); try fetch_only.
  destruct isJson; [|fetch_only].
  destruct (JSON_parse (trim s)); [fetch_only|].
  cbn. repeat split. eexists. split; [rewrite <- app_assoc; reflexivity | reflexivity].
Qed.
End GenerationClientFacts.

Section GenerateFacts.
Context {host : Host}.

Lemma only_network_sleep_warn (w : World) (attempt : nat) (delay : Z) (e : exn) :
  only_network w (sleep delay (console_warn attempt delay e w)).
Proof.
  unfold only_network, sleep, console_warn, emit. cbn.
  repeat split. eexists. split; [rewrite <- app_assoc; reflexivity | reflexivity].
Qed.

(** The retry loop around the client, run on the world, and the same loop
    run on the index of the next [fetch] alone, go the same way. *)
Lemma generate_loop_simulation (systemPrompt userQuery : string) (isJson : bool)
      (remaining : nat) :
  forall (i : nat) (delay : Z) (w : World),
    let run := withRetry_loop sleep console_warn
                 (callGeminiApi systemPrompt userQuery isJson) 5 remaining i delay w in
    let view := withRetry_loop (fun _ n => n) (fun _ _ _ n => n)
                  (fun n => (decode isJson (service w n), Datatypes.S n))
                  5 remaining i delay (fetched w) in
    fst run = fst view /\ fetched (snd run) = snd view /\ only_network w (snd run).
Proof.
  induction remaining as [|remaining IH]; intros i delay w.
  - cbn. repeat split; try reflexivity. apply only_network_refl.
  - cbn zeta. cbn [withRetry_loop].
    pose proof (callGeminiApi_result systemPrompt userQuery isJson w) as Hr.
    pose proof (callGeminiApi_world systemPrompt userQuery isJson w) as (Hn & Hf & _).
    destruct (callGeminiApi systemPrompt userQuery isJson w) as [r w1].
    cbn [fst snd] in Hr, Hn, Hf. rewrite <- Hr.
    destruct r as [v | e].
    + cbn. auto.
    + destruct (i =? 5 - 1)%nat.
      * cbn. auto.
      * specialize (IH (i + 1) (delay * 2)%Z (sleep delay (console_warn (i + 1) delay e w1))).
        cbn zeta in IH. destruct IH as (IH1 & IH2 & IH3).
        assert (Hs : service (sleep delay (console_warn (i + 1) delay e w1)) = service w)
          by (destruct Hn as (_ & _ & _ & Hv & _); exact Hv).
        assert (Hfe : fetched (sleep delay (console_warn (i + 1) delay e w1))
                      = Datatypes.S (fetched w)) by exact Hf.
        rewrite Hs, Hfe in IH1, IH2.
        split; [exact IH1 | split; [exact IH2 |]].
        eapply only_network_trans; [exact Hn|].
        eapply only_network_trans; [apply only_network_sleep_warn | exact IH3].
Qed.

(** A generation call returns what the service view says, moves the
    [fetch] counter accordingly and touches nothing but the network. *)
Lemma generate_spec (systemPrompt userQuery : string) (isJson : bool) (w : World) :
  let run := generate systemPrompt userQuery isJson w in
  let view := generation (service w) isJson (fetched w) in
  fst run = fst view /\ fetched (snd run) = snd view /\ only_network w (snd run).
Proof. apply generate_loop_simulation. Qed.
End GenerateFacts.

Section ClientFailures.
Context {host : Host}.

Lemma get_not_nullish (v : value) (k : string) :
  nullish v = false -> get v k = Ok (opt_get v k).
Proof. destruct v; simpl; intros; try discriminate; reflexivity. Qed.

Lemma response_text_candidate (result : value) :
  candidate_text (opt_first (opt_get result "candidates")) = response_text result.
Proof. reflexivity. Qed.

Lemma textual_payload_text (result : value) (text : string) :
  textual_payload result = Some text ->
  response_text result = VStr text /\ text <> "" /\ nullish result = false
  /\ truthy (opt_first (opt_get result "candidates")) = true.
Proof.
  unfold textual_payload, response_text.
  destruct result; simpl; try discriminate.
  destruct (opt_first (own_property "candidates" props)) eqn:E; simpl; try discriminate.
  intros Hp.
  destruct (opt_get (opt_first (opt_get (own_property "content" props0) "parts")) "text")
    as [ | | | |s | |] eqn:Et; try discriminate.
  destruct s; [discriminate|]. injection Hp as <-.
  repeat split; discriminate.
Qed.
End ClientFailures.

(** C7 (amended). A call whose request is answered by a response without a
    textual payload fails: with the HTTP error when the status is not 2xx,
    with a [SyntaxError] when the body is no JSON, with a [TypeError] when
    the body is [null] or the text of the first candidate is not a string,
    and with [EmptyResponse] in every other case, that is when that text is
    absent, empty or another falsy value.  A structured call whose returned text is not valid
    JSON fails with [MalformedJson], whose message ends with the (trimmed)
    returned text.  A returned text that is valid JSON is returned as
    parsed, whatever its shape. *)
Theorem client_failure_modes `{Host} :
  (forall systemPrompt userQuery isJson (w : World) (r : Response),
      service w (fetched w) = Resolves r ->
      let outcome := fst (callGeminiApi systemPrompt userQuery isJson w) in
      (ok r = false ->
       outcome = Throw (Error ("API call failed with status " ++ decimal (status r)
                               ++ ": " ++ body r)))
      /\ (ok r = true -> JSON_parse (body r) = None ->
          exists m, outcome = Throw (SyntaxError m))
      /\ (ok r = true ->
          forall result : value,
            JSON_parse (body r) = Some result ->
            textual_payload result = None ->
            if nullish result then exists m, outcome = Throw (TypeError m)
            else if truthy (response_text result)
                 then exists m, outcome = Throw (TypeError m)
                 else outcome = Throw EmptyResponse))
  /\
  (forall systemPrompt userQuery (w : World) (r : Response) (result : value) (text : string),
      service w (fetched w) = Resolves r -> ok r = true ->
      JSON_parse (body r) = Some result ->
      textual_payload result = Some text ->
      JSON_parse (trim text) = None ->
      fst (callGeminiApi systemPrompt userQuery true w) = Throw (MalformedJson (trim text))
      /\ message (MalformedJson (trim text))
         = "Received invalid JSON response from AI. Raw response: " ++ trim text)
  /\
  (forall systemPrompt userQuery (w : World) (r : Response) (result v : value)
          (text : string),
      service w (fetched w) = Resolves r -> ok r = true ->
      JSON_parse (body r) = Some result ->
      textual_payload result = Some text ->
      JSON_parse (trim text) = Some v ->
      fst (callGeminiApi systemPrompt userQuery true w) = Ok v).
Proof.
  split; [|split].
  - intros sp uq isJson w r Hs outcome. unfold outcome.
    rewrite callGeminiApi_result, Hs. unfold decode.
    split; [|split].
    + intros ->. reflexivity.
    + intros -> ->. cbn [negb]. eauto.
    + intros -> result -> Hnone. cbn [negb].
      destruct (nullish result) eqn:Hnull.
      * destruct result; try discriminate Hnull; simpl; eauto.
      * rewrite (get_not_nullish _ _ Hnull), response_text_candidate.
        unfold textual_payload in Hnone.
        destruct (truthy (response_text result)) eqn:Ht.
        -- destruct (truthy (opt_first (opt_get result "candidates"))) eqn:Hc.
           ++ cbn [andb].
              destruct (response_text result) as [ | | | |s | |]; eauto.
              destruct s; [discriminate Ht | discriminate Hnone].
           ++ exfalso. unfold response_text in Ht.
              destruct (opt_first (opt_get result "candidates"));
                try discriminate Hc; discriminate Ht.
        -- rewrite andb_false_r. reflexivity.
  - intros sp uq w r result text Hs Hok Hbody Hsome Hparse.
    split; [|reflexivity].
    apply textual_payload_text in Hsome as (Ht & Hne & Hnull & Hc).
    rewrite callGeminiApi_result, Hs. unfold decode. rewrite Hok, Hbody. cbn [negb].
    rewrite (get_not_nullish _ _ Hnull), response_text_candidate, Hc, Ht.
    assert (Htr : truthy (VStr text) = true).
    { simpl. destruct text; [contradiction | reflexivity]. }
    rewrite Htr, Hparse. reflexivity.
  - intros sp uq w r result v text Hs Hok Hbody Hsome Hparse.
    apply textual_payload_text in Hsome as (Ht & Hne & Hnull & Hc).
    rewrite callGeminiApi_result, Hs. unfold decode. rewrite Hok, Hbody. cbn [negb].
    rewrite (get_not_nullish _ _ Hnull), response_text_candidate, Hc, Ht.
    assert (Htr : truthy (VStr text) = true).
    { simpl. destruct text; [contradiction | reflexivity]. }
    rewrite Htr, Hparse. reflexivity.
Qed.

Lemma client_failure_modes_witness :
  fst (@callGeminiApi Reference.host course_systemPrompt "q" true empty_reply_world)
  = Throw EmptyResponse
  /\
  fst (@callGeminiApi Reference.host course_systemPrompt "q" true garbled_reply_world)
  = Throw (MalformedJson "oops").
Proof.
  split.
  - exact (proj2 (proj2 (proj1 (@client_failure_modes Reference.host)
                           course_systemPrompt "q" true empty_reply_world
                           (mkResponse true 200 "{}") eq_refl))
             eq_refl (VObj []) eq_refl eq_refl).
  - apply (proj1 (proj2 (@client_failure_modes Reference.host))
             course_systemPrompt "q" garbled_reply_world
             (mkResponse true 200 (Reference.envelope "oops"))
             (VObj [("candidates",
                     VArr [VObj [("content",
                                  VObj [("parts", VArr [VObj [("text", VStr "oops")]])])]])])
             "oops"); reflexivity.
Defined.

(** C7, as stated, fails, in both halves.  A 2xx response whose body is
    [null] has no textual payload, and the call fails with a [TypeError],
    not with [EmptyResponse].  And the returned text [{}] is valid JSON but
    not of the declared array shape: the call returns it instead of
    failing. *)
Lemma malformed_shape_counterexample :
  (@JSON_parse Reference.host "null" = Some VNull
   /\ textual_payload VNull = None
   /\ exists m,
        fst (@callGeminiApi Reference.host course_systemPrompt
               "Generate a course structure for a Full Stack Java course." true
               null_reply_world) = Throw (TypeError m))
  /\ declared_schema course_systemPrompt = Some array_schema
  /\ exists v,
       fst (@callGeminiApi Reference.host course_systemPrompt
              "Generate a course structure for a Full Stack Java course." true
              object_reply_world) = Ok v
       /\ conforms array_schema v = false.
Proof.
  split; [|split].
  - split; [reflexivity|]. split; [reflexivity|]. eexists. reflexivity.
  - reflexivity.
  - exists (VObj []). split; reflexivity.
Qed.

(** ** Retries of the generation calls *)

Section RetriedFailures.
Context {host : Host}.
Variable service_ : nat -> FetchOutcome.
Variable isJson : bool.

Let view := withRetry_loop (fun (_ : Z) (n : nat) => n)
              (fun (_ : nat) (_ : Z) (_ : exn) (n : nat) => n)
              (fun n => (decode isJson (service_ n), Datatypes.S n)) 5.

(** [k] failed attempts with attempts to spare are [k] requests. *)
Lemma generation_loop_failures (k : nat) :
  forall (remaining i : nat) (delay : Z) (n : nat),
    (forall j, j < k -> exists e, decode isJson (service_ (n + j)) = Throw e) ->
    i + k < 5 ->
    view (k + remaining) i delay n
    = view remaining (i + k) (delay * 2 ^ Z.of_nat k)%Z (n + k).
Proof.
  induction k as [|k IH]; intros remaining i delay n Hfail Hk.
  - cbn [Nat.add]. rewrite !Nat.add_0_r, Z.mul_1_r. reflexivity.
  - destruct (Hfail 0) as [e He]; [lia|]. rewrite Nat.add_0_r in He.
    cbn [Nat.add]. unfold view at 1.
    rewrite withRetry_loop_retry with (e := e) (s' := Datatypes.S n);
      [ | now rewrite He | lia ].
    fold view. rewrite IH.
    + f_equal; try lia. rewrite Nat2Z.inj_succ, Z.pow_succ_r by lia. ring.
    + intros j Hj. destruct (Hfail (Datatypes.S j)) as [e' He']; [lia|].
      exists e'. rewrite <- He'. f_equal. f_equal. lia.
    + lia.
Qed.

(** The first success within five attempts decides the call. *)
Lemma generation_success (k n : nat) (v : value) :
  k <= 4 ->
  (forall j, j < k -> exists e, decode isJson (service_ (n + j)) = Throw e) ->
  decode isJson (service_ (n + k)) = Ok v ->
  generation service_ isJson n = (Ok v, n + k + 1).
Proof.
  intros Hk Hfail Hok. unfold generation, withRetry. fold view.
  replace 5 with (k + (Datatypes.S (4 - k))) at 1 by lia.
  rewrite generation_loop_failures by (assumption || lia).
  unfold view. rewrite withRetry_loop_success with (v := v) (s' := n + k + 1);
    [reflexivity|]. rewrite Hok. f_equal. lia.
Qed.

(** Five failures in a row surface the fifth error. *)
Lemma generation_exhausted (n : nat) (last : exn) :
  (forall j, j < 4 -> exists e, decode isJson (service_ (n + j)) = Throw e) ->
  decode isJson (service_ (n + 4)) = Throw last ->
  generation service_ isJson n = (Throw last, n + 5).
Proof.
  intros Hfail Hlast. unfold generation, withRetry. fold view.
  change 5 with (4 + 1) at 1.
  rewrite generation_loop_failures by (assumption || lia).
  unfold view. change (0 + 4) with (5 - 1).
  rewrite withRetry_loop_last with (e := last) (s' := n + 5); [reflexivity|].
  rewrite Hlast. f_equal. lia.
Qed.
End RetriedFailures.

(** C3 (amended). Every failure of a generation call is retried, whatever its
    kind ([EmptyResponse] and [MalformedJson] included): after [k <= 4]
    failed attempts a success is returned to the workflow, [k + 1] requests
    having been sent; a failure is surfaced only when five attempts in a row
    have failed, and it is the error of the fifth. *)
Theorem generation_failures_are_retried `{Host}
        (systemPrompt userQuery : string) (isJson : bool) (w : World) :
  (forall (k : nat) (v : value),
      k <= 4 ->
      (forall j, j < k ->
         exists e, decode isJson (service w (fetched w + j)) = Throw e) ->
      decode isJson (service w (fetched w + k)) = Ok v ->
      fst (generate systemPrompt userQuery isJson w) = Ok v
      /\ fetched (snd (generate systemPrompt userQuery isJson w)) = fetched w + k + 1)
  /\
  (forall (last : exn),
      (forall j, j < 4 ->
         exists e, decode isJson (service w (fetched w + j)) = Throw e) ->
      decode isJson (service w (fetched w + 4)) = Throw last ->
      fst (generate systemPrompt userQuery isJson w) = Throw last
      /\ fetched (snd (generate systemPrompt userQuery isJson w)) = fetched w + 5).
Proof.
  pose proof (generate_spec systemPrompt userQuery isJson w) as (Hr & Hf & _).
  split.
  - intros k v Hk Hfail Hok.
    rewrite Hr, Hf, (generation_success _ _ _ Hk Hfail Hok). split; reflexivity.
  - intros last Hfail Hlast.
    rewrite Hr, Hf, (generation_exhausted _ _ _ Hfail Hlast). split; reflexivity.
Qed.

Lemma generation_failures_are_retried_witness :
  decode (host := Reference.host) true (service flaky_world 0) = Throw EmptyResponse
  /\ decode (host := Reference.host) true (service flaky_world 1)
     = Throw (MalformedJson "oops")
  /\ fst (@generate Reference.host mcq_systemPrompt "Topic: Loops" true flaky_world)
     = Ok (VArr [])
  /\ fetched (snd (@generate Reference.host mcq_systemPrompt "Topic: Loops" true flaky_world))
     = 3.
Proof.
  split; [reflexivity|]. split; [reflexivity|].
  apply (proj1 (@generation_failures_are_retried Reference.host
                  mcq_systemPrompt "Topic: Loops" true flaky_world) 2 (VArr [])).
  - lia.
  - intros j Hj. destruct j as [|[|j]].
    + exists EmptyResponse. reflexivity.
    + exists (MalformedJson "oops"). reflexivity.
    + lia.
  - reflexivity.
Defined.

(** C3, as stated, fails: the first answer has no textual payload
    ([EmptyResponse]) and the second one is no JSON ([MalformedJson]);
    neither is surfaced: the call sleeps, sends a second and a third request,
    and returns the third answer. *)
Lemma output_errors_retried_counterexample :
  decode (host := Reference.host) true (service flaky_world 0) = Throw EmptyResponse
  /\ decode (host := Reference.host) true (service flaky_world 1)
     = Throw (MalformedJson "oops")
  /\ fst (@generate Reference.host mcq_systemPrompt "Topic: Loops" true flaky_world)
     = Ok (VArr [])
  /\ filter (fun e => match e with Fetch _ _ => false | ConsoleErrorText _ _ => false
                                 | _ => true end)
            (log (snd (@generate Reference.host mcq_systemPrompt "Topic: Loops" true
                         flaky_world)))
     = [ConsoleWarn 1 1000 EmptyResponse; Sleep 1000;
        ConsoleWarn 2 2000 (MalformedJson "oops"); Sleep 2000]
  /\ fetched (snd (@generate Reference.host mcq_systemPrompt "Topic: Loops" true flaky_world))
     = 3.
Proof. vm_compute. repeat split; reflexivity. Qed.

(** ** Sync engine *)

Section Sorting.
Variable A : Type.
Variable order : A -> Z.

Let ascending (x y : A) : Prop := (order x <= order y)%Z.

Lemma insert_by_perm (x : A) (l : list A) :
  Permutation (insert_by order x l) (x :: l).
Proof.
  induction l as [|y l IH]; simpl.
  - reflexivity.
  - destruct (order x <=? order y)%Z.
    + reflexivity.
    + rewrite IH. apply perm_swap.
Qed.

Lemma sort_by_perm (l : list A) : Permutation (sort_by order l) l.
Proof.
  induction l as [|x l IH]; simpl.
  - reflexivity.
  - rewrite insert_by_perm. now constructor.
Qed.

Lemma insert_by_sorted (x : A) (l : list A) :
  StronglySorted ascending l -> StronglySorted ascending (insert_by order x l).
Proof.
  induction 1 as [|y l Hs IH Hall]; simpl.
  - repeat constructor.
  - destruct (Z.leb_spec (order x) (order y)) as [Hle | Hgt].
    + constructor; [now constructor|].
      constructor; [exact Hle|].
      eapply Forall_impl; [|exact Hall]. unfold ascending. intros; lia.
    + constructor; [exact IH|].
      eapply Permutation_Forall.
      * symmetry. apply insert_by_perm.
      * constructor; [unfold ascending; lia | exact Hall].
Qed.

Lemma sort_by_sorted (l : list A) : StronglySorted ascending (sort_by order l).
Proof.
  induction l as [|x l IH]; simpl.
  - constructor.
  - now apply insert_by_sorted.
Qed.
End Sorting.

(** C8 (amended). On a modules notification received while an active module
    is selected, the local modules become the notified snapshot sorted by
    ascending order; when the current view is the module view or the topic
    view, the active module is re-resolved by id: it becomes a notified
    module with its id when there is one and stays the previous object
    otherwise; in the other views the active module is left as it is. *)
Theorem modules_notification (docs : list (DocId * Module_)) (a : AppState)
        (active : DocId * Module_) :
  activeModule a = Some active ->
  let a' := on_modules docs a in
  Permutation (modules a') docs
  /\ StronglySorted (fun x y => (module_order (snd x) <= module_order (snd y))%Z) (modules a')
  /\ (currentView a = module_view \/ currentView a = topic_view ->
      ((exists m, In m docs /\ fst m = fst active) ->
       exists m, In m docs /\ fst m = fst active /\ activeModule a' = Some m)
      /\ ((forall m, In m docs -> fst m <> fst active) ->
          activeModule a' = Some active))
  /\ (currentView a = home \/ currentView a = modules_view ->
      activeModule a' = Some active).
Proof.
  intros Hactive a'.
  assert (Hmods : modules a'
                  = sort_by (fun m => module_order (snd m)) docs).
  { unfold a', on_modules. rewrite Hactive.
    destruct (currentView a); try reflexivity;
      destruct (find _ _); reflexivity. }
  split; [rewrite Hmods; apply sort_by_perm|].
  split; [rewrite Hmods; apply sort_by_sorted|].
  split.
  - intros Hview.
    assert (Hres : activeModule a'
                   = match find (fun m => (fst m =? fst active)%nat)
                                (sort_by (fun m => module_order (snd m)) docs) with
                     | Some updatedActive => Some updatedActive
                     | None => Some active
                     end).
    { unfold a', on_modules. rewrite Hactive.
      destruct Hview as [-> | ->]; destruct (find _ _); cbn; auto. }
    rewrite Hres. split.
    + intros (m & Hin & Hid).
      destruct (find _ _) as [m'|] eqn:Hfind.
      * apply find_some in Hfind as [Hin' Hid']. apply Nat.eqb_eq in Hid'.
        exists m'. repeat split; try assumption.
        eapply Permutation_in; [apply sort_by_perm | exact Hin'].
      * exfalso.
        assert (Hin' : In m (sort_by (fun m => module_order (snd m)) docs))
          by (eapply Permutation_in; [symmetry; apply sort_by_perm | exact Hin]).
        pose proof (find_none _ _ Hfind m Hin') as Hf. cbv beta in Hf.
        apply Nat.eqb_neq in Hf. apply Hf. exact Hid.
    + intros Hnone.
      destruct (find _ _) as [m'|] eqn:Hfind; [|reflexivity].
      apply find_some in Hfind as [Hin' Hid']. apply Nat.eqb_eq in Hid'.
      exfalso. apply (Hnone m'); [|exact Hid'].
      eapply Permutation_in; [apply sort_by_perm | exact Hin'].
  - intros Hview. unfold a', on_modules.
    destruct Hview as [-> | ->]; exact Hactive.
Qed.

Lemma modules_notification_witness :
  modules (on_modules [module_2; module_1_revised] viewing_module_1)
  = [module_1_revised; module_2]
  /\ activeModule (on_modules [module_2; module_1_revised] viewing_module_1)
     = Some module_1_revised
  /\ activeModule (on_modules [module_2] viewing_module_1) = Some module_1.
Proof.
  split; [reflexivity|]. split.
  - destruct (modules_notification [module_2; module_1_revised] viewing_module_1
                (active := module_1) eq_refl) as (_ & _ & Hview & _).
    destruct Hview as [Hfound _]; [left; reflexivity|].
    destruct Hfound as (m & Hin & Hid & Hres).
    + exists module_1_revised. split; [right; left; reflexivity | reflexivity].
    + reflexivity.
  - destruct (modules_notification [module_2] viewing_module_1
                (active := module_1) eq_refl) as (_ & _ & Hview & _).
    destruct Hview as [_ Hstale]; [left; reflexivity|].
    apply Hstale. intros m [<- | []]. discriminate.
Defined.

(** C8, as stated, fails: with module 1 active and the view back on the
    module list, a notification that carries a revised module 1 leaves the
    active module at the old object. *)
Lemma stale_active_module_counterexample :
  activeModule back_on_module_list = Some module_1
  /\ currentView back_on_module_list = modules_view
  /\ In module_1_revised [module_1_revised; module_2]
  /\ fst module_1_revised = fst module_1
  /\ activeModule (on_modules [module_1_revised; module_2] back_on_module_list)
     = Some module_1
  /\ module_1 <> module_1_revised.
Proof.
  repeat split; try reflexivity.
  - left. reflexivity.
  - discriminate.
Qed.

(** ** The store *)

Lemma store_set_same (st : Store) (path : string) (c : Collection) :
  store_set st path c path = c.
Proof. unfold store_set. now rewrite String.eqb_refl. Qed.

Lemma store_set_other (st : Store) (path p : string) (c : Collection) :
  p <> path -> store_set st path c p = st p.
Proof.
  intros Hp. unfold store_set.
  destruct (String.eqb_spec p path); [contradiction | reflexivity].
Qed.

Lemma remove_doc_In (id : DocId) (c : Collection) (d : DocId * Doc) :
  In d (remove_doc id c) <-> In d c /\ fst d <> id.
Proof.
  unfold remove_doc. rewrite filter_In, negb_true_iff, Nat.eqb_neq. reflexivity.
Qed.

Lemma remove_docs_In (ids : list DocId) :
  forall (c : Collection) (d : DocId * Doc),
    In d (remove_docs ids c) <-> In d c /\ ~ In (fst d) ids.
Proof.
  induction ids as [|id ids IH]; intros c d; simpl.
  - tauto.
  - rewrite IH, remove_doc_In. split.
    + intros [[Hc Hne] Hni]. split; [exact Hc|]. intros [He | Hi]; [congruence | tauto].
    + intros [Hc Hn]. repeat split; [exact Hc | intros He | intros Hi]; apply Hn; auto.
Qed.

Lemma store_ops_deletes (A : Type) (path : string) (ref : A -> DocId) (l : list A) :
  store_ops (map (fun x => DeleteDoc path (ref x)) l) = map (DeleteDoc path) (map ref l).
Proof.
  induction l as [|x l IH]; [reflexivity|].
  unfold store_ops in *. cbn. now f_equal.
Qed.

Lemma store_ops_adds (path : string) (l : list (DocId * Doc)) :
  store_ops (map (fun d => AddDoc path (fst d) (snd d)) l)
  = map (fun d => AddDoc path (fst d) (snd d)) l.
Proof.
  induction l as [|x l IH]; [reflexivity|].
  unfold store_ops in *. cbn. now f_equal.
Qed.

(** A loop of [deleteDoc]s over a list of references. *)
Lemma delete_loop (A : Type) (ref : A -> DocId) (path : string) (l : list A) :
  forall w : World,
  exists w',
    for_of l (fun x => deleteDoc path (ref x)) w = (Ok tt, w')
    /\ same_session w w'
    /\ next_id w' = next_id w
    /\ store w' path = remove_docs (map ref l) (store w path)
    /\ (forall p, p <> path -> store w' p = store w p)
    /\ log w' = (log w ++ map (fun x => DeleteDoc path (ref x)) l)%list.
Proof.
  induction l as [|x l IH]; intros w.
  - exists w. cbn. repeat split. now rewrite app_nil_r.
  - cbn [for_of]. unfold bind at 1. unfold deleteDoc at 1.
    match goal with |- context [for_of l _ ?w1] => destruct (IH w1) as (w' & Hrun & Hs & Hn & Hst & Ho & Hl) end.
    exists w'. rewrite Hrun. split; [reflexivity|].
    destruct Hs as (Ha & Hv & Hf & Hc). cbn in Ha, Hv, Hf, Hc, Hn, Hst, Ho, Hl.
    repeat split; try assumption.
    + rewrite Hst, store_set_same. reflexivity.
    + intros p Hp. rewrite (Ho p Hp). now apply store_set_other.
    + rewrite Hl, <- app_assoc. reflexivity.
Qed.

(** ** generate-assessment *)

Lemma bind_run (S A B : Type) (m : M S A) (k : A -> M S B) (s s' : S) (r : Result A) :
  m s = (r, s') ->
  bind m k s = match r with Ok a => k a s' | Throw e => (Throw e, s') end.
Proof. intros Hrun. unfold bind. rewrite Hrun. destruct r; reflexivity. Qed.

Section Assessment.
Context {host : Host}.

Lemma getCollectionPath_private (u name : string) :
  u <> "" -> getCollectionPath (Some u) name false = Some (private_path u name).
Proof.
  intros Hu. unfold getCollectionPath, private_path.
  destruct (String.eqb_spec u ""); [contradiction | reflexivity].
Qed.

Lemma correctIndex_for_some (item : value) (c : number) :
  correctIndex_for item = Some c ->
  nullish item = false
  /\ exists n, ToNumber (opt_get item "correct_answer_index") = Ok n /\ c = or_zero n.
Proof.
  unfold correctIndex_for, number_or_zero. destruct (nullish item); [discriminate|].
  destruct (ToNumber _) as [n|e]; [|discriminate].
  intros E. injection E as <-. eauto.
Qed.

Lemma correctIndex_for_none (item : value) :
  correctIndex_for item = None <->
  nullish item = true
  \/ exists e, ToNumber (opt_get item "correct_answer_index") = Throw e.
Proof.
  unfold correctIndex_for, number_or_zero. destruct (nullish item).
  - split; auto.
  - destruct (ToNumber _) as [n|e]; split.
    + discriminate.
    + intros [E | (e & E)]; discriminate.
    + eauto.
    + reflexivity.
Qed.

(** One turn of the insertion loop of [handleGenerateMCQs] on an item it
    gets past: the asset of the item is inserted. *)
Lemma save_mcq_run (path : string) (topicId : DocId) (item : value) (c : number)
      (w : World) :
  correctIndex_for item = Some c ->
  save_mcq path topicId item w
  = (Ok tt,
     emit (AddDoc path (next_id w) (DAsset (mcq_asset topicId (clock w) item c)))
       (mkWorld (app w)
          (store_set (store w) path
             ((store w path
               ++ [(next_id w, DAsset (mcq_asset topicId (clock w) item c))])%list))
          (Datatypes.S (next_id w)) (service w) (fetched w) (clock w) (log w))).
Proof.
  unfold correctIndex_for. destruct (nullish item) eqn:Hn; [discriminate|].
  destruct (number_or_zero _) as [c'|e] eqn:Hc; [|discriminate].
  intros E. injection E as ->.
  unfold save_mcq, bind, lift. rewrite !(get_not_nullish _ _ Hn), Hc. reflexivity.
Qed.

(** One turn on an item it stops at: it throws, and nothing is written. *)
Lemma save_mcq_stops (path : string) (topicId : DocId) (item : value) (w : World) :
  correctIndex_for item = None ->
  exists e, save_mcq path topicId item w = (Throw e, w).
Proof.
  unfold correctIndex_for. destruct (nullish item) eqn:Hn.
  - intros _. unfold save_mcq, bind, lift.
    destruct item; try discriminate Hn; cbn; eauto.
  - destruct (number_or_zero _) as [c'|e] eqn:Hc; [discriminate|]. intros _.
    unfold save_mcq, bind, lift. rewrite !(get_not_nullish _ _ Hn), Hc. eauto.
Qed.

Lemma persisted_items_length (items : list value) :
  List.length (persisted_items items) <= List.length items.
Proof.
  induction items as [|item items IH]; cbn; [lia|].
  destruct (correctIndex_for item); cbn; lia.
Qed.

Lemma persisted_items_prefix (items : list value) :
  map fst (persisted_items items)
  = firstn (List.length (persisted_items items)) items.
Proof.
  induction items as [|item items IH]; [reflexivity|].
  cbn [persisted_items]. destruct (correctIndex_for item); [|reflexivity].
  cbn. now rewrite IH.
Qed.

Lemma persisted_items_index (items : list value) :
  Forall (fun s => correctIndex_for (fst s) = Some (snd s)) (persisted_items items).
Proof.
  induction items as [|item items IH]; [constructor|].
  cbn [persisted_items]. destruct (correctIndex_for item) eqn:E; constructor; auto.
Qed.

(** The loop does not get past an item that is [null] or whose
    [correct_answer_index] does not convert. *)
Lemma persisted_items_stop (items : list value) :
  forall (k : nat) (item : value),
    nth_error items k = Some item -> correctIndex_for item = None ->
    List.length (persisted_items items) <= k.
Proof.
  induction items as [|x items IH]; intros k item Hk Hnone.
  - destruct k; discriminate Hk.
  - cbn [persisted_items]. destruct k as [|k]; cbn in Hk.
    + injection Hk as ->. rewrite Hnone. cbn. lia.
    + destruct (correctIndex_for x); cbn; [|lia].
      specialize (IH k item Hk Hnone). lia.
Qed.

Lemma saved_docs_cons (topicId : DocId) (createdAt : Z) (next : DocId)
      (item : value) (c : number) (items : list value) :
  correctIndex_for item = Some c ->
  saved_docs topicId createdAt next (item :: items)
  = (next, DAsset (mcq_asset topicId createdAt item c))
    :: saved_docs topicId createdAt (Datatypes.S next) items.
Proof. intros Hc. unfold saved_docs. cbn [persisted_items]. rewrite Hc. reflexivity. Qed.

Lemma saved_docs_stop (topicId : DocId) (createdAt : Z) (next : DocId)
      (item : value) (items : list value) :
  correctIndex_for item = None ->
  saved_docs topicId createdAt next (item :: items) = [].
Proof. intros Hc. unfold saved_docs. cbn [persisted_items]. rewrite Hc. reflexivity. Qed.

(** The insertion loop of [handleGenerateMCQs]: it inserts the assets of the
    items it gets past, and returns exactly when it gets past them all. *)
Lemma save_mcq_loop (path : string) (topicId : DocId) (items : list value) :
  forall w : World,
  exists w' r,
    for_of items (save_mcq path topicId) w = (r, w')
    /\ (r = Ok tt <-> List.length (persisted_items items) = List.length items)
    /\ same_session w w'
    /\ next_id w' = next_id w + List.length (persisted_items items)
    /\ store w' path
       = (store w path ++ saved_docs topicId (clock w) (next_id w) items)%list
    /\ (forall p, p <> path -> store w' p = store w p)
    /\ log w'
       = (log w ++ map (fun d => AddDoc path (fst d) (snd d))
                       (saved_docs topicId (clock w) (next_id w) items))%list.
Proof.
  induction items as [|item items IH]; intros w.
  - exists w, (Ok tt). cbn. rewrite Nat.add_0_r, !app_nil_r. repeat split.
  - cbn [for_of]. destruct (correctIndex_for item) as [c|] eqn:Hc.
    + rewrite (@bind_run _ _ _ _ _ _ _ _ (save_mcq_run path topicId item w Hc)).
      match goal with |- context [for_of items _ ?w1] =>
        destruct (IH w1) as (w' & r & Hrun & Hr & Hs & Hn & Hst & Ho & Hl) end.
      exists w', r. split; [exact Hrun|].
      destruct Hs as (Ha & Hv & Hf & Hcl). cbn in Ha, Hv, Hf, Hcl, Hn, Hst, Ho, Hl.
      rewrite !(@saved_docs_cons _ _ _ _ _ _ Hc). cbn [persisted_items]. rewrite Hc.
      cbn [List.length map].
      split; [rewrite Hr; split; intros E; lia|].
      split; [repeat split; assumption|].
      split; [lia|].
      split; [rewrite Hst, store_set_same, <- app_assoc; reflexivity|].
      split; [intros p Hp; rewrite (Ho p Hp); now apply store_set_other|].
      rewrite Hl, <- app_assoc. reflexivity.
    + destruct (@save_mcq_stops path topicId item w Hc) as (e & Hrun).
      rewrite (@bind_run _ _ _ _ _ _ _ _ Hrun). exists w, (Throw e).
      rewrite !(@saved_docs_stop _ _ _ _ _ Hc). cbn [persisted_items]. rewrite Hc.
      cbn. rewrite Nat.add_0_r, !app_nil_r. repeat split; try discriminate.
Qed.

(** The [try] block of [handleGenerateMCQs] when the generation call returns
    a non-empty array: the documents listed in the local [mcqs] are deleted,
    then the assets of the items are inserted, as far as the loop gets. *)
Lemma generate_mcqs_items (st : AppState) (topic : DocId * Topic) (u : string)
      (items : list value) (w : World) :
  userId st = Some u -> u <> "" ->
  fst (generation (service w) true (fetched w)) = Ok (VArr items) ->
  items <> [] ->
  let path := private_path u "assets" in
  exists w' r createdAt,
    generate_mcqs st topic w = (r, w')
    /\ (r = Ok tt <-> List.length (persisted_items items) = List.length items)
    /\ app w' = match r with
                | Ok _ => setSelectedTab mcqs_tab (app w)
                | Throw _ => app w
                end
    /\ store w' path
       = (remove_docs (map fst (mcqs st)) (store w path)
          ++ saved_docs (fst topic) createdAt (next_id w) items)%list
    /\ (forall p, p <> path -> store w' p = store w p)
    /\ next_id w' = next_id w + List.length (persisted_items items)
    /\ service w' = service w
    /\ fetched w' = snd (generation (service w) true (fetched w))
    /\ store_ops (log w')
       = (store_ops (log w)
          ++ map (DeleteDoc path) (map fst (mcqs st))
          ++ map (fun d => AddDoc path (fst d) (snd d))
                 (saved_docs (fst topic) createdAt (next_id w) items))%list.
Proof.
  intros Hu Hne Hgen Hitems path.
  pose proof (generate_spec mcq_systemPrompt (asset_userQuery (snd topic)) true w)
    as (Hr & Hf & Hnet).
  destruct (generate mcq_systemPrompt (asset_userQuery (snd topic)) true w)
    as [r2 w2] eqn:Hrun2.
  cbn [fst snd] in Hr, Hf, Hnet. rewrite Hgen in Hr. subst r2.
  destruct Hnet as (Ha2 & Hs2 & Hn2 & Hv2 & l2 & Hl2 & Ho2).
  destruct (delete_loop (fun x : DocId => x) path (map fst (mcqs st)) w2)
    as (w3 & Hrun3 & Hs3 & Hn3 & Hst3 & Ho3 & Hl3).
  cbv beta in Hrun3, Hl3. rewrite map_id in Hst3.
  destruct (save_mcq_loop path (fst topic) items w3)
    as (w4 & r4 & Hrun4 & Hr4 & Hs4 & Hn4 & Hst4 & Ho4 & Hl4).
  destruct Hs3 as (Ha3 & Hv3 & Hf3 & Hc3). destruct Hs4 as (Ha4 & Hv4 & Hf4 & Hc4).
  assert (Hlen : (List.length (elements (VArr items)) =? 0)%nat = false)
    by (destruct items; [contradiction | reflexivity]).
  assert (Hrun : generate_mcqs st topic w
                 = match r4 with
                   | Ok _ => (Ok tt, with_app (setSelectedTab mcqs_tab) w4)
                   | Throw e => (Throw e, w4)
                   end).
  { unfold generate_mcqs. rewrite (@bind_run _ _ _ _ _ _ _ _ Hrun2).
    cbn [isArray negb orb]. rewrite Hlen.
    rewrite Hu, getCollectionPath_private by exact Hne. fold path.
    unfold collection. unfold bind at 1, ret at 1.
    rewrite (@bind_run _ _ _ _ _ _ _ _ Hrun3). cbn [elements]. rewrite (@bind_run _ _ _ _ _ _ _ _ Hrun4).
    destruct r4 as [[]|e]; reflexivity. }
  assert (Hops : store_ops (log w4)
                 = (store_ops (log w)
                    ++ map (DeleteDoc path) (map fst (mcqs st))
                    ++ map (fun d => AddDoc path (fst d) (snd d))
                           (saved_docs (fst topic) (clock w3) (next_id w) items))%list).
  { rewrite Hl4, Hl3, Hl2, !store_ops_app, Ho2, app_nil_r, Hn3, Hn2.
    rewrite (store_ops_deletes path (fun x : DocId => x)), map_id, store_ops_adds.
    rewrite <- app_assoc. reflexivity. }
  destruct r4 as [[]|e].
  - exists (with_app (setSelectedTab mcqs_tab) w4), (Ok tt), (clock w3).
    split; [exact Hrun|]. split; [exact Hr4|].
    cbn [with_app app store next_id service fetched log].
    split; [rewrite Ha4, Ha3, Ha2; reflexivity|].
    split; [rewrite Hst4, Hst3, Hs2, Hn3, Hn2; reflexivity|].
    split; [intros p Hp; rewrite (Ho4 p Hp), (Ho3 p Hp), Hs2; reflexivity|].
    split; [rewrite Hn4, Hn3, Hn2; reflexivity|].
    split; [rewrite Hv4, Hv3; exact Hv2|].
    split; [rewrite Hf4, Hf3; exact Hf|]. exact Hops.
  - exists w4, (Throw e), (clock w3).
    split; [exact Hrun|]. split; [exact Hr4|].
    split; [rewrite Ha4, Ha3, Ha2; reflexivity|].
    split; [rewrite Hst4, Hst3, Hs2, Hn3, Hn2; reflexivity|].
    split; [intros p Hp; rewrite (Ho4 p Hp), (Ho3 p Hp), Hs2; reflexivity|].
    split; [rewrite Hn4, Hn3, Hn2; reflexivity|].
    split; [rewrite Hv4, Hv3; exact Hv2|].
    split; [rewrite Hf4, Hf3; exact Hf|]. exact Hops.
Qed.
End Assessment.

(** ** Asset queries *)

Lemma assets_where_app (c1 c2 : Collection) (t : DocId) (ty : AssetType) :
  assets_where (c1 ++ c2)%list t ty = (assets_where c1 t ty ++ assets_where c2 t ty)%list.
Proof.
  induction c1 as [|[id d] c1 IH]; [reflexivity|].
  simpl. destruct d; try exact IH.
  destruct ((asset_topicId a =? t)%nat && AssetType_eqb (asset_type a) ty);
    [simpl; f_equal; exact IH | exact IH].
Qed.

Lemma assets_where_sound (c : Collection) (t : DocId) (ty : AssetType) (id : DocId) (a : Asset) :
  In (id, a) (assets_where c t ty) ->
  In (id, DAsset a) c
  /\ (asset_topicId a =? t)%nat && AssetType_eqb (asset_type a) ty = true.
Proof.
  induction c as [|[id' d] c IH]; [contradiction|].
  cbn [assets_where].
  destruct d as [? | ? | ? | a'];
    try (intros Hin; destruct (IH Hin); split; [right|]; assumption).
  destruct ((asset_topicId a' =? t)%nat && AssetType_eqb (asset_type a') ty) eqn:E.
  - intros [Heq | Hin].
    + injection Heq as -> ->. split; [left; reflexivity | exact E].
    + destruct (IH Hin). split; [right|]; assumption.
  - intros Hin. destruct (IH Hin). split; [right|]; assumption.
Qed.

Lemma assets_where_complete (c : Collection) (t : DocId) (ty : AssetType) (id : DocId) (a : Asset) :
  In (id, DAsset a) c ->
  (asset_topicId a =? t)%nat && AssetType_eqb (asset_type a) ty = true ->
  In (id, a) (assets_where c t ty).
Proof.
  intros Hin Hm. induction c as [|[id' d] c IH]; [contradiction|].
  cbn [assets_where]. destruct Hin as [Heq | Hin].
  - injection Heq as -> ->. rewrite Hm. left. reflexivity.
  - destruct d as [? | ? | ? | a']; try exact (IH Hin).
    destruct ((asset_topicId a' =? t)%nat && AssetType_eqb (asset_type a') ty);
      [right|]; exact (IH Hin).
Qed.

(** No document of a query is left once every id of its result has been
    deleted. *)
Lemma assets_where_removed (c : Collection) (t : DocId) (ty : AssetType) (ids : list DocId) :
  (forall id a, In (id, a) (assets_where c t ty) -> In id ids) ->
  assets_where (remove_docs ids c) t ty = [].
Proof.
  intros Hids.
  destruct (assets_where (remove_docs ids c) t ty) as [|[id a] l] eqn:E; [reflexivity|].
  exfalso.
  assert (Hin : In (id, a) (assets_where (remove_docs ids c) t ty))
    by (rewrite E; left; reflexivity).
  apply assets_where_sound in Hin as [Hdoc Hm].
  apply remove_docs_In in Hdoc as [Hc Hni]. apply Hni. cbn [fst].
  apply (Hids id a). now apply assets_where_complete.
Qed.

Section AssessmentAssets.
Context {host : Host}.

(** With the listeners active, a notification makes the asset cells reflect
    the store and changes nothing else. *)
Lemma notify_assets_spec (w : World) (topic : DocId * Topic) (u : string) :
  isAuthReady (app w) = true -> db (app w) = true ->
  activeTopic (app w) = Some topic ->
  userId (app w) = Some u -> u <> "" ->
  let path := private_path u "assets" in
  let w' := notify_assets w in
  mcqs (app w') = assets_where (store w path) (fst topic) mcq
  /\ lab_ (app w') = hd_error (assets_where (store w path) (fst topic) lab)
  /\ same_selection (app w) (app w')
  /\ store w' = store w /\ next_id w' = next_id w /\ service w' = service w
  /\ fetched w' = fetched w /\ log w' = log w.
Proof.
  intros Hauth Hdb Htopic Hu Hne path w'.
  unfold w', notify_assets. rewrite Hauth, Hdb, Htopic, Hu. cbn [andb].
  rewrite getCollectionPath_private by exact Hne. fold path.
  unfold on_lab, on_mcqs.
  destruct (assets_where (store w path) (fst topic) lab); cbn; repeat split.
Qed.
End AssessmentAssets.

Lemma map_snd_combine_seq (A : Type) (l : list A) :
  forall n : nat, map snd (combine (seq n (List.length l)) l) = l.
Proof.
  induction l as [|x l IH]; intros n; [reflexivity|].
  cbn. now rewrite IH.
Qed.

(** ** generate-lab *)

Section Lab.
Context {host : Host}.

(** A run of [handleGenerateLab] on a selected topic either fails and leaves
    the store alone, or deletes the document of the local [lab] cell, if any,
    and then inserts the new lab asset. *)
Lemma handleGenerateLab_spec (w : World) (topic : DocId * Topic) (u : string) :
  db (app w) = true ->
  activeTopic (app w) = Some topic ->
  userId (app w) = Some u -> u <> "" ->
  let path := private_path u "assets" in
  let deleted := match lab_ (app w) with Some l => [fst l] | None => [] end in
  exists w',
    handleGenerateLab w = (Ok tt, w')
    /\ same_selection (app w) (app w')
    /\ service w' = service w
    /\ ((error (app w') <> None
         /\ store w' = store w
         /\ store_ops (log w') = store_ops (log w))
        \/
        (exists data createdAt,
            error (app w') = None
            /\ fst (generation (service w) true (fetched w)) = Ok data
            /\ truthy (opt_get data "problemStatement") = true
            /\ store w' path
               = (remove_docs deleted (store w path)
                  ++ [(next_id w, DAsset (lab_asset topic createdAt data))])%list
            /\ store_ops (log w')
               = (store_ops (log w)
                  ++ map (DeleteDoc path) deleted
                  ++ [AddDoc path (next_id w)
                        (DAsset (lab_asset topic createdAt data))])%list)).
Proof.
  intros Hdb Htopic Hu Hne path deleted.
  pose proof (generate_spec lab_systemPrompt (asset_userQuery (snd topic)) true
                (with_app (setError None) (with_app (setIsLoading true) w)))
    as (Hr & _ & Hnet).
  destruct (handleGenerateLab w) as [r' w'] eqn:Hrun.
  unfold handleGenerateLab in Hrun. rewrite Hdb, Htopic in Hrun.
  unfold finally, try_catch, bind at 1 2, setState at 1 2, effect in Hrun.
  unfold generate_lab, bind at 1 in Hrun.
  destruct (generate lab_systemPrompt (asset_userQuery (snd topic)) true
              (with_app (setError None) (with_app (setIsLoading true) w)))
    as [r w2].
  cbn [fst snd service fetched with_app] in Hr, Hnet.
  destruct Hnet as (Ha2 & Hs2 & Hn2 & Hv2 & l2 & Hl2 & Ho2).
  cbn [app store next_id service log with_app] in Ha2, Hs2, Hn2, Hv2, Hl2.
  assert (Hfail : forall e,
             let wf := with_app (setIsLoading false)
                         (with_app (setError (Some (message_or e
                            "An unexpected error occurred during lab generation.")))
                            (emit (ConsoleError "Lab Generation Error:" e) w2)) in
             same_selection (app w) (app wf) /\ service wf = service w
             /\ error (app wf) <> None /\ store wf = store w
             /\ store_ops (log wf) = store_ops (log w)).
  { intros e. cbn. rewrite Ha2, Hs2, Hv2, Hl2, !store_ops_app, Ho2.
    repeat split; try discriminate.
    change (store_ops [ConsoleError "Lab Generation Error:" e]) with (@nil Event).
    now rewrite !app_nil_r. }
  destruct r as [data | e].
  - destruct (negb (truthy data) || negb (truthy (opt_get data "problemStatement")))
      eqn:Hcheck.
    + cbn in Hrun. injection Hrun as <- <-.
      eexists. split; [reflexivity|].
      destruct (Hfail (Error "AI failed to generate lab instructions."))
        as (F1 & F2 & F3 & F4 & F5).
      split; [exact F1|]. split; [exact F2|]. left. auto.
    + apply orb_false_iff in Hcheck as [_ Hps]. apply negb_false_iff in Hps.
      rewrite Hu, getCollectionPath_private in Hrun by exact Hne. fold path in Hrun.
      clearbody path.
      cbn [lab_ setError setIsLoading] in Hrun.
      destruct (lab_ (app w)) as [l|] eqn:Hlab; cbn in Hrun;
        injection Hrun as <- <-; (eexists; split; [reflexivity|]);
        cbn; rewrite Ha2, Hv2; (split; [repeat split|]); (split; [reflexivity|]);
        right; exists data, (clock w2);
        (split; [reflexivity|]); (split; [symmetry; exact Hr|]);
        (split; [exact Hps|]).
      * rewrite !store_set_same, Hs2, Hn2, Hl2.
        split; [reflexivity|].
        rewrite <- !app_assoc, !store_ops_app, Ho2. reflexivity.
      * rewrite store_set_same, Hs2, Hn2, Hl2.
        split; [reflexivity|].
        rewrite <- !app_assoc, !store_ops_app, Ho2. reflexivity.
  - cbn in Hrun. injection Hrun as <- <-.
    eexists. split; [reflexivity|].
    destruct (Hfail e) as (F1 & F2 & F3 & F4 & F5).
    split; [exact F1|]. split; [exact F2|]. left. auto.
Qed.
End Lab.

Section LabInvariant.
Context {host : Host}.
Variable topic : DocId * Topic.
Variable u : string.

Let path := private_path u "assets".
Let labs (w : World) := assets_where (store w path) (fst topic) lab.

(** What a regeneration sequence never changes, together with the
    invariant. *)
Let ready (w : World) : Prop :=
  isAuthReady (app w) = true /\ db (app w) = true
  /\ activeTopic (app w) = Some topic /\ userId (app w) = Some u
  /\ List.length (labs w) <= 1.

(** One regeneration keeps the invariant; a successful one deletes the lab
    asset found, if any, and then inserts the new one, which is then the
    only one. *)
Lemma regenerate_lab_step (w : World) :
  u <> "" -> ready w ->
  ready (regenerate_lab w)
  /\ (error (app (regenerate_lab w)) = None ->
      exists id a,
        labs (regenerate_lab w) = [(id, a)]
        /\ store_ops (log (regenerate_lab w))
           = (store_ops (log w)
              ++ map (DeleteDoc path) (map fst (labs w))
              ++ [AddDoc path id (DAsset a)])%list).
Proof.
  intros Hne (Hauth & Hdb & Htopic & Hu & Hone).
  pose proof (notify_assets_spec w Hauth Hdb Htopic Hu Hne)
    as (_ & Hlab & Hsel & Hst & Hn & _ & _ & Hl).
  fold path in Hlab. fold (labs w) in Hlab.
  destruct Hsel as (Sdb & Su & Sauth & Stopic & _).
  rewrite <- Sdb in Hdb. rewrite <- Stopic in Htopic. rewrite <- Su in Hu.
  rewrite <- Sauth in Hauth.
  destruct (handleGenerateLab_spec (notify_assets w) Hdb Htopic Hu Hne)
    as (w' & Hrun & Hsel' & _ & Hcases).
  fold path in Hcases.
  assert (Hw' : regenerate_lab w = w') by (unfold regenerate_lab; now rewrite Hrun).
  rewrite Hw'. clear Hw' Hrun.
  destruct Hsel' as (Sdb' & Su' & Sauth' & Stopic' & _).
  assert (Hsame : isAuthReady (app w') = true /\ db (app w') = true
                  /\ activeTopic (app w') = Some topic /\ userId (app w') = Some u)
    by (repeat split; congruence).
  destruct Hcases as [(Herr & Hst' & Hl') | (data & createdAt & Herr & _ & _ & Hst' & Hl')].
  - split.
    + destruct Hsame as (? & ? & ? & ?). repeat split; try assumption.
      unfold labs. rewrite Hst', Hst. exact Hone.
    + intros Hok. contradiction.
  - assert (Hdel : assets_where
                     (remove_docs
                        match lab_ (app (notify_assets w)) with
                        | Some l => [fst l]
                        | None => []
                        end (store (notify_assets w) path)) (fst topic) lab = []).
    { apply assets_where_removed. rewrite Hst, Hlab. fold (labs w).
      intros id a Hin. destruct (labs w) as [|d [|d' l]]; cbn in *.
      - contradiction.
      - destruct Hin as [-> | []]. left. reflexivity.
      - lia. }
    assert (Hnew : labs w' = [(next_id (notify_assets w),
                               lab_asset topic createdAt data)]).
    { unfold labs. rewrite Hst', assets_where_app, Hdel. cbn.
      now rewrite Nat.eqb_refl. }
    split.
    + destruct Hsame as (? & ? & ? & ?). repeat split; try assumption.
      rewrite Hnew. cbn. lia.
    + intros _. exists (next_id (notify_assets w)), (lab_asset topic createdAt data).
      split; [exact Hnew|]. rewrite Hl', Hl, Hlab. do 2 f_equal.
      destruct (labs w) as [|d [|d' l]]; cbn in *; try reflexivity. lia.
Qed.
End LabInvariant.

(** C4. Starting from a store with at most one lab asset for a topic, any
    number of generate-lab runs on that topic, each started with the [lab]
    cell reflecting the store, leaves at most one lab asset for the topic;
    each successful run deletes the lab asset found, if any, and then inserts
    the new one, which is afterwards the only one. *)
Theorem at_most_one_lab `{Host} (w : World) (topic : DocId * Topic) (u : string) :
  isAuthReady (app w) = true -> db (app w) = true ->
  activeTopic (app w) = Some topic ->
  userId (app w) = Some u -> u <> "" ->
  let path := private_path u "assets" in
  let labs := fun w : World => assets_where (store w path) (fst topic) lab in
  List.length (labs w) <= 1 ->
  forall n : nat,
    let wn := Nat.iter n regenerate_lab w in
    List.length (labs wn) <= 1
    /\ (error (app (regenerate_lab wn)) = None ->
        exists id a,
          labs (regenerate_lab wn) = [(id, a)]
          /\ store_ops (log (regenerate_lab wn))
             = (store_ops (log wn)
                ++ map (DeleteDoc path) (map fst (labs wn))
                ++ [AddDoc path id (DAsset a)])%list).
Proof.
  intros Hauth Hdb Htopic Hu Hne path labs Hone n.
  assert (Hready : forall k,
             isAuthReady (app (Nat.iter k regenerate_lab w)) = true
             /\ db (app (Nat.iter k regenerate_lab w)) = true
             /\ activeTopic (app (Nat.iter k regenerate_lab w)) = Some topic
             /\ userId (app (Nat.iter k regenerate_lab w)) = Some u
             /\ List.length (labs (Nat.iter k regenerate_lab w)) <= 1).
  { induction k as [|k IH].
    - cbn. auto.
    - cbn [Nat.iter nat_rect]. apply (regenerate_lab_step Hne IH). }
  cbn zeta. split.
  - apply Hready.
  - apply (regenerate_lab_step Hne (Hready n)).
Qed.

Lemma at_most_one_lab_witness :
  let path := @private_path Reference.host "user-1" "assets" in
  let labs := fun w : World => assets_where (store w path) 5 lab in
  let w2 := Nat.iter 2 (@regenerate_lab Reference.host) three_labs_world in
  List.length (labs w2) <= 1
  /\ (error (app (@regenerate_lab Reference.host w2)) = None ->
      exists id a,
        labs (@regenerate_lab Reference.host w2) = [(id, a)]
        /\ store_ops (log (@regenerate_lab Reference.host w2))
           = (store_ops (log w2)
              ++ map (DeleteDoc path) (map fst (labs w2))
              ++ [AddDoc path id (DAsset a)])%list).
Proof.
  exact (@at_most_one_lab Reference.host three_labs_world topic_5 "user-1"
           eq_refl eq_refl eq_refl eq_refl ltac:(discriminate) Nat.le_0_1 2).
Defined.

(** ** generate-course *)

Lemma append_cancel (p a b : string) : p ++ a = p ++ b -> a = b.
Proof.
  induction p as [|c p IH]; simpl; intros Heq; [exact Heq|].
  injection Heq as Heq. exact (IH Heq).
Qed.

Lemma remove_docs_all (c : Collection) : remove_docs (map fst c) c = [].
Proof.
  destruct (remove_docs (map fst c) c) as [|d l] eqn:E; [reflexivity|].
  exfalso.
  assert (Hin : In d (remove_docs (map fst c) c)) by (rewrite E; left; reflexivity).
  apply remove_docs_In in Hin as [Hc Hn]. apply Hn. now apply in_map.
Qed.

Section CourseLoops.
Context {host : Host}.

Lemma private_path_inj (u a b : string) :
  private_path u a = private_path u b -> a = b.
Proof.
  unfold private_path. intros Heq.
  repeat (apply append_cancel in Heq). exact Heq.
Qed.

(** The inner loop of [handleGenerateCourse] on topics none of which is
    [null]: one topic record per element, in order. *)
Lemma save_topics_loop (topicsCollection : string) (moduleId : DocId)
      (topics_ : list value) :
  forall (j : nat) (w : World),
    Forall (fun t => nullish t = false) topics_ ->
    exists w' tdocs,
      for_index topics_ j (save_topic topicsCollection moduleId) w = (Ok tt, w')
      /\ Forall2 (topic_saved moduleId)
                 (combine (seq j (List.length topics_)) topics_) tdocs
      /\ store w' topicsCollection = (store w topicsCollection ++ topic_docs tdocs)%list
      /\ (forall p, p <> topicsCollection -> store w' p = store w p)
      /\ same_session w w'
      /\ next_id w' = next_id w + List.length topics_
      /\ log w'
         = (log w ++ map (fun d => AddDoc topicsCollection (fst d) (snd d))
                         (topic_docs tdocs))%list.
Proof.
  induction topics_ as [|topic rest IH]; intros j w Hall.
  - exists w, []. cbn. rewrite Nat.add_0_r, !app_nil_r.
    repeat split. constructor.
  - inversion Hall as [|? ? Htopic Hrest]; subst.
    cbn [for_index]. unfold bind at 1. unfold save_topic at 1.
    unfold bind at 1 2 3 4, lift, new_Date, addDoc, ret.
    rewrite !(get_not_nullish _ _ Htopic).
    match goal with |- context [for_index rest _ _ ?w1] =>
      destruct (IH (Datatypes.S j) w1 Hrest)
        as (w' & tdocs & Hrun & Hsaved & Hst & Ho & Hs & Hn & Hl) end.
    rewrite Hrun.
    exists w', ((next_id w,
                 mkTopic moduleId
                   (or_else (opt_get topic "topic_title")
                            (VStr ("Topic " ++ decimal (j + 1))))
                   (or_else (opt_get topic "content_draft")
                            (VStr "Content draft pending."))
                   (Z.of_nat (j + 1)) (clock w)) :: tdocs).
    split; [reflexivity|].
    destruct Hs as (Ha & Hv & Hf & Hc). cbn in Ha, Hv, Hf, Hc, Hn, Hst, Ho, Hl.
    split.
    { cbn [List.length seq combine]. constructor; [|exact Hsaved].
      repeat split. }
    split; [rewrite Hst, store_set_same, <- app_assoc; reflexivity|].
    split; [intros p Hp; rewrite (Ho p Hp); now apply store_set_other|].
    split; [repeat split; assumption|].
    split; [rewrite Hn; cbn [List.length]; lia|].
    rewrite Hl, <- app_assoc. reflexivity.
Qed.
End CourseLoops.

Section CourseModules.
Context {host : Host}.

Lemma elements_not_array (v : value) : isArray v = false -> elements v = [].
Proof. destruct v; simpl; intros; try discriminate; reflexivity. Qed.

(** One turn of the outer loop of [handleGenerateCourse] whose
    topic-generation call returns [v]: the module record is written, then one
    topic record per element of [v] (none when [v] is not an array). *)
Lemma save_module_step (modulesCollection topicsCollection name : string)
      (newCourseId : DocId) (i : nat) (moduleData : value) (w : World)
      (v : value) (n1 : nat) :
  modulesCollection <> topicsCollection ->
  nullish moduleData = false ->
  generation (service w) true (fetched w) = (Ok v, n1) ->
  Forall (fun t => nullish t = false) (elements v) ->
  exists w' tdocs createdAt,
    save_module modulesCollection topicsCollection name newCourseId i moduleData w
    = (Ok tt, w')
    /\ Forall2 (topic_saved (next_id w))
               (combine (seq 0 (List.length (elements v))) (elements v)) tdocs
    /\ store w' modulesCollection
       = (store w modulesCollection
          ++ [(next_id w,
               DModule (mkModule newCourseId (opt_get moduleData "title")
                          (opt_get moduleData "objective") (Z.of_nat (i + 1))
                          createdAt))])%list
    /\ store w' topicsCollection = (store w topicsCollection ++ topic_docs tdocs)%list
    /\ (forall p, p <> modulesCollection -> p <> topicsCollection ->
                  store w' p = store w p)
    /\ app w' = app w /\ service w' = service w /\ fetched w' = n1
    /\ next_id w' = Datatypes.S (next_id w) + List.length (elements v)
    /\ store_ops (log w')
       = (store_ops (log w)
          ++ AddDoc modulesCollection (next_id w)
               (DModule (mkModule newCourseId (opt_get moduleData "title")
                           (opt_get moduleData "objective") (Z.of_nat (i + 1))
                           createdAt))
          :: map (fun d => AddDoc topicsCollection (fst d) (snd d))
                 (topic_docs tdocs))%list.
Proof.
  intros Hpaths Hmd Hgen Htopics.
  set (m := mkModule newCourseId (opt_get moduleData "title")
              (opt_get moduleData "objective") (Z.of_nat (i + 1)) (clock w)).
  set (w1 := emit (AddDoc modulesCollection (next_id w) (DModule m))
               (mkWorld (app w)
                  (store_set (store w) modulesCollection
                     ((store w modulesCollection ++ [(next_id w, DModule m)])%list))
                  (Datatypes.S (next_id w)) (service w) (fetched w) (clock w) (log w))).
  set (uq := "Generate 5 topics for the module '" ++ ToString (opt_get moduleData "title")
             ++ "' within the course '" ++ name ++ "'.").
  pose proof (generate_spec topic_systemPrompt uq true w1) as (Hr & Hf & Hnet).
  destruct (generate topic_systemPrompt uq true w1) as [r w2] eqn:Hrun2.
  cbn [fst snd] in Hr, Hf, Hnet.
  change (service w1) with (service w) in Hr, Hf.
  change (fetched w1) with (fetched w) in Hr, Hf.
  rewrite Hgen in Hr, Hf. cbn [fst snd] in Hr, Hf. subst r.
  destruct Hnet as (Ha2 & Hs2 & Hn2 & Hv2 & l2 & Hl2 & Ho2).
  destruct (save_topics_loop topicsCollection (next_id w) 0 w2 Htopics)
    as (w3 & tdocs & Hrun3 & Hsaved & Hst3 & Ho3 & Hs3 & Hn3 & Hl3).
  destruct Hs3 as (Ha3 & Hv3 & Hf3 & Hc3).
  exists w3, tdocs, (clock w). split.
  - unfold save_module, bind at 1 2 3 4 5, lift, new_Date, addDoc, ret.
    rewrite !(get_not_nullish _ _ Hmd). fold m w1 uq. rewrite Hrun2.
    destruct (isArray v) eqn:Harr; [exact Hrun3|].
    rewrite (elements_not_array _ Harr) in Hrun3. cbn in Hrun3.
    injection Hrun3 as <-. reflexivity.
  - fold m. split; [exact Hsaved|].
    split.
    { rewrite (Ho3 modulesCollection Hpaths), Hs2. unfold w1. cbn [store emit].
      apply store_set_same. }
    split.
    { rewrite Hst3, Hs2. unfold w1. cbn [store emit].
      rewrite store_set_other by (intros E; apply Hpaths; now symmetry). reflexivity. }
    split.
    { intros p Hpm Hpt. rewrite (Ho3 p Hpt), Hs2. unfold w1. cbn [store emit].
      now apply store_set_other. }
    split; [rewrite Ha3, Ha2; reflexivity|].
    split; [rewrite Hv3, Hv2; reflexivity|].
    split; [rewrite Hf3; exact Hf|].
    split; [rewrite Hn3, Hn2; reflexivity|].
    rewrite Hl3, Hl2. unfold w1. cbn [log emit].
    rewrite !store_ops_app, Ho2, app_nil_r, store_ops_adds, <- app_assoc. reflexivity.
Qed.
End CourseModules.

Section CourseRun.
Context {host : Host}.

(** The outer loop of [handleGenerateCourse] when every topic-generation call
    returns: the tree of module and topic records it appends. *)
Lemma save_modules_loop (modulesCollection topicsCollection name : string)
      (newCourseId : DocId) :
  modulesCollection <> topicsCollection ->
  forall (mods values : list value) (i : nat) (w : World),
    Forall (fun md => nullish md = false) mods ->
    Forall (fun v => Forall (fun t => nullish t = false) (elements v)) values ->
    generations (service w) (fetched w) (List.length mods) = map Ok values ->
    exists w' (tree : Tree),
      for_index mods i
                (save_module modulesCollection topicsCollection name newCourseId) w
      = (Ok tt, w')
      /\ Forall2 (module_saved newCourseId)
                 (combine (seq i (List.length mods)) (combine mods values)) tree
      /\ store w' modulesCollection = (store w modulesCollection ++ tree_modules tree)%list
      /\ store w' topicsCollection = (store w topicsCollection ++ tree_topics tree)%list
      /\ (forall p, p <> modulesCollection -> p <> topicsCollection ->
                    store w' p = store w p)
      /\ app w' = app w /\ service w' = service w
      /\ next_id w <= next_id w'
      /\ Forall (fun n => next_id w <= module_id n < next_id w') tree
      /\ NoDup (map module_id tree)
      /\ exists ops,
           store_ops (log w') = (store_ops (log w) ++ ops)%list
           /\ Forall (adds_to [modulesCollection; topicsCollection]) ops.
Proof.
  intros Hpaths mods.
  induction mods as [|md mods IH]; intros values i w Hmods Hvalues Hgens.
  - destruct values; [|discriminate].
    exists w, []. cbn. rewrite !app_nil_r.
    repeat split; try constructor; try lia.
    exists []. split; [now rewrite app_nil_r | constructor].
  - cbn [List.length generations] in Hgens.
    destruct (generation (service w) true (fetched w)) as [r n1] eqn:Hgen.
    destruct values as [|v values]; [discriminate|].
    cbn [map] in Hgens. injection Hgens as -> Hgens.
    inversion Hmods as [|? ? Hmd Hmods']; subst.
    inversion Hvalues as [|? ? Hv Hvalues']; subst.
    destruct (@save_module_step host modulesCollection topicsCollection name newCourseId
                i md w v n1 Hpaths Hmd Hgen Hv)
      as (w1 & tdocs & createdAt & Hrun1 & Hsaved & Hm1 & Ht1 & Ho1 & Ha1 & Hs1 & Hf1
          & Hn1 & Hl1).
    rewrite <- Hs1, <- Hf1 in Hgens.
    destruct (IH values (Datatypes.S i) w1 Hmods' Hvalues' Hgens)
      as (w2 & tree & Hrun2 & Htree & Hm2 & Ht2 & Ho2 & Ha2 & Hs2 & Hle & Hids & Hnd
          & ops & Hl2 & Hops).
    set (m := mkModule newCourseId (opt_get md "title") (opt_get md "objective")
                (Z.of_nat (i + 1)) createdAt) in *.
    exists w2, ((next_id w, m, tdocs) :: tree).
    split; [cbn [for_index]; unfold bind at 1; rewrite Hrun1; exact Hrun2|].
    split.
    { cbn [List.length seq combine]. constructor; [|exact Htree].
      unfold module_saved, module_id. cbn [fst snd]. repeat split. exact Hsaved. }
    split; [rewrite Hm2, Hm1, <- app_assoc; reflexivity|].
    split.
    { rewrite Ht2, Ht1, <- app_assoc. reflexivity. }
    split; [intros p Hpm Hpt; rewrite (Ho2 p Hpm Hpt); now apply Ho1|].
    split; [congruence|]. split; [congruence|].
    split; [lia|].
    split.
    { constructor; [unfold module_id; cbn [fst]; lia|].
      eapply Forall_impl; [|exact Hids]. cbn beta. intros n Hn. lia. }
    split.
    { cbn [map]. constructor; [|exact Hnd].
      intros Hin. apply in_map_iff in Hin as (n & Hid & Hin).
      rewrite Forall_forall in Hids. specialize (Hids n Hin).
      unfold module_id in Hid at 2. cbn [fst] in Hid. lia. }
    eexists. split.
    { rewrite Hl2, Hl1, <- app_assoc. reflexivity. }
    apply Forall_app. split; [|exact Hops].
    constructor.
    + eexists _, _, _. split; [reflexivity | left; reflexivity].
    + clear. induction (topic_docs tdocs) as [|d l IHl]; constructor; [|exact IHl].
      eexists _, _, _. split; [reflexivity | right; left; reflexivity].
Qed.
End CourseRun.

Section CourseHandler.
Context {host : Host}.

(** A run of [handleGenerateCourse] in which the module-generation call
    returns a non-empty array without [null] elements and every
    topic-generation call returns: the old courses are deleted, the new course
    is inserted, and the tree of modules and topics is appended. *)
Lemma handleGenerateCourse_complete (w : World) (u : string) (mods values : list value) :
  db (app w) = true ->
  courseName (app w) <> "" -> trim (courseName (app w)) <> "" ->
  userId (app w) = Some u -> u <> "" ->
  generations (service w) (fetched w) (Datatypes.S (List.length mods))
  = Ok (VArr mods) :: map Ok values ->
  mods <> [] ->
  Forall (fun md => nullish md = false) mods ->
  Forall (fun v => Forall (fun t => nullish t = false) (elements v)) values ->
  let coursesCollection := private_path u "courses" in
  let modulesCollection := private_path u "modules" in
  let topicsCollection := private_path u "topics" in
  exists w' (tree : Tree) (createdAt : Z),
    handleGenerateCourse w = (Ok tt, w')
    /\ error (app w') = None
    /\ store w' coursesCollection
       = [(next_id w,
           DCourse (mkCourse (courseName (app w)) "draft" createdAt (Some u)))]
    /\ store w' modulesCollection = (store w modulesCollection ++ tree_modules tree)%list
    /\ store w' topicsCollection = (store w topicsCollection ++ tree_topics tree)%list
    /\ Forall2 (module_saved (next_id w))
               (combine (seq 0 (List.length mods)) (combine mods values)) tree
    /\ NoDup (map module_id tree)
    /\ exists ops,
         store_ops (log w')
         = (store_ops (log w)
            ++ GetDocs coursesCollection
            :: map (DeleteDoc coursesCollection) (map fst (store w coursesCollection))
            ++ AddDoc coursesCollection (next_id w)
                 (DCourse (mkCourse (courseName (app w)) "draft" createdAt (Some u)))
            :: ops)%list
         /\ Forall (adds_to [modulesCollection; topicsCollection]) ops.
Proof.
  intros Hdb Hname Htrim Hu Hne Hgens Hmods Hnn Hvalues cpath mpath tpath.
  assert (Hcm : cpath <> mpath)
    by (intros E; apply private_path_inj in E; discriminate E).
  assert (Hct : cpath <> tpath)
    by (intros E; apply private_path_inj in E; discriminate E).
  assert (Hmt : mpath <> tpath)
    by (intros E; apply private_path_inj in E; discriminate E).
  cbn [generations] in Hgens.
  destruct (generation (service w) true (fetched w)) as [r n1] eqn:Hgen.
  injection Hgens as -> Hgens.
  set (uq := "Generate a course structure for a " ++ courseName (app w) ++ " course.").
  set (w1 := with_app (setError None) (with_app (setIsLoading true) w)).
  pose proof (generate_spec course_systemPrompt uq true w1) as (Hr & Hf & Hnet).
  destruct (generate course_systemPrompt uq true w1) as [r w2] eqn:Hrun2.
  cbn [fst snd] in Hr, Hf, Hnet.
  change (service w1) with (service w) in Hr, Hf.
  change (fetched w1) with (fetched w) in Hr, Hf.
  rewrite Hgen in Hr, Hf. cbn [fst snd] in Hr, Hf. subst r.
  destruct Hnet as (Ha2 & Hs2 & Hn2 & Hv2 & l2 & Hl2 & Ho2).
  change (app w1) with (setError None (setIsLoading true (app w))) in Ha2.
  change (store w1) with (store w) in Hs2.
  change (next_id w1) with (next_id w) in Hn2.
  change (service w1) with (service w) in Hv2.
  change (log w1) with (log w) in Hl2.
  destruct (delete_loop (fun doc : DocId * Doc => fst doc) cpath (store w2 cpath)
              (emit (GetDocs cpath) w2))
    as (w3 & Hrun3 & Hs3 & Hn3 & Hst3 & Ho3 & Hl3).
  destruct Hs3 as (Ha3 & Hv3 & Hf3 & Hc3).
  cbn [app store next_id service fetched clock log emit] in Ha3, Hv3, Hf3, Hc3, Hn3, Hst3, Ho3, Hl3.
  rewrite remove_docs_all in Hst3.
  set (c := mkCourse (courseName (app w)) "draft" (clock w3) (userId (app w))).
  set (w4 := emit (AddDoc cpath (next_id w3) (DCourse c))
               (mkWorld (app w3)
                  (store_set (store w3) cpath ((store w3 cpath ++ [(next_id w3, DCourse c)])%list))
                  (Datatypes.S (next_id w3)) (service w3) (fetched w3) (clock w3) (log w3))).
  assert (Hgens4 : generations (service w4) (fetched w4) (List.length mods) = map Ok values).
  { change (service w4) with (service w3). change (fetched w4) with (fetched w3).
    rewrite Hv3, Hf3, Hv2, Hf. exact Hgens. }
  destruct (@save_modules_loop host mpath tpath (courseName (app w)) (next_id w3) Hmt
              mods values 0 w4 Hnn Hvalues Hgens4)
    as (w5 & tree & Hrun5 & Htree & Hm5 & Ht5 & Ho5 & Ha5 & Hs5 & _ & _ & Hnd
        & ops & Hl5 & Hops).
  assert (Hid : next_id w3 = next_id w) by congruence.
  exists (with_app (setIsLoading false) w5), tree, (clock w3).
  split.
  - unfold handleGenerateCourse. rewrite Hdb. cbn [negb orb].
    destruct (String.eqb_spec (courseName (app w)) ""); [contradiction|].
    destruct (String.eqb_spec (trim (courseName (app w))) ""); [contradiction|].
    cbn [orb].
    unfold finally, try_catch, bind at 1 2, setState at 1 2, effect. fold w1.
    unfold generate_course, bind at 1. fold uq. rewrite Hrun2.
    cbn [isArray negb elements orb].
    destruct mods as [|md0 mods']; [contradiction|].
    cbn [List.length Nat.eqb].
    rewrite Hu, !getCollectionPath_private by exact Hne. fold cpath mpath tpath.
    unfold collection, bind at 1 2 3 4, ret.
    unfold bind at 1. unfold getDocs at 1.
    unfold bind at 1. rewrite Hrun3.
    unfold bind at 1. unfold new_Date at 1.
    unfold bind at 1. unfold addDoc at 1.
    rewrite <- Hu. fold c w4. rewrite Hrun5. reflexivity.
  - cbn [with_app app store log].
    split; [rewrite Ha5; unfold w4; cbn [app emit]; rewrite Ha3, Ha2; reflexivity|].
    split.
    { rewrite (Ho5 cpath Hcm Hct). unfold w4. cbn [store emit].
      rewrite store_set_same, Hst3, Hid. unfold c. rewrite Hu. reflexivity. }
    split.
    { rewrite Hm5. unfold w4. cbn [store emit].
      rewrite store_set_other by (intros E; apply Hcm; now symmetry).
      rewrite (Ho3 mpath) by (intros E; apply Hcm; now symmetry).
      rewrite Hs2. reflexivity. }
    split.
    { rewrite Ht5. unfold w4. cbn [store emit].
      rewrite store_set_other by (intros E; apply Hct; now symmetry).
      rewrite (Ho3 tpath) by (intros E; apply Hct; now symmetry).
      rewrite Hs2. reflexivity. }
    split; [rewrite <- Hid; exact Htree|].
    split; [exact Hnd|].
    exists ops. split; [|exact Hops].
    rewrite Hl5. unfold w4. cbn [log emit]. rewrite Hl3, Hl2, Hs2, Hid.
    rewrite !store_ops_app, Ho2, app_nil_r.
    rewrite (store_ops_deletes cpath (fun doc : DocId * Doc => fst doc)).
    unfold c. rewrite Hu. cbn [store_ops filter is_store_op app].
    rewrite <- !app_assoc. reflexivity.
Qed.
End CourseHandler.

Lemma generations_length `{Host} (service_ : nat -> FetchOutcome) (k : nat) :
  forall n, List.length (generations service_ n k) = k.
Proof.
  induction k as [|k IH]; intros n; [reflexivity|].
  cbn [generations]. destruct (generation service_ true n) as [r n'].
  cbn [List.length]. now rewrite IH.
Qed.





(** ** More on the resilient caller *)

Lemma sleeps_failed_attempts (errors : list exn) :
  forall (attempt : nat) (delay : Z),
    Mock.sleeps (failed_attempts attempt delay errors)
    = map (fun j => (delay * 2 ^ Z.of_nat j)%Z) (seq 0 (List.length errors)).
Proof.
  induction errors as [|e errors IH]; intros attempt delay; [reflexivity|].
  cbn [failed_attempts Mock.sleeps flat_map List.app List.length seq map].
  change (flat_map _ (failed_attempts (Datatypes.S attempt) (delay * 2) errors))
    with (Mock.sleeps (failed_attempts (Datatypes.S attempt) (delay * 2) errors)).
  rewrite IH. cbn [List.app]. f_equal; [cbn; ring|].
  rewrite <- seq_shift, map_map. apply map_ext. intros j.
  rewrite Nat2Z.inj_succ, Z.pow_succ_r by lia. ring.
Qed.

Lemma invocations_failed_attempts (errors : list exn) :
  forall (attempt : nat) (delay : Z),
    Mock.invocations (failed_attempts attempt delay errors) = List.length errors.
Proof.
  induction errors as [|e errors IH]; intros attempt delay; [reflexivity|].
  unfold Mock.invocations in *. cbn. f_equal. apply IH.
Qed.

Lemma total_app (l1 l2 : list Z) : total (l1 ++ l2)%list = (total l1 + total l2)%Z.
Proof. unfold total. induction l1 as [|x l1 IH]; cbn; [reflexivity|]. rewrite IH. ring. Qed.

Lemma backoff_succ (k : nat) :
  backoff (Datatypes.S k) = (backoff k ++ [(1000 * 2 ^ Z.of_nat k)%Z])%list.
Proof. unfold backoff. rewrite seq_S, map_app. reflexivity. Qed.

Lemma total_backoff (k : nat) : total (backoff k) = (1000 * (2 ^ Z.of_nat k - 1))%Z.
Proof.
  induction k as [|k IH]; [reflexivity|].
  rewrite backoff_succ, total_app, IH. cbn [total fold_right].
  rewrite Nat2Z.inj_succ, Z.pow_succ_r by lia. ring.
Qed.

(** The delays of up to 22 failed attempts fit a 32-bit signed integer. *)
Lemma backoff_bounded (k : nat) :
  k <= 22 -> Forall (fun delay => (delay <= 2 ^ 31 - 1)%Z) (backoff k).
Proof.
  intros Hk. unfold backoff. apply Forall_map, Forall_forall. intros j Hj.
  apply in_seq in Hj.
  assert (Hpow : (2 ^ Z.of_nat j <= 2 ^ 21)%Z) by (apply Z.pow_le_mono_r; lia).
  change (2 ^ 31 - 1)%Z with 2147483647%Z. change (2 ^ 21)%Z with 2097152%Z in Hpow.
  lia.
Qed.

Lemma mock_trace_counts (errors : list exn) :
  let t := (failed_attempts 1 1000 errors ++ [Mock.Invoked])%list in
  Mock.invocations t = List.length errors + 1
  /\ Mock.sleeps t = backoff (List.length errors).
Proof.
  cbn zeta. split.
  - unfold Mock.invocations. rewrite filter_app, length_app.
    change (List.length (filter _ (failed_attempts 1 1000 errors)))
      with (Mock.invocations (failed_attempts 1 1000 errors)).
    rewrite invocations_failed_attempts. reflexivity.
  - unfold Mock.sleeps. rewrite flat_map_app.
    change (flat_map _ (failed_attempts 1 1000 errors))
      with (Mock.sleeps (failed_attempts 1 1000 errors)).
    rewrite sleeps_failed_attempts. cbn. rewrite app_nil_r. reflexivity.
Qed.

(** X1. [withRetry] for the caps up to 23, the largest for which every
    delay handed to [setTimeout], at most [1000 * 2^21], is within the
    range of a 32-bit signed integer, so that the timer waits for the
    delay.  With [maxRetries] attempts allowed, an operation that fails
    [k < maxRetries] times and then succeeds returns its value after
    [k + 1] invocations, the caller having slept 1000, 2000, ...,
    [1000 * 2^(k-1)] between them; an operation that fails [maxRetries]
    times raises its last error after exactly [maxRetries] invocations and
    [maxRetries - 1] sleeps, which add up to
    [1000 * (2^(maxRetries-1) - 1)]; nothing is invoked afterwards.  Every
    delay slept is at most [2^31 - 1].  With [maxRetries = 0] the operation
    is never invoked and the result is [undefined]. *)
Theorem withRetry_schedule :
  (forall (maxRetries : nat) (errors : list exn) (v : value) (rest : list (Result value)),
      maxRetries <= 23 ->
      List.length errors < maxRetries ->
      let t := (failed_attempts 1 1000 errors ++ [Mock.Invoked])%list in
      Mock.run maxRetries (Mock.init (map Throw errors ++ Ok v :: rest)%list)
      = (Ok v, Mock.mk rest t)
      /\ Mock.invocations t = List.length errors + 1
      /\ Mock.sleeps t = backoff (List.length errors)
      /\ Forall (fun delay => (delay <= 2 ^ 31 - 1)%Z) (Mock.sleeps t))
  /\
  (forall (maxRetries : nat) (errors : list exn) (last : exn) (rest : list (Result value)),
      maxRetries <= 23 ->
      maxRetries = List.length errors + 1 ->
      let t := (failed_attempts 1 1000 errors ++ [Mock.Invoked])%list in
      Mock.run maxRetries (Mock.init (map Throw errors ++ Throw last :: rest)%list)
      = (Throw last, Mock.mk rest t)
      /\ Mock.invocations t = maxRetries
      /\ Mock.sleeps t = backoff (maxRetries - 1)
      /\ total (Mock.sleeps t) = (1000 * (2 ^ Z.of_nat (maxRetries - 1) - 1))%Z
      /\ Forall (fun delay => (delay <= 2 ^ 31 - 1)%Z) (Mock.sleeps t))
  /\
  (forall (S : Type) (sleep_ : Z -> S -> S) (warn_ : nat -> Z -> exn -> S -> S)
          (fn : M S value) (s : S),
      withRetry sleep_ warn_ fn 0 s = (Ok VUndefined, s)).
Proof.
  split; [|split].
  - intros maxRetries errors v rest Hcap Hk t.
    destruct (mock_trace_counts errors) as (Hi & Hs).
    split; [|split; [assumption | split; [assumption|]]].
    2: { fold t in Hs. rewrite Hs. apply backoff_bounded. lia. }
    unfold Mock.run, withRetry, Mock.init.
    rewrite mock_loop_failures by lia.
    destruct (maxRetries - List.length errors) as [|remaining] eqn:Hrem; [lia|].
    apply withRetry_loop_success. reflexivity.
  - intros maxRetries errors last rest Hcap Hk t.
    destruct (mock_trace_counts errors) as (Hi & Hs).
    assert (Hn : maxRetries - 1 = List.length errors) by lia.
    split; [|split; [|split; [|split]]].
    5: { fold t in Hs. rewrite Hs. apply backoff_bounded. lia. }
    + unfold Mock.run, withRetry, Mock.init.
      rewrite mock_loop_failures by lia.
      replace (maxRetries - List.length errors) with 1 by lia.
      replace (0 + List.length errors) with (maxRetries - 1) by lia.
      apply withRetry_loop_last. reflexivity.
    + fold t in Hi. lia.
    + fold t in Hs. rewrite Hn. exact Hs.
    + fold t in Hs. rewrite Hs, Hn. apply total_backoff.
  - reflexivity.
Qed.

Lemma withRetry_schedule_witness :
  Mock.run 3 (Mock.init [Throw (Error "a"); Throw (Error "b"); Ok (VStr "done"); Ok VNull])
  = (Ok (VStr "done"),
     Mock.mk [Ok VNull]
       [Mock.Invoked; Mock.Warned 1 1000 (Error "a"); Mock.Slept 1000;
        Mock.Invoked; Mock.Warned 2 2000 (Error "b"); Mock.Slept 2000;
        Mock.Invoked])
  /\
  Mock.run 2 (Mock.init [Throw (Error "a"); Throw (Error "b"); Ok (VStr "late")])
  = (Throw (Error "b"),
     Mock.mk [Ok (VStr "late")]
       [Mock.Invoked; Mock.Warned 1 1000 (Error "a"); Mock.Slept 1000; Mock.Invoked]).
Proof.
  split.
  - refine (proj1 (proj1 withRetry_schedule 3 [Error "a"; Error "b"] (VStr "done")
                     [Ok VNull] _ _)); simpl; lia.
  - refine (proj1 (proj1 (proj2 withRetry_schedule) 2 [Error "a"] (Error "b")
                     [Ok (VStr "late")] _ _)); [lia | reflexivity].
Defined.

(** ** More on the generation calls *)

Section GenerationJournal.
Context {host : Host}.

(** What one call logs: its request, and possibly the console error of a
    text that is no JSON. *)
Lemma callGeminiApi_log (systemPrompt userQuery : string) (isJson : bool) (w : World) :
  exists rest,
    log (snd (callGeminiApi systemPrompt userQuery isJson w))
    = (log w ++ Fetch (GEMINI_API_URL_BASE ++ API_KEY)
                  (request_payload systemPrompt userQuery isJson) :: rest)%list
    /\ fetches rest = [] /\ sleeps_of rest = [] /\ warnings_of rest = []
    /\ store_ops rest = [].
Proof.
  unfold callGeminiApi, bind, fetch.
  destruct (service w (fetched w)) as [e | r]; [exists []; repeat split|].
  cbn [emit log]. destruct (negb (ok r)); [exists []; repeat split|].
  unfold response_json.
  destruct (JSON_parse (body r)) as [result|]; [|exists []; repeat split].
  cbn [ret lift]. destruct (get result "candidates") as [candidates|e];
    [|exists []; repeat split].
  destruct (truthy (opt_first candidates)
            && truthy (candidate_text (opt_first candidates)));
    [|exists []; repeat split].
  destruct (candidate_text (opt_first candidates)); try solve [exists []; repeat split].
  destruct isJson; [|exists []; repeat split].
  destruct (JSON_parse (trim s)); [exists []; repeat split|].
  eexists. unfold console_error_text, effect, throw, emit. cbn [log snd].
  rewrite <- app_assoc. repeat split.
Qed.

Lemma combine_seq_shift (A : Type) (l : list A) :
  forall n : nat,
    combine (seq (Datatypes.S n) (List.length l)) l
    = map (fun je => (Datatypes.S (fst je), snd je)) (combine (seq n (List.length l)) l).
Proof.
  induction l as [|x l IH]; intros n; [reflexivity|].
  cbn. f_equal. apply IH.
Qed.

(** The journal of the retry loop around the client: the errors of the
    failed attempts that were retried, and what the loop logged. *)
Lemma generate_loop_journal (systemPrompt userQuery : string) (isJson : bool)
      (remaining : nat) :
  forall (i : nat) (delay : Z) (w : World),
    i + remaining = 5 -> 1 <= remaining ->
    let run := withRetry_loop sleep console_warn
                 (callGeminiApi systemPrompt userQuery isJson) 5 remaining i delay w in
    exists (errors : list exn) (l : list Event),
      Datatypes.S (List.length errors) <= remaining
      /\ fetched (snd run) = fetched w + Datatypes.S (List.length errors)
      /\ (forall j e, nth_error errors j = Some e ->
            decode isJson (service w (fetched w + j)) = Throw e)
      /\ fst run = decode isJson (service w (fetched w + List.length errors))
      /\ (forall e, fst run = Throw e -> Datatypes.S (List.length errors) = remaining)
      /\ log (snd run) = (log w ++ l)%list
      /\ fetches l
         = repeat (Fetch (GEMINI_API_URL_BASE ++ API_KEY)
                     (request_payload systemPrompt userQuery isJson))
                  (Datatypes.S (List.length errors))
      /\ sleeps_of l
         = map (fun j => (delay * 2 ^ Z.of_nat j)%Z) (seq 0 (List.length errors))
      /\ warnings_of l
         = map (fun je => (i + fst je + 1, (delay * 2 ^ Z.of_nat (fst je))%Z, snd je))
               (combine (seq 0 (List.length errors)) errors)
      /\ clock (snd run) = (clock w + total (sleeps_of l))%Z.
Proof.
  induction remaining as [|remaining IH]; intros i delay w Hi Hr; [lia|].
  cbn zeta. cbn [withRetry_loop].
  pose proof (callGeminiApi_result systemPrompt userQuery isJson w) as Hres.
  pose proof (callGeminiApi_world systemPrompt userQuery isJson w) as (Hn & Hf & Hc).
  destruct (callGeminiApi_log systemPrompt userQuery isJson w)
    as (rest & Hl & Hrf & Hrs & Hrw & _).
  destruct (callGeminiApi systemPrompt userQuery isJson w) as [r w1].
  cbn [fst snd] in Hres, Hn, Hf, Hc, Hl.
  assert (Hone : forall (res : Result value),
             res = r ->
             (forall e, res = Throw e -> 1 = Datatypes.S remaining) ->
             exists (errors : list exn) (l : list Event),
               Datatypes.S (List.length errors) <= Datatypes.S remaining
               /\ fetched w1 = fetched w + Datatypes.S (List.length errors)
               /\ (forall j e, nth_error errors j = Some e ->
                     decode isJson (service w (fetched w + j)) = Throw e)
               /\ res = decode isJson (service w (fetched w + List.length errors))
               /\ (forall e, res = Throw e
                             -> Datatypes.S (List.length errors) = Datatypes.S remaining)
               /\ log w1 = (log w ++ l)%list
               /\ fetches l
                  = repeat (Fetch (GEMINI_API_URL_BASE ++ API_KEY)
                              (request_payload systemPrompt userQuery isJson))
                           (Datatypes.S (List.length errors))
               /\ sleeps_of l
                  = map (fun j => (delay * 2 ^ Z.of_nat j)%Z) (seq 0 (List.length errors))
               /\ warnings_of l
                  = map (fun je => (i + fst je + 1, (delay * 2 ^ Z.of_nat (fst je))%Z,
                                    snd je))
                        (combine (seq 0 (List.length errors)) errors)
               /\ clock w1 = (clock w + total (sleeps_of l))%Z).
  { intros res Hres' Hlast. exists [], (Fetch (GEMINI_API_URL_BASE ++ API_KEY)
                      (request_payload systemPrompt userQuery isJson) :: rest).
    cbn [List.length nth_error seq map combine].
    repeat split.
    - lia.
    - lia.
    - intros [|j] e Hj; discriminate Hj.
    - rewrite Nat.add_0_r, Hres'. exact Hres.
    - intros e He. exact (Hlast e He).
    - exact Hl.
    - unfold fetches in *. cbn. now rewrite Hrf.
    - unfold sleeps_of in *. cbn. exact Hrs.
    - unfold warnings_of in *. cbn. exact Hrw.
    - unfold sleeps_of in *. cbn. rewrite Hrs, Hc. cbn. ring. }
  destruct r as [v | e].
  - cbn [fst snd]. apply Hone; [reflexivity | discriminate].
  - destruct (i =? 5 - 1)%nat eqn:Hlast.
    + apply Nat.eqb_eq in Hlast. cbn [fst snd].
      apply Hone; [reflexivity | intros; lia].
    + apply Nat.eqb_neq in Hlast. clear Hone.
      set (w2 := sleep delay (console_warn (i + 1) delay e w1)).
      specialize (IH (i + 1) (delay * 2)%Z w2 ltac:(lia) ltac:(lia)).
      cbn zeta in IH.
      destruct IH as (errors & l & Hle & Hfe & Herrs & Hfst & Hthrow & Hlog & Hfs & Hsl
                      & Hwa & Hcl).
      assert (Hs2 : service w2 = service w)
        by (destruct Hn as (_ & _ & _ & Hv & _); exact Hv).
      assert (Hf2 : fetched w2 = Datatypes.S (fetched w)) by exact Hf.
      assert (Hc2 : clock w2 = (clock w + delay)%Z)
        by (unfold w2, sleep, console_warn, emit; cbn; now rewrite Hc).
      assert (Hl2 : log w2
                    = (log w ++ Fetch (GEMINI_API_URL_BASE ++ API_KEY)
                                  (request_payload systemPrompt userQuery isJson)
                              :: rest ++ [ConsoleWarn (i + 1) delay e; Sleep delay])%list).
      { unfold w2, sleep, console_warn, emit. cbn [log]. rewrite Hl.
        rewrite <- !app_assoc. reflexivity. }
      exists (e :: errors),
        (Fetch (GEMINI_API_URL_BASE ++ API_KEY)
               (request_payload systemPrompt userQuery isJson)
         :: rest ++ [ConsoleWarn (i + 1) delay e; Sleep delay] ++ l)%list.
      cbn [List.length].
      repeat split.
      * lia.
      * rewrite Hfe, Hf2. lia.
      * intros [|j] e' Hj.
        -- cbn in Hj. injection Hj as <-. rewrite Nat.add_0_r. symmetry. exact Hres.
        -- cbn in Hj. specialize (Herrs j e' Hj). rewrite Hs2, Hf2 in Herrs.
           replace (fetched w + Datatypes.S j) with (Datatypes.S (fetched w) + j) by lia.
           exact Herrs.
      * rewrite Hfst, Hs2, Hf2. f_equal. f_equal. lia.
      * intros e' He'. specialize (Hthrow e' He'). lia.
      * rewrite Hlog, Hl2. rewrite <- !app_assoc. cbn [List.app].
        rewrite <- !app_assoc. reflexivity.
      * unfold fetches in *. cbn [filter is_fetch repeat]. f_equal.
        rewrite !filter_app, Hrf, Hfs. reflexivity.
      * unfold sleeps_of in *. cbn [flat_map List.app].
        rewrite flat_map_app, Hrs. cbn [flat_map List.app]. rewrite Hsl.
        cbn [seq map].
        f_equal; [cbn; ring|].
        rewrite <- seq_shift, map_map. apply map_ext. intros j.
        rewrite Nat2Z.inj_succ, Z.pow_succ_r by lia. ring.
      * unfold warnings_of in *. cbn [flat_map List.app].
        rewrite flat_map_app, Hrw. cbn [flat_map List.app]. rewrite Hwa.
        cbn [seq combine map fst snd].
        f_equal.
        -- replace (i + 0 + 1) with (i + 1) by lia.
           replace (delay * 2 ^ Z.of_nat 0)%Z with delay by (cbn; ring). reflexivity.
        -- rewrite combine_seq_shift, map_map. apply map_ext. intros [j e']. cbn [fst snd].
           replace (i + 1 + j + 1) with (i + Datatypes.S j + 1) by lia.
           replace (delay * 2 * 2 ^ Z.of_nat j)%Z with (delay * 2 ^ Z.of_nat (Datatypes.S j))%Z
             by (rewrite Nat2Z.inj_succ, Z.pow_succ_r by lia; ring).
           reflexivity.
      * rewrite Hcl, Hc2. unfold sleeps_of in *. cbn [flat_map List.app].
        rewrite flat_map_app, Hrs. cbn [flat_map List.app].
        unfold total. cbn [fold_right]. fold (total (flat_map
          (fun e0 : Event => match e0 with Sleep d => [d] | _ => [] end) l)). ring.
Qed.
End GenerationJournal.
(** X2. Every generation call ([withRetry] around [callGeminiApi]) sends
    [n] requests with [1 <= n <= 5], all of them the same request to the
    same URL; its result is what the answer to the last of them decodes to,
    every earlier answer having decoded to an error; it fails only when all
    five attempts have failed; and it changes neither the store nor the
    component state. *)
Theorem generation_requests `{Host} (systemPrompt userQuery : string) (isJson : bool)
        (w : World) :
  let run := generate systemPrompt userQuery isJson w in
  exists n : nat,
    1 <= n <= 5
    /\ fetched (snd run) = fetched w + n
    /\ fst run = decode isJson (service w (fetched w + (n - 1)))
    /\ (forall j, j < n - 1 ->
          exists e, decode isJson (service w (fetched w + j)) = Throw e)
    /\ (forall e, fst run = Throw e -> n = 5)
    /\ only_network w (snd run)
    /\ exists l,
         log (snd run) = (log w ++ l)%list
         /\ fetches l
            = repeat (Fetch (GEMINI_API_URL_BASE ++ API_KEY)
                        (request_payload systemPrompt userQuery isJson)) n.
Proof.
  cbn zeta.
  destruct (@generate_loop_journal _ systemPrompt userQuery isJson 5 0 1000 w
              eq_refl ltac:(lia))
    as (errors & l & Hle & Hfe & Herrs & Hfst & Hthrow & Hlog & Hfs & _).
  pose proof (generate_spec systemPrompt userQuery isJson w) as (_ & _ & Hn).
  change (withRetry_loop sleep console_warn
            (callGeminiApi systemPrompt userQuery isJson) 5 5 0 1000 w)
    with (generate systemPrompt userQuery isJson w) in *.
  exists (Datatypes.S (List.length errors)).
  split; [lia|]. split; [exact Hfe|]. split.
  { rewrite Hfst. f_equal. f_equal. lia. }
  split.
  { intros j Hj. destruct (nth_error errors j) as [e|] eqn:He.
    - exists e. apply Herrs, He.
    - apply nth_error_None in He. lia. }
  split; [exact Hthrow|]. split; [exact Hn|].
  exists l. split; assumption.
Qed.

(** X3. The waits of a generation call.  When [k] attempts have failed
    before its last one, the call has warned [k] times, with the attempt
    numbers 1..[k], the delays and the errors of those attempts, and has
    slept 1000, 2000, ..., [1000 * 2^(k-1)] milliseconds between the
    attempts, [1000 * (2^k - 1)] in all; a call that fails has waited 15
    seconds. *)
Theorem generation_backoff `{Host} (systemPrompt userQuery : string) (isJson : bool)
        (w : World) :
  let run := generate systemPrompt userQuery isJson w in
  exists (errors : list exn) (l : list Event),
    let k := List.length errors in
    k <= 4
    /\ fetched (snd run) = fetched w + k + 1
    /\ (forall j e, nth_error errors j = Some e ->
          decode isJson (service w (fetched w + j)) = Throw e)
    /\ log (snd run) = (log w ++ l)%list
    /\ sleeps_of l = backoff k
    /\ warnings_of l
       = map (fun je => (fst je + 1, (1000 * 2 ^ Z.of_nat (fst je))%Z, snd je))
             (combine (seq 0 k) errors)
    /\ clock (snd run) = (clock w + 1000 * (2 ^ Z.of_nat k - 1))%Z
    /\ (forall e, fst run = Throw e ->
          k = 4 /\ clock (snd run) = (clock w + 15000)%Z).
Proof.
  cbn zeta.
  destruct (@generate_loop_journal _ systemPrompt userQuery isJson 5 0 1000 w
              eq_refl ltac:(lia))
    as (errors & l & Hle & Hfe & Herrs & Hfst & Hthrow & Hlog & Hfs & Hsl & Hwa & Hcl).
  change (withRetry_loop sleep console_warn
            (callGeminiApi systemPrompt userQuery isJson) 5 5 0 1000 w)
    with (generate systemPrompt userQuery isJson w) in *.
  assert (Hclock : clock (snd (generate systemPrompt userQuery isJson w))
                   = (clock w + 1000 * (2 ^ Z.of_nat (List.length errors) - 1))%Z).
  { rewrite Hcl, Hsl. fold (backoff (List.length errors)). now rewrite total_backoff. }
  exists errors, l.
  split; [lia|]. split; [rewrite Hfe; lia|]. split; [exact Herrs|].
  split; [exact Hlog|]. split; [exact Hsl|]. split; [exact Hwa|].
  split; [exact Hclock|].
  intros e He. specialize (Hthrow e He).
  assert (Hk : List.length errors = 4) by lia.
  split; [exact Hk|]. rewrite Hclock, Hk. reflexivity.
Qed.
(** X4. When a call of the generation client succeeds.  [callGeminiApi]
    returns a value exactly when its request is answered with a 2xx
    response whose body is JSON that carries a non-empty text in its first
    candidate and, for a structured call, that text, trimmed, is valid
    JSON: the value is then the parsed text (structured call) or the
    trimmed text itself (plain call, which never parses it).  A response
    with another status fails the call with its status and body in the
    message, whatever the body holds. *)
Theorem client_success `{Host} (systemPrompt userQuery : string) (isJson : bool)
        (w : World) (v : value) :
  (fst (callGeminiApi systemPrompt userQuery isJson w) = Ok v
   <->
   exists (r : Response) (result : value) (text : string),
     service w (fetched w) = Resolves r
     /\ ok r = true
     /\ JSON_parse (body r) = Some result
     /\ textual_payload result = Some text
     /\ (if isJson then JSON_parse (trim text) = Some v else v = VStr (trim text)))
  /\
  (forall r : Response,
      service w (fetched w) = Resolves r -> ok r = false ->
      fst (callGeminiApi systemPrompt userQuery isJson w)
      = Throw (Error ("API call failed with status " ++ decimal (status r)
                      ++ ": " ++ body r))).
Proof.
  rewrite callGeminiApi_result. split; [split|].
  - unfold decode. destruct (service w (fetched w)) as [e | r]; [discriminate|].
    destruct (ok r) eqn:Hok; cbn [negb]; [|discriminate].
    destruct (JSON_parse (body r)) as [result|] eqn:Hbody; [|discriminate].
    destruct (get result "candidates") as [candidates|e] eqn:Hget; [|discriminate].
    assert (Hnn : nullish result = false)
      by (destruct result; try reflexivity; discriminate Hget).
    rewrite get_not_nullish in Hget by exact Hnn. injection Hget as <-.
    destruct (truthy (opt_first (opt_get result "candidates"))
              && truthy (candidate_text (opt_first (opt_get result "candidates"))))
      eqn:Ht; [|discriminate].
    apply andb_prop in Ht. destruct Ht as (_ & Ht).
    rewrite response_text_candidate in *.
    destruct (response_text result) as [| |b|n|text|items|props] eqn:Htext;
      try discriminate.
    intros Hv. exists r, result, text.
    assert (Hp : textual_payload result = Some text).
    { unfold textual_payload. rewrite Htext.
      destruct text; [discriminate Ht | reflexivity]. }
    repeat split; try assumption.
    destruct isJson.
    + destruct (JSON_parse (trim text)); [congruence | discriminate].
    + congruence.
  - intros (r & result & text & Hs & Hok & Hbody & Hp & Hv).
    unfold decode. rewrite Hs, Hok, Hbody. cbn [negb].
    destruct (textual_payload_text _ Hp) as (Htext & Hne & Hnn & Hc).
    rewrite get_not_nullish by exact Hnn.
    rewrite response_text_candidate, Hc, Htext. cbn [truthy andb].
    destruct text; [contradiction Hne; reflexivity|]. cbn [String.eqb negb].
    destruct isJson; [now rewrite Hv | now rewrite Hv].
  - intros r Hs Hok. unfold decode. rewrite Hs, Hok. reflexivity.
Qed.

Lemma client_success_witness :
  fst (@callGeminiApi Reference.host course_systemPrompt "q" true object_reply_world)
  = Ok (VObj [])
  /\
  fst (@callGeminiApi Reference.host course_systemPrompt "q" false
         (world_of initial_app empty_store 0 (fun _ => Resolves (mkResponse false 403 "denied"))))
  = Throw (Error "API call failed with status 403: denied").
Proof.
  split.
  - apply (proj2 (proj1 (@client_success Reference.host course_systemPrompt "q" true
                           object_reply_world (VObj [])))).
    exists (mkResponse true 200 (Reference.envelope "{}")),
      (VObj [("candidates",
              VArr [VObj [("content", VObj [("parts", VArr [VObj [("text", VStr "{}")]])])]])]),
      "{}".
    repeat split.
  - apply (proj2 (@client_success Reference.host course_systemPrompt "q" false
                    (world_of initial_app empty_store 0
                       (fun _ => Resolves (mkResponse false 403 "denied")))
                    VNull) (mkResponse false 403 "denied")); reflexivity.
Defined.

(** ** Runs that only add documents *)

Section Extended.
Variable P : string -> Doc -> Prop.

Lemma extended_refl (w : World) : extended P w w.
Proof.
  unfold extended. repeat split; try lia.
  - intros p. exists []. now rewrite app_nil_r.
  - exists []. now rewrite app_nil_r.
Qed.

Lemma extended_trans (w1 w2 w3 : World) :
  extended P w1 w2 -> extended P w2 w3 -> extended P w1 w3.
Proof.
  intros (Ha1 & Hs1 & Hf1 & Hn1 & Hst1 & l1 & Hl1 & Ho1)
         (Ha2 & Hs2 & Hf2 & Hn2 & Hst2 & l2 & Hl2 & Ho2).
  unfold extended. repeat split; try congruence; try lia.
  - intros p. destruct (Hst1 p) as (a1 & He1 & Hb1), (Hst2 p) as (a2 & He2 & Hb2).
    exists (a1 ++ a2)%list. split; [rewrite He2, He1; now rewrite app_assoc|].
    apply Forall_app. split.
    + eapply Forall_impl; [|exact Hb1]. cbn. intros d (Hp & Hd). split; [exact Hp | lia].
    + eapply Forall_impl; [|exact Hb2]. cbn. intros d (Hp & Hd). split; [exact Hp | lia].
  - exists (l1 ++ l2)%list. split; [rewrite Hl2, Hl1; now rewrite app_assoc|].
    rewrite store_ops_app. apply Forall_app. split; assumption.
Qed.

Lemma extends_ret (A : Type) (a : A) : extends P (ret a).
Proof. intros w. apply extended_refl. Qed.

Lemma extends_throw (A : Type) (e : exn) : extends P (@throw World A e).
Proof. intros w. apply extended_refl. Qed.

Lemma extends_lift (A : Type) (r : Result A) : extends P (lift r).
Proof. intros w. apply extended_refl. Qed.

Lemma extends_new_Date : extends P new_Date.
Proof. intros w. apply extended_refl. Qed.

Lemma extends_bind (A B : Type) (m : M World A) (k : A -> M World B) :
  extends P m -> (forall a, extends P (k a)) -> extends P (bind m k).
Proof.
  intros Hm Hk w. unfold bind. specialize (Hm w).
  destruct (m w) as [[a | e] w1]; cbn [snd] in *.
  - eapply extended_trans; [exact Hm | apply Hk].
  - exact Hm.
Qed.

Lemma extends_addDoc (path : string) (data : Doc) :
  P path data -> extends P (addDoc path data).
Proof.
  intros HP w. unfold addDoc, extended, emit. cbn.
  repeat split; try lia.
  - intros p. unfold store_set. destruct (p =? path) eqn:E.
    + apply String.eqb_eq in E. subst p. eexists. split; [reflexivity|].
      constructor; [|constructor]. cbn. split; [exact HP | lia].
    + exists []. split; [now rewrite app_nil_r | constructor].
  - eexists. split; [reflexivity|]. cbn. constructor; [|constructor].
    exists path, (next_id w), data. split; [reflexivity | exact HP].
Qed.

Lemma extends_for_of (A : Type) (body : A -> M World unit) (l : list A) :
  (forall x, extends P (body x)) -> extends P (for_of l body).
Proof.
  intros Hb. induction l as [|x l IH]; cbn [for_of].
  - apply extends_ret.
  - apply extends_bind; [apply Hb | intros _; exact IH].
Qed.

Lemma extends_for_index (A : Type) (body : nat -> A -> M World unit) (l : list A) :
  (forall i x, extends P (body i x)) -> forall i, extends P (for_index l i body).
Proof.
  intros Hb. induction l as [|x l IH]; intros i; cbn [for_index].
  - apply extends_ret.
  - apply extends_bind; [apply Hb | intros _; apply IH].
Qed.

(** Where no document may be added, the collection is as before. *)
Lemma extended_elsewhere (w w' : World) (p : string) :
  extended P w w' -> (forall d, ~ P p d) -> store w' p = store w p.
Proof.
  intros (_ & _ & _ & _ & Hst & _) Hno. destruct (Hst p) as (added & He & Hb).
  destruct added as [|d added]; [now rewrite app_nil_r in He|].
  inversion Hb as [|? ? (Hp & _) _]. exfalso. exact (Hno _ Hp).
Qed.
End Extended.

Lemma extended_weaken (P Q : string -> Doc -> Prop) (w w' : World) :
  (forall p d, P p d -> Q p d) -> extended P w w' -> extended Q w w'.
Proof.
  intros HPQ (Ha & Hs & Hf & Hn & Hst & l & Hl & Ho).
  unfold extended. repeat split; try assumption.
  - intros p. destruct (Hst p) as (added & He & Hb). exists added. split; [exact He|].
    eapply Forall_impl; [|exact Hb]. cbn. intros d (Hp & Hd). split; [auto | exact Hd].
  - exists l. split; [exact Hl|]. eapply Forall_impl; [|exact Ho].
    cbn. intros e (p & id & d & He & Hp). exists p, id, d. auto.
Qed.

Section ExtendedGeneration.
Context {host : Host}.
Variable P : string -> Doc -> Prop.

Lemma extends_generate (systemPrompt userQuery : string) (isJson : bool) :
  extends P (generate systemPrompt userQuery isJson).
Proof.
  intros w.
  destruct (@generate_loop_journal _ systemPrompt userQuery isJson 5 0 1000 w
              eq_refl ltac:(lia))
    as (errors & l & _ & Hfe & _).
  pose proof (generate_spec systemPrompt userQuery isJson w)
    as (_ & _ & Ha & Hst & Hn & Hs & l' & Hl & Hops).
  change (withRetry_loop sleep console_warn
            (callGeminiApi systemPrompt userQuery isJson) 5 5 0 1000 w)
    with (generate systemPrompt userQuery isJson w) in *.
  unfold extended. repeat split; try assumption; try lia.
  - intros p. exists []. rewrite Hst, app_nil_r. split; [reflexivity | constructor].
  - exists l'. split; [exact Hl|]. rewrite Hops. constructor.
Qed.

(** A generation call makes at least one request. *)
Lemma generate_fetches (systemPrompt userQuery : string) (isJson : bool) (w : World) :
  fetched w < fetched (snd (generate systemPrompt userQuery isJson w)).
Proof.
  destruct (@generate_loop_journal _ systemPrompt userQuery isJson 5 0 1000 w
              eq_refl ltac:(lia))
    as (errors & l & _ & Hfe & _).
  change (withRetry_loop sleep console_warn
            (callGeminiApi systemPrompt userQuery isJson) 5 5 0 1000 w)
    with (generate systemPrompt userQuery isJson w) in *.
  lia.
Qed.
End ExtendedGeneration.
Section ExtendedLoops.
Context {host : Host}.
Variable P : string -> Doc -> Prop.

Lemma extends_save_topic (topicsCollection : string) (moduleId : DocId) (j : nat)
      (topic : value) :
  (forall t, P topicsCollection (DTopic t)) ->
  extends P (save_topic topicsCollection moduleId j topic).
Proof.
  intros HP. unfold save_topic.
  apply extends_bind; [apply extends_lift | intros topic_title].
  apply extends_bind; [apply extends_lift | intros content_draft].
  apply extends_bind; [apply extends_new_Date | intros createdAt].
  apply extends_bind; [apply extends_addDoc, HP | intros _; apply extends_ret].
Qed.

Lemma extends_save_module (modulesCollection topicsCollection name : string)
      (newCourseId : DocId) (i : nat) (moduleData : value) :
  (forall m, P modulesCollection (DModule m)) ->
  (forall t, P topicsCollection (DTopic t)) ->
  extends P (save_module modulesCollection topicsCollection name newCourseId i moduleData).
Proof.
  intros HM HT. unfold save_module.
  apply extends_bind; [apply extends_lift | intros title].
  apply extends_bind; [apply extends_lift | intros objective].
  apply extends_bind; [apply extends_new_Date | intros createdAt].
  apply extends_bind; [apply extends_addDoc, HM | intros newModuleId].
  apply extends_bind; [apply extends_generate | intros generatedTopicsData].
  destruct (isArray generatedTopicsData); [|apply extends_ret].
  apply extends_for_index. intros j topic. apply extends_save_topic, HT.
Qed.

Lemma extends_save_mcq (assetsCollection : string) (topicId : DocId) (item : value) :
  (forall a, asset_topicId a = topicId -> asset_type a = mcq ->
             P assetsCollection (DAsset a)) ->
  extends P (save_mcq assetsCollection topicId item).
Proof.
  intros HP. unfold save_mcq.
  apply extends_bind; [apply extends_lift | intros question].
  apply extends_bind; [apply extends_lift | intros options].
  apply extends_bind; [apply extends_lift | intros correct_answer_index].
  apply extends_bind; [apply extends_lift | intros correctIndex].
  apply extends_bind; [apply extends_new_Date | intros createdAt].
  apply extends_bind; [apply extends_addDoc, HP; reflexivity | intros _; apply extends_ret].
Qed.
End ExtendedLoops.

(** ** The ends of the generation handlers *)

Section Settled.
Context {host : Host}.

(** A generation handler past its guard: the loading flag is raised and the
    error cleared, the [try] block runs, and [catch] and [finally] settle
    its outcome; the handler itself never throws. *)
Lemma handler_settles (body : M World unit) (label fallback : string) (w : World) :
  (setState (setIsLoading true) ;;;
   setState (setError None) ;;;
   finally
     (try_catch body
        (fun e =>
           console_error label e ;;;
           setState (setError (Some (message_or e fallback)))))
     (with_app (setIsLoading false))) w
  = (Ok tt, settle label fallback (body (started w))).
Proof.
  unfold finally, try_catch, bind, setState, effect, started, settle, console_error.
  destruct (body _) as [[[]|e] w1]; reflexivity.
Qed.

Lemma handleGenerateCourse_run (w : World) :
  db (app w) = true -> courseName (app w) <> "" -> trim (courseName (app w)) <> "" ->
  handleGenerateCourse w
  = (Ok tt, settle "Course Generation Error:"
              "An unexpected error occurred during course generation."
              (generate_course (app w) (started w))).
Proof.
  intros Hdb Hname Htrim. unfold handleGenerateCourse. rewrite Hdb. cbn [negb orb].
  destruct (String.eqb_spec (courseName (app w)) ""); [contradiction|].
  destruct (String.eqb_spec (trim (courseName (app w))) ""); [contradiction|].
  cbn [orb]. apply handler_settles.
Qed.

Lemma handleGenerateMCQs_run (w : World) (topic : DocId * Topic) :
  db (app w) = true -> activeTopic (app w) = Some topic ->
  handleGenerateMCQs w
  = (Ok tt, settle "MCQ Generation Error:"
              "An unexpected error occurred during MCQ generation."
              (generate_mcqs (app w) topic (started w))).
Proof.
  intros Hdb Ht. unfold handleGenerateMCQs. rewrite Hdb, Ht. apply handler_settles.
Qed.

Lemma handleGenerateLab_run (w : World) (topic : DocId * Topic) :
  db (app w) = true -> activeTopic (app w) = Some topic ->
  handleGenerateLab w
  = (Ok tt, settle "Lab Generation Error:"
              "An unexpected error occurred during lab generation."
              (generate_lab (app w) topic (started w))).
Proof.
  intros Hdb Ht. unfold handleGenerateLab. rewrite Hdb, Ht. apply handler_settles.
Qed.
End Settled.
Section CourseOutcome.
Context {host : Host}.

(** Every way the [try] block of [handleGenerateCourse] can go: it stops
    before the first store operation, or it replaces the courses of the
    caller by the new one and then only adds module and topic documents. *)
Lemma generate_course_outcome (st : AppState) (w : World) :
  let r := generate_course st w in
  let g := fst (generation (service w) true (fetched w)) in
  app (snd r) = app w /\ service (snd r) = service w /\ fetched w < fetched (snd r)
  /\ ((exists e,
          fst r = Throw e
          /\ store (snd r) = store w /\ next_id (snd r) = next_id w
          /\ store_ops (log (snd r)) = store_ops (log w)
          /\ (exists l, log (snd r) = (log w ++ l)%list /\ store_ops l = [])
          /\ (g = Throw e
              \/ (exists v, g = Ok v /\ (isArray v = false \/ v = VArr [])
                            /\ e = Error "AI failed to generate module structure.")
              \/ (exists mods, g = Ok (VArr mods) /\ mods <> []
                               /\ getCollectionPath (userId st) "courses" false = None)))
      \/
      (exists (u : string) (mods : list value) (createdAt : Z) (ops : list Event),
          userId st = Some u /\ u <> "" /\ g = Ok (VArr mods) /\ mods <> []
          /\ store (snd r) (private_path u "courses")
             = [(next_id w, DCourse (mkCourse (courseName st) "draft" createdAt (Some u)))]
          /\ (forall p, p <> private_path u "courses" ->
                exists added,
                  store (snd r) p = (store w p ++ added)%list
                  /\ Forall (fun d => next_id w < fst d) added
                  /\ (p <> private_path u "modules" -> p <> private_path u "topics" ->
                      added = []))
          /\ store_ops (log (snd r))
             = (store_ops (log w)
                ++ GetDocs (private_path u "courses")
                :: map (DeleteDoc (private_path u "courses"))
                       (map fst (store w (private_path u "courses")))
                ++ AddDoc (private_path u "courses") (next_id w)
                     (DCourse (mkCourse (courseName st) "draft" createdAt (Some u)))
                :: ops)%list
          /\ Forall (adds_to [private_path u "modules"; private_path u "topics"]) ops)).
Proof.
  intros r g.
  assert (Hrun : r = generate_course st w) by reflexivity. clearbody r.
  unfold generate_course in Hrun.
  set (uq := "Generate a course structure for a " ++ courseName st ++ " course.") in Hrun.
  unfold bind at 1 in Hrun.
  pose proof (generate_spec course_systemPrompt uq true w) as (Hr & Hf & Hnet).
  pose proof (generate_fetches course_systemPrompt uq true w) as Hlt.
  destruct (generate course_systemPrompt uq true w) as [res w1].
  cbn [fst snd] in Hr, Hf, Hnet, Hlt.
  destruct Hnet as (Ha1 & Hs1 & Hn1 & Hv1 & l1 & Hl1 & Ho1).
  assert (Hops1 : store_ops (log w1) = store_ops (log w))
    by (rewrite Hl1, store_ops_app, Ho1; apply app_nil_r).
  fold g in Hr. rewrite <- Hr. clear Hr g.
  destruct res as [v | e].
  2: { subst r. cbn [fst snd]. repeat (split; [assumption|]). left. exists e.
       repeat (split; [assumption || reflexivity || (exists l1; split; assumption)|]). left. reflexivity. }
  destruct (negb (isArray v) || (List.length (elements v) =? 0)%nat) eqn:Hbad.
  { subst r. cbn [fst snd throw]. repeat (split; [assumption|]). left.
    exists (Error "AI failed to generate module structure.").
    repeat (split; [assumption || reflexivity || (exists l1; split; assumption)|]). right. left. exists v.
    split; [reflexivity|]. split; [|reflexivity].
    destruct v as [| | | | |items|]; cbn in Hbad |- *; auto.
    destruct items; [auto | discriminate Hbad]. }
  destruct v as [| | | | |mods|]; try discriminate Hbad.
  cbn [isArray negb orb elements] in Hbad.
  assert (Hmods : mods <> []) by (intros ->; discriminate Hbad).
  cbn [elements] in Hrun.
  destruct (getCollectionPath (userId st) "courses" false) as [cpath0|] eqn:Hc.
  2: { unfold collection at 1, bind at 1 in Hrun. subst r. cbn [fst snd throw].
       repeat (split; [assumption|]). left. eexists.
       repeat (split; [assumption || reflexivity || (exists l1; split; assumption)|]). right. right. exists mods. auto. }
  destruct (userId st) as [u|] eqn:Hu; [|discriminate Hc].
  assert (Hne : u <> "").
  { intros ->. discriminate Hc. }
  rewrite getCollectionPath_private in Hc by exact Hne. injection Hc as <-.
  rewrite !getCollectionPath_private in Hrun by exact Hne.
  set (cpath := private_path u "courses") in *.
  set (mpath := private_path u "modules") in *.
  set (tpath := private_path u "topics") in *.
  assert (Hcm : cpath <> mpath)
    by (intros E; apply private_path_inj in E; discriminate E).
  assert (Hct : cpath <> tpath)
    by (intros E; apply private_path_inj in E; discriminate E).
  unfold collection, bind at 1 2 3 4, ret in Hrun.
  unfold bind at 1 in Hrun. unfold getDocs at 1 in Hrun.
  destruct (delete_loop (fun doc : DocId * Doc => fst doc) cpath (store w1 cpath)
              (emit (GetDocs cpath) w1))
    as (w3 & Hrun3 & Hs3 & Hn3 & Hst3 & Ho3 & Hl3).
  destruct Hs3 as (Ha3 & Hv3 & Hf3 & Hc3).
  cbn [app store next_id service fetched clock log emit] in Ha3, Hv3, Hf3, Hc3, Hn3, Hst3, Ho3, Hl3.
  rewrite remove_docs_all in Hst3.
  unfold bind at 1 in Hrun. rewrite Hrun3 in Hrun.
  unfold bind at 1 in Hrun. unfold new_Date at 1 in Hrun.
  unfold bind at 1 in Hrun. unfold addDoc at 1 in Hrun.
  set (c := mkCourse (courseName st) "draft" (clock w3) (Some u)) in *.
  set (w4 := emit (AddDoc cpath (next_id w3) (DCourse c))
               (mkWorld (app w3)
                  (store_set (store w3) cpath ((store w3 cpath ++ [(next_id w3, DCourse c)])%list))
                  (Datatypes.S (next_id w3)) (service w3) (fetched w3) (clock w3) (log w3)))
    in *.
  assert (Hloop : extends (fun p (_ : Doc) => In p [mpath; tpath])
                    (for_index mods 0 (save_module mpath tpath (courseName st) (next_id w3)))).
  { apply extends_for_index. intros i md. apply extends_save_module; intros; cbn; auto. }
  specialize (Hloop w4). rewrite <- Hrun in Hloop. clear Hrun.
  destruct Hloop as (Ha5 & Hv5 & Hf5 & Hn5 & Hst5 & l5 & Hl5 & Ho5).
  assert (Hid : next_id w3 = next_id w) by congruence.
  split; [rewrite Ha5; unfold w4; cbn [app emit]; congruence|].
  split; [rewrite Hv5; unfold w4; cbn [service emit]; congruence|].
  split; [unfold w4 in Hf5; cbn [fetched emit] in Hf5; lia|].
  right. exists u, mods, (clock w3), (store_ops l5). fold cpath mpath tpath c.
  split; [reflexivity|]. split; [exact Hne|]. split; [reflexivity|]. split; [exact Hmods|].
  split.
  { destruct (Hst5 cpath) as (added & He & Hb).
    destruct added as [|d added].
    - rewrite He, app_nil_r. unfold w4. cbn [store emit].
      rewrite store_set_same, Hst3, Hid. reflexivity.
    - inversion Hb as [|? ? (Hin & _) _]. cbn in Hin.
      destruct Hin as [E | [E | []]]; [contradiction Hcm | contradiction Hct]; now symmetry. }
  split.
  { intros p Hp. destruct (Hst5 p) as (added & He & Hb). exists added. split; [|split].
    - rewrite He. unfold w4. cbn [store emit].
      rewrite store_set_other by exact Hp. rewrite (Ho3 p Hp), Hs1. reflexivity.
    - eapply Forall_impl; [|exact Hb]. cbn. intros d (_ & Hd).
      unfold w4 in Hd. cbn [next_id emit] in Hd. lia.
    - intros Hpm Hpt. destruct added as [|d added]; [reflexivity|].
      inversion Hb as [|? ? (Hin & _) _]. cbn in Hin.
      destruct Hin as [E | [E | []]]; [contradiction Hpm | contradiction Hpt]; now symmetry. }
  split.
  { rewrite Hl5. unfold w4. cbn [log emit]. rewrite Hl3, Hl1, Hs1, Hid.
    rewrite !store_ops_app, Ho1, app_nil_r.
    rewrite (store_ops_deletes cpath (fun doc : DocId * Doc => fst doc)).
    cbn [store_ops filter is_store_op List.app].
    rewrite <- !app_assoc. reflexivity. }
  eapply Forall_impl; [|exact Ho5]. cbn. intros e (p & id & d & He & Hin).
  exists p, id, d. split; [exact He | exact Hin].
Qed.
End CourseOutcome.
Section AssetOutcomes.
Context {host : Host}.

(** Every way the [try] block of [handleGenerateMCQs] can go: it stops
    before the first store operation, or it deletes the documents listed in
    the [mcqs] cell and then only adds MCQ assets of the topic. *)
Lemma generate_mcqs_outcome (st : AppState) (topic : DocId * Topic) (w : World) :
  let r := generate_mcqs st topic w in
  let g := fst (generation (service w) true (fetched w)) in
  service (snd r) = service w /\ fetched w < fetched (snd r)
  /\ ((exists e,
          fst r = Throw e /\ app (snd r) = app w
          /\ store (snd r) = store w /\ next_id (snd r) = next_id w
          /\ store_ops (log (snd r)) = store_ops (log w)
          /\ (exists l, log (snd r) = (log w ++ l)%list /\ store_ops l = [])
          /\ (g = Throw e
              \/ (exists v, g = Ok v /\ (isArray v = false \/ v = VArr [])
                            /\ e = Error "AI failed to generate MCQs.")
              \/ (exists items, g = Ok (VArr items) /\ items <> []
                                /\ getCollectionPath (userId st) "assets" false = None)))
      \/
      (exists (u : string) (items : list value) (added : Collection) (ops : list Event),
          userId st = Some u /\ u <> "" /\ g = Ok (VArr items) /\ items <> []
          /\ store (snd r) (private_path u "assets")
             = (remove_docs (map fst (mcqs st)) (store w (private_path u "assets"))
                ++ added)%list
          /\ Forall (fun d => (exists a, snd d = DAsset a /\ asset_topicId a = fst topic
                                         /\ asset_type a = mcq)
                              /\ next_id w <= fst d) added
          /\ (forall p, p <> private_path u "assets" -> store (snd r) p = store w p)
          /\ store_ops (log (snd r))
             = (store_ops (log w)
                ++ map (DeleteDoc (private_path u "assets")) (map fst (mcqs st))
                ++ ops)%list
          /\ Forall (adds_to [private_path u "assets"]) ops
          /\ ((fst r = Ok tt /\ app (snd r) = setSelectedTab mcqs_tab (app w))
              \/ (exists e, fst r = Throw e /\ app (snd r) = app w)))).
Proof.
  intros r g.
  assert (Hrun : r = generate_mcqs st topic w) by reflexivity. clearbody r.
  unfold generate_mcqs in Hrun. unfold bind at 1 in Hrun.
  pose proof (generate_spec mcq_systemPrompt (asset_userQuery (snd topic)) true w)
    as (Hr & Hf & Hnet).
  pose proof (generate_fetches mcq_systemPrompt (asset_userQuery (snd topic)) true w) as Hlt.
  destruct (generate mcq_systemPrompt (asset_userQuery (snd topic)) true w) as [res w1].
  cbn [fst snd] in Hr, Hf, Hnet, Hlt.
  destruct Hnet as (Ha1 & Hs1 & Hn1 & Hv1 & l1 & Hl1 & Ho1).
  assert (Hops1 : store_ops (log w1) = store_ops (log w))
    by (rewrite Hl1, store_ops_app, Ho1; apply app_nil_r).
  fold g in Hr. rewrite <- Hr. clear Hr g.
  destruct res as [v | e].
  2: { subst r. cbn [fst snd]. repeat (split; [assumption|]). left. exists e.
       repeat (split; [assumption || reflexivity || (exists l1; split; assumption)|]). left. reflexivity. }
  destruct (negb (isArray v) || (List.length (elements v) =? 0)%nat) eqn:Hbad.
  { subst r. cbn [fst snd throw]. repeat (split; [assumption|]). left.
    exists (Error "AI failed to generate MCQs.").
    repeat (split; [assumption || reflexivity || (exists l1; split; assumption)|]). right. left. exists v.
    split; [reflexivity|]. split; [|reflexivity].
    destruct v as [| | | | |items|]; cbn in Hbad |- *; auto.
    destruct items; [auto | discriminate Hbad]. }
  destruct v as [| | | | |items|]; try discriminate Hbad.
  cbn [isArray negb orb elements] in Hbad.
  assert (Hitems : items <> []) by (intros ->; discriminate Hbad).
  cbn [elements] in Hrun.
  destruct (getCollectionPath (userId st) "assets" false) as [path0|] eqn:Hc.
  2: { unfold collection at 1, bind at 1 in Hrun. subst r. cbn [fst snd throw].
       repeat (split; [assumption|]). left. eexists.
       repeat (split; [assumption || reflexivity || (exists l1; split; assumption)|]). right. right. exists items. auto. }
  destruct (userId st) as [u|] eqn:Hu; [|discriminate Hc].
  assert (Hne : u <> "").
  { intros ->. discriminate Hc. }
  rewrite getCollectionPath_private in Hc by exact Hne. injection Hc as <-.
  set (path := private_path u "assets") in *.
  unfold collection, bind at 1, ret at 1 in Hrun.
  destruct (delete_loop (fun x : DocId => x) path (map fst (mcqs st)) w1)
    as (w3 & Hrun3 & Hs3 & Hn3 & Hst3 & Ho3 & Hl3).
  cbv beta in Hrun3, Hl3. rewrite map_id in Hst3.
  destruct Hs3 as (Ha3 & Hv3 & Hf3 & Hc3).
  unfold bind at 1 in Hrun. rewrite Hrun3 in Hrun.
  assert (Hloop : extends (fun p d => p = path
                                      /\ exists a, d = DAsset a
                                                   /\ asset_topicId a = fst topic
                                                   /\ asset_type a = mcq)
                    (for_of items (save_mcq path (fst topic)))).
  { apply extends_for_of. intros item. apply extends_save_mcq.
    intros a Ht Hty. split; [reflexivity|]. exists a. auto. }
  specialize (Hloop w3).
  unfold bind at 1 in Hrun.
  destruct (for_of items (save_mcq path (fst topic)) w3) as [r4 w4].
  cbn [snd] in Hloop.
  destruct Hloop as (Ha4 & Hv4 & Hf4 & Hn4 & Hst4 & l4 & Hl4 & Ho4).
  assert (Hcommon :
            store w4 path
            = (remove_docs (map fst (mcqs st)) (store w path)
               ++ skipn (List.length (store w3 path)) (store w4 path))%list
            /\ Forall (fun d => (exists a, snd d = DAsset a /\ asset_topicId a = fst topic
                                           /\ asset_type a = mcq)
                                /\ next_id w <= fst d)
                      (skipn (List.length (store w3 path)) (store w4 path))
            /\ (forall p, p <> path -> store w4 p = store w p)
            /\ store_ops (log w4)
               = (store_ops (log w) ++ map (DeleteDoc path) (map fst (mcqs st))
                  ++ store_ops l4)%list
            /\ Forall (adds_to [path]) (store_ops l4)).
  { destruct (Hst4 path) as (added & He & Hb).
    assert (Hskip : skipn (List.length (store w3 path)) (store w4 path) = added).
    { rewrite He, skipn_app, skipn_all, Nat.sub_diag. reflexivity. }
    rewrite Hskip. split; [rewrite He, Hst3, Hs1; reflexivity|].
    split.
    { eapply Forall_impl; [|exact Hb]. cbn. intros d ((_ & a & Hd & Ht & Hty) & Hid).
      split; [exists a; auto | lia]. }
    split.
    { intros p Hp. destruct (Hst4 p) as (added' & He' & Hb').
      destruct added' as [|d added'].
      - rewrite He', app_nil_r, (Ho3 p Hp), Hs1. reflexivity.
      - inversion Hb' as [|? ? ((E & _) & _) _]. contradiction. }
    split.
    { rewrite Hl4, Hl3, !store_ops_app, Hops1.
      rewrite (store_ops_deletes path (fun x : DocId => x)), map_id.
      rewrite <- app_assoc. reflexivity. }
    eapply Forall_impl; [|exact Ho4]. cbn. intros e (p & id & d & He' & Hp & _).
    exists p, id, d. split; [exact He'|]. left. now symmetry. }
  destruct Hcommon as (C1 & C2 & C3 & C4 & C5).
  destruct r4 as [[] | e]; subst r; cbn [fst snd setState effect with_app service fetched
                                            store log app].
  - split; [congruence|]. split; [lia|]. right.
    exists u, items, (skipn (List.length (store w3 path)) (store w4 path)), (store_ops l4).
    fold path. repeat (split; [assumption || reflexivity || (exists l1; split; assumption)|]).
    left. split; [reflexivity|]. congruence.
  - split; [congruence|]. split; [lia|]. right.
    exists u, items, (skipn (List.length (store w3 path)) (store w4 path)), (store_ops l4).
    fold path. repeat (split; [assumption || reflexivity || (exists l1; split; assumption)|]).
    right. exists e. split; [reflexivity|]. congruence.
Qed.

(** Every way the [try] block of [handleGenerateLab] can go: it stops
    before the first store operation, or it deletes the document of the
    [lab] cell, if any, and adds the new lab asset. *)
Lemma generate_lab_outcome (st : AppState) (topic : DocId * Topic) (w : World) :
  let r := generate_lab st topic w in
  let g := fst (generation (service w) true (fetched w)) in
  let deleted := match lab_ st with Some l => [fst l] | None => [] end in
  service (snd r) = service w /\ fetched w < fetched (snd r)
  /\ ((exists e,
          fst r = Throw e /\ app (snd r) = app w
          /\ store (snd r) = store w /\ next_id (snd r) = next_id w
          /\ store_ops (log (snd r)) = store_ops (log w)
          /\ (exists l, log (snd r) = (log w ++ l)%list /\ store_ops l = [])
          /\ (g = Throw e
              \/ (exists data, g = Ok data
                               /\ truthy (opt_get data "problemStatement") = false
                               /\ e = Error "AI failed to generate lab instructions.")
              \/ (exists data, g = Ok data
                               /\ truthy (opt_get data "problemStatement") = true
                               /\ getCollectionPath (userId st) "assets" false = None)))
      \/
      (exists (u : string) (data : value) (createdAt : Z),
          userId st = Some u /\ u <> "" /\ g = Ok data
          /\ truthy (opt_get data "problemStatement") = true
          /\ fst r = Ok tt /\ app (snd r) = setSelectedTab lab_tab (app w)
          /\ store (snd r) (private_path u "assets")
             = (remove_docs deleted (store w (private_path u "assets"))
                ++ [(next_id w, DAsset (lab_asset topic createdAt data))])%list
          /\ (forall p, p <> private_path u "assets" -> store (snd r) p = store w p)
          /\ store_ops (log (snd r))
             = (store_ops (log w)
                ++ map (DeleteDoc (private_path u "assets")) deleted
                ++ [AddDoc (private_path u "assets") (next_id w)
                      (DAsset (lab_asset topic createdAt data))])%list)).
Proof.
  intros r g deleted.
  assert (Hrun : r = generate_lab st topic w) by reflexivity. clearbody r.
  unfold generate_lab in Hrun. unfold bind at 1 in Hrun.
  pose proof (generate_spec lab_systemPrompt (asset_userQuery (snd topic)) true w)
    as (Hr & Hf & Hnet).
  pose proof (generate_fetches lab_systemPrompt (asset_userQuery (snd topic)) true w) as Hlt.
  destruct (generate lab_systemPrompt (asset_userQuery (snd topic)) true w) as [res w1].
  cbn [fst snd] in Hr, Hf, Hnet, Hlt.
  destruct Hnet as (Ha1 & Hs1 & Hn1 & Hv1 & l1 & Hl1 & Ho1).
  assert (Hops1 : store_ops (log w1) = store_ops (log w))
    by (rewrite Hl1, store_ops_app, Ho1; apply app_nil_r).
  fold g in Hr. rewrite <- Hr. clear Hr g.
  destruct res as [data | e].
  2: { subst r. cbn [fst snd]. repeat (split; [assumption|]). left. exists e.
       repeat (split; [assumption || reflexivity || (exists l1; split; assumption)|]). left. reflexivity. }
  assert (Hfalsy : truthy data = false -> truthy (opt_get data "problemStatement") = false)
    by (destruct data; cbn; intros; try reflexivity; discriminate).
  destruct (negb (truthy data) || negb (truthy (opt_get data "problemStatement")))
    eqn:Hcheck.
  { subst r. cbn [fst snd throw]. repeat (split; [assumption|]). left.
    exists (Error "AI failed to generate lab instructions.").
    repeat (split; [assumption || reflexivity || (exists l1; split; assumption)|]). right. left. exists data.
    split; [reflexivity|]. split; [|reflexivity].
    apply orb_true_iff in Hcheck as [Hd | Hp].
    - apply Hfalsy. now apply negb_true_iff.
    - now apply negb_true_iff. }
  apply orb_false_iff in Hcheck as [_ Hps]. apply negb_false_iff in Hps.
  destruct (getCollectionPath (userId st) "assets" false) as [path0|] eqn:Hc.
  2: { unfold collection at 1, bind at 1 in Hrun. subst r. cbn [fst snd throw].
       repeat (split; [assumption|]). left. eexists.
       repeat (split; [assumption || reflexivity || (exists l1; split; assumption)|]). right. right. exists data. auto. }
  destruct (userId st) as [u|] eqn:Hu; [|discriminate Hc].
  assert (Hne : u <> "").
  { intros ->. discriminate Hc. }
  rewrite getCollectionPath_private in Hc by exact Hne. injection Hc as <-.
  set (path := private_path u "assets") in *.
  assert (Hpath : path = private_path u "assets") by reflexivity. clearbody path.
  unfold lab_asset.
  destruct (lab_ st) as [l|]; subst deleted; cbn in Hrun; subst r;
    cbn [fst snd app service fetched store log next_id map List.app
         setState effect with_app emit];
    (split; [congruence|]); (split; [lia|]);
    right; exists u, data, (clock w1); rewrite <- ?Hpath;
    repeat (split; [assumption || reflexivity || congruence|]).
  - rewrite !store_set_same, Hs1, Hn1. split; [reflexivity|]. split.
    + intros p Hp. rewrite !store_set_other by exact Hp. rewrite ?Hs1. reflexivity.
    + rewrite Hl1, ?Hn1. rewrite <- !app_assoc, !store_ops_app, Ho1. reflexivity.
  - rewrite !store_set_same, Hs1, Hn1. split; [reflexivity|]. split.
    + intros p Hp. rewrite !store_set_other by exact Hp. rewrite ?Hs1. reflexivity.
    + rewrite Hl1, ?Hn1. rewrite <- !app_assoc, !store_ops_app, Ho1. reflexivity.
Qed.
End AssetOutcomes.

(** ** Guards and footprints of the generation handlers *)

Section SettledFacts.
Context {host : Host}.

Lemma settle_world (label fallback : string) (r : Result unit * World) :
  store (settle label fallback r) = store (snd r)
  /\ next_id (settle label fallback r) = next_id (snd r)
  /\ service (settle label fallback r) = service (snd r)
  /\ fetched (settle label fallback r) = fetched (snd r)
  /\ store_ops (log (settle label fallback r)) = store_ops (log (snd r))
  /\ isLoading (app (settle label fallback r)) = false.
Proof.
  destruct r as [[[]|e] w1]; cbn; repeat split.
  rewrite store_ops_app. cbn. apply app_nil_r.
Qed.

Lemma settle_app (label fallback : string) (r : Result unit * World) :
  app (settle label fallback r)
  = match fst r with
    | Ok _ => setIsLoading false (app (snd r))
    | Throw e => setIsLoading false (setError (Some (message_or e fallback)) (app (snd r)))
    end.
Proof. destruct r as [[[]|e] w1]; reflexivity. Qed.

Lemma message_or_not_empty (e : exn) (fallback : string) :
  fallback <> "" -> message_or e fallback <> "".
Proof.
  intros Hf. unfold message_or. destruct (String.eqb_spec (message e) ""); assumption.
Qed.
End SettledFacts.

(** ** generate-assessment, run by run *)

Lemma saved_docs_assets (topicId : DocId) (createdAt : Z) (items : list value) `{Host} :
  forall next : DocId,
    saved_docs topicId createdAt next items
    = map (fun d => (fst d, DAsset (snd d)))
          (combine (seq next (List.length (persisted_items items)))
                   (map (fun s => mcq_asset topicId createdAt (fst s) (snd s))
                        (persisted_items items)))
    /\ assets_where (saved_docs topicId createdAt next items) topicId mcq
       = combine (seq next (List.length (persisted_items items)))
                 (map (fun s => mcq_asset topicId createdAt (fst s) (snd s))
                      (persisted_items items)).
Proof.
  unfold saved_docs. induction (persisted_items items) as [|s l IH]; intros next.
  - split; reflexivity.
  - destruct (IH (Datatypes.S next)) as (IH1 & IH2).
    cbn [List.length seq map combine assets_where mcq_asset asset_topicId asset_type
         AssetType_eqb fst snd].
    rewrite Nat.eqb_refl. cbn [andb]. split; f_equal; assumption.
Qed.

Lemma saved_items `{Host} (topicId : DocId) (createdAt : Z) (items : list value) :
  Forall2 (mcq_saved topicId)
          (firstn (List.length (persisted_items items)) items)
          (map (fun s => mcq_asset topicId createdAt (fst s) (snd s))
               (persisted_items items)).
Proof.
  rewrite <- persisted_items_prefix.
  pose proof (persisted_items_index items) as Hall.
  induction Hall as [|s l Hs _ IH]; cbn [map]; constructor; [|exact IH].
  apply correctIndex_for_some in Hs as (Hn & n & Hc & Hz).
  split; [exact Hn|]. exists n, createdAt. split; [exact Hc|]. now rewrite Hz.
Qed.

Lemma Forall2_combine_seq (A B : Type) (R : A -> B -> Prop)
      (Q : A -> nat * B -> Prop) (l : list A) (l' : list B) :
  Forall2 R l l' -> (forall x y i, R x y -> Q x (i, y)) ->
  forall next : nat, Forall2 Q l (combine (seq next (List.length l')) l').
Proof.
  intros Hall HQ. induction Hall as [|x y l l' Hxy _ IH]; intros next; cbn.
  - constructor.
  - constructor; [apply HQ, Hxy | apply IH].
Qed.

Lemma Forall2_single (A B : Type) (R : A -> B -> Prop) (x : A) (l : list B) :
  Forall2 R [x] l -> exists y, l = [y] /\ R x y.
Proof.
  intros Hall. inversion Hall as [|x' y l0 l' Hxy Hrest]; subst.
  inversion Hrest; subst. exists y. split; [reflexivity | exact Hxy].
Defined.

Section AssessmentRuns.
Context {host : Host}.

(** A run of [handleGenerateMCQs] whose generation call returns a non-empty
    array: the documents listed in the local [mcqs] are deleted, then the
    assets of the items are inserted as far as the loop gets; the run ends
    without error exactly when it gets past every item. *)
Lemma handleGenerateMCQs_items (w : World) (topic : DocId * Topic) (u : string)
      (items : list value) :
  db (app w) = true ->
  activeTopic (app w) = Some topic ->
  userId (app w) = Some u -> u <> "" ->
  fst (generation (service w) true (fetched w)) = Ok (VArr items) ->
  items <> [] ->
  let path := private_path u "assets" in
  let w' := snd (handleGenerateMCQs w) in
  exists createdAt,
    store w' path
    = (remove_docs (map fst (mcqs (app w))) (store w path)
       ++ saved_docs (fst topic) createdAt (next_id w) items)%list
    /\ (forall p, p <> path -> store w' p = store w p)
    /\ service w' = service w
    /\ fetched w' = snd (generation (service w) true (fetched w))
    /\ same_selection (app w) (app w')
    /\ (error (app w') = None
        <-> List.length (persisted_items items) = List.length items)
    /\ store_ops (log w')
       = (store_ops (log w)
          ++ map (DeleteDoc path) (map fst (mcqs (app w)))
          ++ map (fun d => AddDoc path (fst d) (snd d))
                 (saved_docs (fst topic) createdAt (next_id w) items))%list.
Proof.
  intros Hdb Htopic Hu Hne Hgen Hitems path w'.
  unfold w'. rewrite (handleGenerateMCQs_run w Hdb Htopic). cbn [snd].
  destruct (@generate_mcqs_items _ (app w) topic u items (started w) Hu Hne Hgen Hitems)
    as (w1 & r & createdAt & Hrun & Hr & Ha & Hst & Ho & Hn & Hv & Hf & Hl).
  fold path in Hst, Ho, Hl. rewrite Hrun.
  pose proof (settle_world "MCQ Generation Error:"
                "An unexpected error occurred during MCQ generation." (r, w1))
    as (Sst & _ & Sv & Sf & Sl & _).
  pose proof (settle_app "MCQ Generation Error:"
                "An unexpected error occurred during MCQ generation." (r, w1)) as Sa.
  cbn [fst snd] in Sst, Sv, Sf, Sl, Sa.
  exists createdAt.
  split; [rewrite Sst; exact Hst|].
  split; [intros p Hp; rewrite Sst; exact (Ho p Hp)|].
  split; [rewrite Sv; exact Hv|].
  split; [rewrite Sf; exact Hf|].
  split; [rewrite Sa, Ha; destruct r as [[]|e]; repeat split|].
  split; [|rewrite Sl; exact Hl].
  rewrite Sa, Ha, <- Hr. destruct r as [[]|e]; cbn; split; try reflexivity; discriminate.
Qed.

(** One regeneration whose generation call returns a non-empty array:
    afterwards the MCQ assets of the topic are those of the items the run
    got past. *)
Lemma regenerate_mcqs_spec (w : World) (topic : DocId * Topic) (u : string)
      (items : list value) :
  isAuthReady (app w) = true -> db (app w) = true ->
  activeTopic (app w) = Some topic ->
  userId (app w) = Some u -> u <> "" ->
  fst (generation (service w) true (fetched w)) = Ok (VArr items) ->
  items <> [] ->
  let path := private_path u "assets" in
  let w' := regenerate_mcqs w in
  let m := List.length (persisted_items items) in
  Forall2 (mcq_saved (fst topic)) (firstn m items)
          (map snd (assets_where (store w' path) (fst topic) mcq))
  /\ (error (app w') = None <-> m = List.length items)
  /\ (forall k item, nth_error items k = Some item -> nullish item = true -> m <= k)
  /\ same_selection (app w) (app w')
  /\ service w' = service w
  /\ fetched w' = snd (generation (service w) true (fetched w))
  /\ store_ops (log w')
     = (store_ops (log w)
        ++ map (DeleteDoc path)
               (map fst (assets_where (store w path) (fst topic) mcq))
        ++ map (fun d => AddDoc path (fst d) (DAsset (snd d)))
               (assets_where (store w' path) (fst topic) mcq))%list.
Proof.
  intros Hauth Hdb Htopic Hu Hne Hgen Hitems path w' m.
  pose proof (notify_assets_spec w Hauth Hdb Htopic Hu Hne)
    as (Hm & _ & Hsel & Hst & Hn & Hv & Hf & Hl).
  fold path in Hm.
  destruct Hsel as (Sdb & Su & Sauth & Stopic & Sname).
  assert (Hgen' : fst (generation (service (notify_assets w)) true
                                   (fetched (notify_assets w))) = Ok (VArr items))
    by (rewrite Hv, Hf; exact Hgen).
  rewrite <- Sdb in Hdb. rewrite <- Stopic in Htopic. rewrite <- Su in Hu.
  destruct (handleGenerateMCQs_items (notify_assets w) Hdb Htopic Hu Hne Hgen' Hitems)
    as (createdAt & Hst2 & _ & Hv2 & Hf2 & Hsel2 & Herr & Hl2).
  fold path in Hst2, Hl2. fold (regenerate_mcqs w) in Hst2, Hv2, Hf2, Hsel2, Herr, Hl2.
  fold w' in Hst2, Hv2, Hf2, Hsel2, Herr, Hl2.
  destruct (saved_docs_assets (fst topic) createdAt items (next_id w)) as (Hdocs & Hassets).
  assert (Hfinal : assets_where (store w' path) (fst topic) mcq
                   = combine (seq (next_id w) m)
                       (map (fun s => mcq_asset (fst topic) createdAt (fst s) (snd s))
                            (persisted_items items))).
  { rewrite Hst2, assets_where_app, Hm, Hst, Hn.
    rewrite assets_where_removed, Hassets; [reflexivity|].
    intros id a Hin. apply (in_map fst) in Hin. exact Hin. }
  split.
  { rewrite Hfinal. unfold m.
    rewrite <- (length_map (fun s => mcq_asset (fst topic) createdAt (fst s) (snd s))
                  (persisted_items items)) at 2.
    rewrite map_snd_combine_seq. apply saved_items. }
  split; [exact Herr|].
  split.
  { intros k item Hk Hnull. apply (persisted_items_stop items k Hk).
    apply correctIndex_for_none. now left. }
  split.
  { destruct Hsel2 as (? & ? & ? & ? & ?). repeat split; congruence. }
  split; [congruence|].
  split; [rewrite Hf2, Hv, Hf; reflexivity|].
  rewrite Hl2, Hl, Hm, Hn, Hfinal, Hdocs. do 2 f_equal.
  rewrite map_map. reflexivity.
Qed.
End AssessmentRuns.

(** C5 (amended). Two generate-assessment runs in sequence on a topic, each
    with a non-empty array of items and with the [mcqs] cell reflecting the
    store: after each run the MCQ assets of the topic are the records of
    the first items of that run, in order, as far as the run got: all its
    items when it ended without error, and none from a [null] item on;
    each run first deletes every MCQ asset the topic had before it, the
    second one those the first one left, and then inserts its own. *)
Theorem assessment_regeneration `{Host} (w : World) (topic : DocId * Topic) (u : string)
        (items1 items2 : list value) :
  isAuthReady (app w) = true -> db (app w) = true ->
  activeTopic (app w) = Some topic ->
  userId (app w) = Some u -> u <> "" ->
  generations (service w) (fetched w) 2 = [Ok (VArr items1); Ok (VArr items2)] ->
  items1 <> [] -> items2 <> [] ->
  let path := private_path u "assets" in
  let w1 := regenerate_mcqs w in
  let w2 := regenerate_mcqs w1 in
  let assets := fun w : World => assets_where (store w path) (fst topic) mcq in
  exists m1 m2 : nat,
    m1 <= List.length items1 /\ m2 <= List.length items2
    /\ Forall2 (mcq_saved (fst topic)) (firstn m1 items1) (map snd (assets w1))
    /\ Forall2 (mcq_saved (fst topic)) (firstn m2 items2) (map snd (assets w2))
    /\ (error (app w1) = None -> m1 = List.length items1)
    /\ (error (app w2) = None -> m2 = List.length items2)
    /\ (forall k item, nth_error items1 k = Some item -> nullish item = true -> m1 <= k)
    /\ (forall k item, nth_error items2 k = Some item -> nullish item = true -> m2 <= k)
    /\ store_ops (log w1)
       = (store_ops (log w)
          ++ map (DeleteDoc path) (map fst (assets w))
          ++ map (fun d => AddDoc path (fst d) (DAsset (snd d))) (assets w1))%list
    /\ store_ops (log w2)
       = (store_ops (log w1)
          ++ map (DeleteDoc path) (map fst (assets w1))
          ++ map (fun d => AddDoc path (fst d) (DAsset (snd d))) (assets w2))%list.
Proof.
  intros Hauth Hdb Htopic Hu Hne Hgens Hi1 Hi2 path w1 w2 assets.
  cbn [generations] in Hgens.
  destruct (generation (service w) true (fetched w)) as [r1 n1] eqn:G1.
  destruct (generation (service w) true n1) as [r2 n2] eqn:G2.
  injection Hgens as -> ->.
  assert (Hgen1 : fst (generation (service w) true (fetched w)) = Ok (VArr items1))
    by now rewrite G1.
  destruct (@regenerate_mcqs_spec _ w topic u items1 Hauth Hdb Htopic Hu Hne Hgen1 Hi1)
    as (Ha1 & He1 & Hk1 & Hsel1 & Hv1 & Hf1 & Hl1).
  fold w1 path in Ha1, He1, Hsel1, Hv1, Hf1, Hl1. rewrite G1 in Hf1. cbn [snd] in Hf1.
  destruct Hsel1 as (Sdb & Su & Sauth & Stopic & _).
  assert (Hgen2 : fst (generation (service w1) true (fetched w1)) = Ok (VArr items2))
    by now rewrite Hv1, Hf1, G2.
  rewrite <- Sdb in Hdb. rewrite <- Stopic in Htopic. rewrite <- Su in Hu.
  rewrite <- Sauth in Hauth.
  destruct (@regenerate_mcqs_spec _ w1 topic u items2 Hauth Hdb Htopic Hu Hne Hgen2 Hi2)
    as (Ha2 & He2 & Hk2 & _ & _ & _ & Hl2).
  fold w2 path in Ha2, He2, Hl2.
  exists (List.length (persisted_items items1)), (List.length (persisted_items items2)).
  split; [apply persisted_items_length|]. split; [apply persisted_items_length|].
  split; [exact Ha1|]. split; [exact Ha2|].
  split; [apply He1|]. split; [apply He2|].
  split; [exact Hk1|]. split; [exact Hk2|]. split; [exact Hl1 | exact Hl2].
Qed.

Lemma assessment_regeneration_witness :
  let path := @private_path Reference.host "user-1" "assets" in
  let w1 := @regenerate_mcqs Reference.host two_assessments_world in
  let w2 := @regenerate_mcqs Reference.host w1 in
  let options := VArr [VStr "a"; VStr "b"; VStr "c"; VStr "d"] in
  error (app w2) = None
  /\ exists a,
       map snd (assets_where (store w2 path) 5 mcq) = [a]
       /\ @mcq_saved Reference.host 5
            (VObj [("question", VStr "Q3"); ("options", options);
                   ("correct_answer_index", VStr "1")]) a.
Proof.
  cbn zeta.
  destruct (@assessment_regeneration Reference.host two_assessments_world topic_5 "user-1"
              [VObj [("question", VStr "Q1");
                     ("options", VArr [VStr "a"; VStr "b"; VStr "c"; VStr "d"]);
                     ("correct_answer_index", VNum (of_Z 2))];
               VObj [("question", VStr "Q2");
                     ("options", VArr [VStr "a"; VStr "b"; VStr "c"; VStr "d"])]]
              [VObj [("question", VStr "Q3");
                     ("options", VArr [VStr "a"; VStr "b"; VStr "c"; VStr "d"]);
                     ("correct_answer_index", VStr "1")]]
              eq_refl eq_refl eq_refl eq_refl
              ltac:(discriminate) eq_refl ltac:(discriminate) ltac:(discriminate))
    as (m1 & m2 & _ & _ & _ & Ha2 & _ & He2 & _ & _ & _ & _).
  assert (Herr : error (app (@regenerate_mcqs Reference.host
                               (@regenerate_mcqs Reference.host two_assessments_world)))
                 = None) by reflexivity.
  split; [exact Herr|].
  rewrite (He2 Herr) in Ha2. cbn [List.length firstn] in Ha2.
  exact (Forall2_single Ha2).
Defined.

(** C5, as stated, fails: the second generation call returns a non-empty
    array whose second element is [null].  The second run deletes the two
    MCQ assets of the first run, inserts the asset of the first item and
    stops at the [null] with a [TypeError]: one asset is left for an array
    of two elements. *)
Lemma interrupted_regeneration_counterexample :
  let path := @private_path Reference.host "user-1" "assets" in
  let w1 := @regenerate_mcqs Reference.host interrupted_assessment_world in
  let w2 := @regenerate_mcqs Reference.host w1 in
  let options := VArr [VStr "a"; VStr "b"; VStr "c"; VStr "d"] in
  @generations Reference.host (service interrupted_assessment_world) 0 2
  = [Ok (VArr [VObj [("question", VStr "Q1"); ("options", options);
                     ("correct_answer_index", VNum (of_Z 2))];
               VObj [("question", VStr "Q2"); ("options", options);
                     ("correct_answer_index", VNum (of_Z 0))]]);
     Ok (VArr [VObj [("question", VStr "Q3"); ("options", options);
                     ("correct_answer_index", VNum (of_Z 1))];
               VNull])]
  /\ map fst (assets_where (store w1 path) 5 mcq) = [0; 1]
  /\ assets_where (store w2 path) 5 mcq
     = [(2, McqAsset 5 (VStr "Q3") options (of_Z 1) 0)]
  /\ error (app w2) = Some "Cannot read properties of null (reading 'question')".
Proof. cbn zeta. repeat split; vm_compute; reflexivity. Qed.

(** C9 (amended). The MCQ assets that a generate-assessment run persists
    are the records of the first items of the array its generation call
    returned, in order and up to the item at which the run stops, if it
    does: it stops at an item that is [null] or on whose
    [correct_answer_index] [Number()] throws, and it has persisted every
    item when it ends without error.  The [correctIndex] of each record is
    a number, not necessarily an integer: [Number(correct_answer_index)]
    when that is neither [NaN] nor zero, and 0 otherwise, in particular
    when the field is missing or does not coerce to a number; it is an
    integer whenever [Number(correct_answer_index)] is one. *)
Theorem correctIndex_coercion `{Host} (w : World) (topic : DocId * Topic) (u : string)
        (items : list value) :
  db (app w) = true ->
  activeTopic (app w) = Some topic ->
  userId (app w) = Some u -> u <> "" ->
  fst (generation (service w) true (fetched w)) = Ok (VArr items) ->
  items <> [] ->
  let w' := snd (handleGenerateMCQs w) in
  let path := private_path u "assets" in
  exists added : list (DocId * Asset),
    store w' path
    = (remove_docs (map fst (mcqs (app w))) (store w path)
       ++ map (fun d => (fst d, DAsset (snd d))) added)%list
    /\ List.length added <= List.length items
    /\ (error (app w') = None -> List.length added = List.length items)
    /\ (forall (k : nat) (item : value),
           nth_error items k = Some item ->
           nullish item = true
           \/ (exists e, ToNumber (opt_get item "correct_answer_index") = Throw e) ->
           List.length added <= k)
    /\ Forall2
         (fun item d =>
            exists (n : number) (createdAt : Z),
              ToNumber (opt_get item "correct_answer_index") = Ok n
              /\ snd d = mcq_asset (fst topic) createdAt item
                           (if number_truthy n then n else of_Z 0)
              /\ (opt_get item "correct_answer_index" = VUndefined ->
                  correctIndex_of (DAsset (snd d)) = Some (of_Z 0))
              /\ (n = NaN -> correctIndex_of (DAsset (snd d)) = Some (of_Z 0))
              /\ (is_integer n = true ->
                  exists i, correctIndex_of (DAsset (snd d)) = Some i
                            /\ is_integer i = true))
         (firstn (List.length added) items) added.
Proof.
  intros Hdb Htopic Hu Hne Hgen Hitems w' path.
  destruct (@handleGenerateMCQs_items _ w topic u items Hdb Htopic Hu Hne Hgen Hitems)
    as (createdAt & Hst & _ & _ & _ & _ & Herr & _).
  fold w' path in Hst, Herr.
  destruct (saved_docs_assets (fst topic) createdAt items (next_id w)) as (Hdocs & _).
  set (assets := map (fun s => mcq_asset (fst topic) createdAt (fst s) (snd s))
                     (persisted_items items)) in *.
  set (m := List.length (persisted_items items)) in *.
  set (added := (combine (seq (next_id w) m) assets : list (DocId * Asset))).
  assert (Hlen : List.length added = m).
  { unfold added. rewrite length_combine, length_seq. unfold assets, m.
    rewrite length_map. lia. }
  exists added.
  split; [rewrite Hst, Hdocs; reflexivity|].
  rewrite !Hlen. unfold added. clear added Hlen.
  split; [apply persisted_items_length|].
  split; [apply Herr|].
  split.
  { intros k item Hk Hbad. apply (persisted_items_stop items k Hk).
    now apply correctIndex_for_none. }
  pose proof (saved_items (fst topic) createdAt items) as Hsaved.
  fold assets m in Hsaved.
  assert (Hla : List.length assets = m) by (unfold assets, m; apply length_map).
  rewrite <- Hla at 2.
  apply Forall2_combine_seq with (R := mcq_saved (fst topic)); [exact Hsaved|].
  intros item a id (Hn & n & t & Hc & Ha).
  exists n, t. cbn [snd]. split; [exact Hc|]. split; [exact Ha|].
  rewrite Ha. unfold mcq_asset, correctIndex_of, or_zero.
  split; [|split].
  - intros Hx. rewrite Hx in Hc. injection Hc as <-. reflexivity.
  - intros ->. reflexivity.
  - intros Hi. destruct (number_truthy n); eauto.
Qed.

Lemma correctIndex_coercion_witness :
  let w' := snd (@handleGenerateMCQs Reference.host two_assessments_world) in
  let path := @private_path Reference.host "user-1" "assets" in
  let options := VArr [VStr "a"; VStr "b"; VStr "c"; VStr "d"] in
  let items := [VObj [("question", VStr "Q1"); ("options", options);
                      ("correct_answer_index", VNum (of_Z 2))];
                VObj [("question", VStr "Q2"); ("options", options)]] in
  exists added : list (DocId * Asset),
    store w' path = map (fun d => (fst d, DAsset (snd d))) added
    /\ List.length added = 2
    /\ Forall2
         (fun item d =>
            exists (n : number) (createdAt : Z),
              @ToNumber Reference.host (opt_get item "correct_answer_index") = Ok n
              /\ snd d = mcq_asset 5 createdAt item
                           (if number_truthy n then n else of_Z 0)
              /\ (opt_get item "correct_answer_index" = VUndefined ->
                  correctIndex_of (DAsset (snd d)) = Some (of_Z 0))
              /\ (n = NaN -> correctIndex_of (DAsset (snd d)) = Some (of_Z 0))
              /\ (is_integer n = true ->
                  exists i, correctIndex_of (DAsset (snd d)) = Some i
                            /\ is_integer i = true))
         items added.
Proof.
  cbn zeta.
  destruct (@correctIndex_coercion Reference.host two_assessments_world topic_5 "user-1"
              [VObj [("question", VStr "Q1");
                     ("options", VArr [VStr "a"; VStr "b"; VStr "c"; VStr "d"]);
                     ("correct_answer_index", VNum (of_Z 2))];
               VObj [("question", VStr "Q2");
                     ("options", VArr [VStr "a"; VStr "b"; VStr "c"; VStr "d"])]]
              eq_refl eq_refl eq_refl
              ltac:(discriminate) eq_refl ltac:(discriminate))
    as (added & Hst & _ & Herr & _ & Hall).
  specialize (Herr eq_refl). rewrite Herr in Hall.
  exists added. split; [exact Hst|]. split; [exact Herr | exact Hall].
Defined.

(** C9, as stated, fails: an item whose [correct_answer_index] is 1.5 is
    persisted with [correctIndex] 1.5, which is not an integer; and an item
    whose [correct_answer_index] is an object with a [toString] entry of its
    own is not persisted with [correctIndex] 0: [Number()] throws on it and
    the run stops there with a [TypeError], the item before it being the
    only one persisted. *)
Lemma fractional_correctIndex_counterexample :
  let options := VArr [VStr "a"; VStr "b"; VStr "c"; VStr "d"] in
  (store (snd (@handleGenerateMCQs Reference.host fractional_index_world))
         (@private_path Reference.host "user-1" "assets")
   = [(0, DAsset (McqAsset 5 (VStr "Q") options (Finite (3 # 2)%Q) 0))]
   /\ is_integer (Finite (3 # 2)%Q) = false)
  /\
  (fst (@generation Reference.host (service unconvertible_index_world) true 0)
   = Ok (VArr [VObj [("question", VStr "Q1"); ("options", options);
                     ("correct_answer_index", VNum (of_Z 1))];
               VObj [("question", VStr "Q2"); ("options", options);
                     ("correct_answer_index", VObj [("toString", VNum (of_Z 1))])]])
   /\ @ToNumber Reference.host (VObj [("toString", VNum (of_Z 1))])
      = Throw (TypeError "Cannot convert object to primitive value")
   /\ store (snd (@handleGenerateMCQs Reference.host unconvertible_index_world))
            (@private_path Reference.host "user-1" "assets")
      = [(0, DAsset (McqAsset 5 (VStr "Q1") options (of_Z 1) 0))]
   /\ error (app (snd (@handleGenerateMCQs Reference.host unconvertible_index_world)))
      = Some "Cannot convert object to primitive value").
Proof. cbn zeta. repeat split; vm_compute; reflexivity. Qed.


(** ** generate-course, when it ends without error *)

Section CourseInversion.
Context {host : Host}.

(** The inner loop returns only on topics none of which is [null]. *)
Lemma save_topics_loop_ok (topicsCollection : string) (moduleId : DocId)
      (topics_ : list value) :
  forall (j : nat) (w w' : World),
    for_index topics_ j (save_topic topicsCollection moduleId) w = (Ok tt, w') ->
    Forall (fun t => nullish t = false) topics_.
Proof.
  induction topics_ as [|topic rest IH]; intros j w w' Hrun; constructor.
  - destruct (nullish topic) eqn:Hn; [|reflexivity]. exfalso.
    cbn [for_index] in Hrun. unfold bind at 1, save_topic at 1, bind, lift in Hrun.
    destruct topic; try discriminate Hn; cbn in Hrun; discriminate Hrun.
  - cbn [for_index] in Hrun. unfold bind at 1 in Hrun.
    destruct (save_topic topicsCollection moduleId j topic w) as [[[]|e] w1];
      [|discriminate Hrun].
    exact (IH _ _ _ Hrun).
Qed.

(** One turn of the outer loop returns only for a module that is not
    [null], whose topic-generation call returns, and none of whose topics is
    [null]. *)
Lemma save_module_ok (modulesCollection topicsCollection name : string)
      (newCourseId : DocId) (i : nat) (moduleData : value) (w w' : World) :
  modulesCollection <> topicsCollection ->
  save_module modulesCollection topicsCollection name newCourseId i moduleData w
  = (Ok tt, w') ->
  nullish moduleData = false
  /\ exists v,
       fst (generation (service w) true (fetched w)) = Ok v
       /\ Forall (fun t => nullish t = false) (elements v)
       /\ service w' = service w
       /\ fetched w' = snd (generation (service w) true (fetched w)).
Proof.
  intros Hpaths Hrun.
  destruct (nullish moduleData) eqn:Hmd.
  { exfalso. unfold save_module, bind, lift in Hrun.
    destruct moduleData; try discriminate Hmd; cbn in Hrun; discriminate Hrun. }
  split; [reflexivity|].
  set (m := mkModule newCourseId (opt_get moduleData "title")
              (opt_get moduleData "objective") (Z.of_nat (i + 1)) (clock w)).
  set (w1 := emit (AddDoc modulesCollection (next_id w) (DModule m))
               (mkWorld (app w)
                  (store_set (store w) modulesCollection
                     ((store w modulesCollection ++ [(next_id w, DModule m)])%list))
                  (Datatypes.S (next_id w)) (service w) (fetched w) (clock w) (log w))).
  set (uq := "Generate 5 topics for the module '" ++ ToString (opt_get moduleData "title")
             ++ "' within the course '" ++ name ++ "'.").
  pose proof (generate_spec topic_systemPrompt uq true w1) as (Hr & _).
  destruct (generate topic_systemPrompt uq true w1) as [r w2] eqn:Hrun2.
  cbn [fst] in Hr.
  change (service w1) with (service w) in Hr. change (fetched w1) with (fetched w) in Hr.
  assert (Hsm : save_module modulesCollection topicsCollection name newCourseId i
                            moduleData w
                = match r with
                  | Ok v =>
                      if isArray v
                      then for_index (elements v) 0
                                     (save_topic topicsCollection (next_id w)) w2
                      else (Ok tt, w2)
                  | Throw e => (Throw e, w2)
                  end).
  { unfold save_module, bind at 1 2 3 4 5, lift, new_Date, addDoc, ret.
    rewrite !(get_not_nullish _ _ Hmd). fold m w1 uq. rewrite Hrun2.
    destruct r as [v|e]; [destruct (isArray v)|]; reflexivity. }
  rewrite Hsm in Hrun. destruct r as [v|e]; [|discriminate Hrun].
  assert (Htopics : Forall (fun t => nullish t = false) (elements v)).
  { destruct (isArray v) eqn:Harr.
    - exact (@save_topics_loop_ok _ _ _ _ _ _ Hrun).
    - rewrite (elements_not_array _ Harr). constructor. }
  destruct (generation (service w) true (fetched w)) as [r n1] eqn:Hgen.
  cbn [fst] in Hr. subst r.
  destruct (@save_module_step host modulesCollection topicsCollection name newCourseId
              i moduleData w v n1 Hpaths Hmd Hgen Htopics)
    as (w'' & tdocs & createdAt & Hrun' & _ & _ & _ & _ & _ & Hs & Hf & _).
  rewrite Hsm in Hrun'. rewrite Hrun in Hrun'. injection Hrun' as <-.
  exists v. cbn [fst snd]. auto.
Qed.

(** The outer loop returns only for modules none of which is [null], all of
    whose topic-generation calls return, with topics none of which is
    [null]. *)
Lemma save_modules_loop_ok (modulesCollection topicsCollection name : string)
      (newCourseId : DocId) :
  modulesCollection <> topicsCollection ->
  forall (mods : list value) (i : nat) (w w' : World),
    for_index mods i
              (save_module modulesCollection topicsCollection name newCourseId) w
    = (Ok tt, w') ->
    Forall (fun md => nullish md = false) mods
    /\ exists values,
         generations (service w) (fetched w) (List.length mods) = map Ok values
         /\ Forall (fun v => Forall (fun t => nullish t = false) (elements v)) values.
Proof.
  intros Hpaths mods. induction mods as [|md mods IH]; intros i w w' Hrun.
  - split; [constructor|]. exists []. split; [reflexivity | constructor].
  - cbn [for_index] in Hrun. unfold bind at 1 in Hrun.
    destruct (save_module modulesCollection topicsCollection name newCourseId i md w)
      as [[[]|e] w1] eqn:H1; [|discriminate Hrun].
    destruct (@save_module_ok _ _ _ _ _ _ _ _ Hpaths H1) as (Hmd & v & Hg & Hv & Hs & Hf).
    destruct (IH _ _ _ Hrun) as (Hmods & values & Hgens & Hvals).
    split; [constructor; assumption|].
    exists (v :: values). split; [|constructor; assumption].
    cbn [generations List.length map].
    destruct (generation (service w) true (fetched w)) as [r n1].
    cbn [fst snd] in Hg, Hf. subst r. rewrite <- Hs, <- Hf, Hgens. reflexivity.
Qed.

(** One turn of the outer loop, whatever its outcome: for a [null] module
    it throws at once; otherwise it adds one module record, and nothing else
    to the modules collection. *)
Lemma save_module_adds (modulesCollection topicsCollection name : string)
      (newCourseId : DocId) (i : nat) (moduleData : value) (w : World) :
  modulesCollection <> topicsCollection ->
  let run := save_module modulesCollection topicsCollection name newCourseId i
                         moduleData w in
  (nullish moduleData = true /\ (exists e, fst run = Throw e) /\ snd run = w)
  \/ (nullish moduleData = false
      /\ exists createdAt,
           store (snd run) modulesCollection
           = (store w modulesCollection
              ++ [(next_id w,
                   DModule (mkModule newCourseId (opt_get moduleData "title")
                              (opt_get moduleData "objective")
                              (Z.of_nat (i + 1)) createdAt))])%list).
Proof.
  intros Hpaths run.
  destruct (nullish moduleData) eqn:Hmd.
  - left. split; [reflexivity|]. unfold run, save_module, bind, lift.
    destruct moduleData; try discriminate Hmd; cbn;
      (split; [eexists; reflexivity | reflexivity]).
  - right. split; [reflexivity|]. exists (clock w).
    set (m := mkModule newCourseId (opt_get moduleData "title")
                (opt_get moduleData "objective") (Z.of_nat (i + 1)) (clock w)).
    set (w1 := emit (AddDoc modulesCollection (next_id w) (DModule m))
                 (mkWorld (app w)
                    (store_set (store w) modulesCollection
                       ((store w modulesCollection ++ [(next_id w, DModule m)])%list))
                    (Datatypes.S (next_id w)) (service w) (fetched w) (clock w) (log w))).
    set (uq := "Generate 5 topics for the module '"
               ++ ToString (opt_get moduleData "title")
               ++ "' within the course '" ++ name ++ "'.").
    set (rest := bind (generate topic_systemPrompt uq true)
                   (fun generatedTopicsData =>
                      if isArray generatedTopicsData
                      then for_index (elements generatedTopicsData) 0
                                     (save_topic topicsCollection (next_id w))
                      else ret tt)).
    assert (Hsm : run = rest w1).
    { unfold run, save_module. unfold bind at 1 2 3 4, lift, new_Date, addDoc.
      rewrite !(get_not_nullish _ _ Hmd). reflexivity. }
    assert (Hext : extends (fun p _ => p = topicsCollection) rest).
    { apply extends_bind; [apply extends_generate | intros g].
      destruct (isArray g); [|apply extends_ret].
      apply extends_for_index. intros j t. apply extends_save_topic.
      intros _. reflexivity. }
    rewrite Hsm.
    rewrite (@extended_elsewhere _ _ _ modulesCollection (Hext w1))
      by (intros _ E; exact (Hpaths E)).
    unfold w1. cbn [store emit]. apply store_set_same.
Qed.

(** The outer loop, whatever its outcome: the module records it adds are
    those of the first modules of the array, in order. *)
Lemma save_modules_loop_prefix (modulesCollection topicsCollection name : string)
      (newCourseId : DocId) :
  modulesCollection <> topicsCollection ->
  forall (mods : list value) (i : nat) (w : World),
  exists saved : list (DocId * Module_),
    store (snd (for_index mods i
                  (save_module modulesCollection topicsCollection name newCourseId) w))
          modulesCollection
    = (store w modulesCollection ++ module_docs saved)%list
    /\ List.length saved <= List.length mods
    /\ Forall2 (module_record newCourseId)
               (firstn (List.length saved) (combine (seq i (List.length mods)) mods))
               saved.
Proof.
  intros Hpaths mods. induction mods as [|md mods IH]; intros i w.
  - exists []. cbn. rewrite app_nil_r. repeat split; [lia | constructor].
  - cbn [for_index]. unfold bind at 1.
    pose proof (@save_module_adds modulesCollection topicsCollection name newCourseId
                  i md w Hpaths) as Hstep.
    cbn zeta in Hstep.
    destruct (save_module modulesCollection topicsCollection name newCourseId i md w)
      as [r w1] eqn:H1.
    cbn [fst snd] in Hstep.
    destruct Hstep as [(_ & (e & ->) & ->) | (_ & createdAt & Hst)].
    + exists []. cbn. rewrite app_nil_r. repeat split; [lia | constructor].
    + set (m := mkModule newCourseId (opt_get md "title") (opt_get md "objective")
                  (Z.of_nat (i + 1)) createdAt) in Hst.
      destruct r as [[]|e].
      * destruct (IH (Datatypes.S i) w1) as (saved & Hs & Hlen & Hrec).
        exists ((next_id w, m) :: saved).
        rewrite Hs, Hst, <- app_assoc. split; [reflexivity|].
        cbn [List.length]. split; [lia|].
        cbn [seq combine firstn]. constructor; [|exact Hrec].
        unfold module_record. cbn. auto.
      * exists [(next_id w, m)]. cbn [snd]. rewrite Hst. split; [reflexivity|].
        cbn [List.length]. split; [lia|].
        cbn [seq combine firstn]. constructor; [|constructor].
        unfold module_record. cbn. auto.
Qed.

(** The [try] block of [handleGenerateCourse] once the module-generation
    call has returned a non-empty array, up to its outer loop. *)
Lemma generate_course_loop (st : AppState) (w : World) (u : string) (mods : list value) :
  userId st = Some u -> u <> "" ->
  fst (generation (service w) true (fetched w)) = Ok (VArr mods) ->
  mods <> [] ->
  exists w4,
    generate_course st w
    = for_index mods 0
        (save_module (private_path u "modules") (private_path u "topics")
                     (courseName st) (next_id w)) w4
    /\ service w4 = service w
    /\ fetched w4 = snd (generation (service w) true (fetched w))
    /\ (forall p, p <> private_path u "courses" -> store w4 p = store w p).
Proof.
  intros Hu Hne Hgen Hmods.
  set (uq := "Generate a course structure for a " ++ courseName st ++ " course.").
  pose proof (generate_spec course_systemPrompt uq true w) as (Hr & Hf & Hnet).
  destruct (generate course_systemPrompt uq true w) as [r w2] eqn:Hrun2.
  cbn [fst snd] in Hr, Hf, Hnet. rewrite Hgen in Hr. subst r.
  destruct Hnet as (Ha2 & Hs2 & Hn2 & Hv2 & l2 & Hl2 & Ho2).
  set (cpath := private_path u "courses").
  destruct (delete_loop (fun doc : DocId * Doc => fst doc) cpath (store w2 cpath)
              (emit (GetDocs cpath) w2))
    as (w3 & Hrun3 & Hs3 & Hn3 & _).
  destruct Hs3 as (Ha3 & Hv3 & Hf3 & Hc3).
  cbn [app store next_id service fetched clock log emit] in Ha3, Hv3, Hf3, Hc3, Hn3.
  set (c := mkCourse (courseName st) "draft" (clock w3) (userId st)).
  set (w4 := emit (AddDoc cpath (next_id w3) (DCourse c))
               (mkWorld (app w3)
                  (store_set (store w3) cpath ((store w3 cpath ++ [(next_id w3, DCourse c)])%list))
                  (Datatypes.S (next_id w3)) (service w3) (fetched w3) (clock w3) (log w3))).
  exists w4. split.
  - unfold generate_course. fold uq. unfold bind at 1. rewrite Hrun2.
    cbn [isArray negb elements orb].
    destruct mods as [|md0 mods']; [contradiction|].
    cbn [List.length Nat.eqb].
    rewrite Hu, !getCollectionPath_private by exact Hne. fold cpath.
    unfold collection, bind at 1 2 3 4, ret.
    unfold bind at 1. unfold getDocs at 1.
    unfold bind at 1. rewrite Hrun3.
    unfold bind at 1. unfold new_Date at 1.
    unfold bind at 1. unfold addDoc at 1.
    rewrite <- Hu. fold c w4.
    replace (next_id w) with (next_id w3) by congruence. reflexivity.
  - change (service w4) with (service w3). change (fetched w4) with (fetched w3).
    split; [congruence|]. split; [congruence|].
    intros p Hp. unfold w4. cbn [store emit].
    rewrite store_set_other by exact Hp.
    destruct (delete_loop (fun doc : DocId * Doc => fst doc) cpath (store w2 cpath)
                (emit (GetDocs cpath) w2))
      as (w3' & Hrun3' & _ & _ & _ & Helse & _).
    rewrite Hrun3 in Hrun3'. injection Hrun3' as <-.
    rewrite (Helse p Hp). cbn [store emit]. now rewrite Hs2.
Qed.

(** A run of [handleGenerateCourse] that ends without error: the
    module-generation call returned a non-empty array without [null], and
    every topic-generation call returned, no topics array holding a
    [null]. *)
Lemma handleGenerateCourse_ok (w : World) (u : string) :
  db (app w) = true ->
  courseName (app w) <> "" -> trim (courseName (app w)) <> "" ->
  userId (app w) = Some u -> u <> "" ->
  error (app (snd (handleGenerateCourse w))) = None ->
  exists mods values,
    generations (service w) (fetched w) (Datatypes.S (List.length mods))
    = Ok (VArr mods) :: map Ok values
    /\ mods <> []
    /\ Forall (fun md => nullish md = false) mods
    /\ Forall (fun v => Forall (fun t => nullish t = false) (elements v)) values.
Proof.
  intros Hdb Hname Htrim Hu Hne Herr.
  rewrite (handleGenerateCourse_run w Hdb Hname Htrim) in Herr. cbn [snd] in Herr.
  rewrite settle_app in Herr.
  pose proof (generate_course_outcome (app w) (started w)) as (_ & _ & _ & Hcase).
  change (service (started w)) with (service w) in Hcase.
  change (fetched (started w)) with (fetched w) in Hcase.
  destruct Hcase as [(e & Hf & _) | (u' & mods & _ & _ & Hu' & _ & Hgen & Hmods & _)].
  { rewrite Hf in Herr. discriminate Herr. }
  rewrite Hu in Hu'. injection Hu' as <-.
  destruct (@generate_course_loop (app w) (started w) u mods Hu Hne Hgen Hmods)
    as (w4 & Hrun & Hs & Hf & _).
  change (service (started w)) with (service w) in Hs, Hf.
  change (fetched (started w)) with (fetched w) in Hf.
  change (next_id (started w)) with (next_id w) in Hrun.
  destruct (generate_course (app w) (started w)) as [[[]|e] w5] eqn:Hgc;
    [|discriminate Herr].
  assert (Hmt : private_path u "modules" <> private_path u "topics")
    by (intros E; apply private_path_inj in E; discriminate E).
  symmetry in Hrun.
  destruct (@save_modules_loop_ok _ _ _ _ Hmt _ _ _ _ Hrun) as (Hnn & values & Hgens & Hvals).
  exists mods, values. split; [|auto].
  cbn [generations].
  destruct (generation (service w) true (fetched w)) as [r n1].
  cbn [fst snd] in Hgen, Hf. subst r. rewrite <- Hs, <- Hf, Hgens. reflexivity.
Qed.
(** A run of [handleGenerateCourse] whose module-generation call returned a
    non-empty array, whatever its outcome: the module records it leaves are
    those of the first modules of the array, in order. *)
Lemma handleGenerateCourse_modules (w : World) (u : string) (mods : list value) :
  db (app w) = true ->
  courseName (app w) <> "" -> trim (courseName (app w)) <> "" ->
  userId (app w) = Some u -> u <> "" ->
  fst (generation (service w) true (fetched w)) = Ok (VArr mods) ->
  mods <> [] ->
  exists saved : list (DocId * Module_),
    store (snd (handleGenerateCourse w)) (private_path u "modules")
    = (store w (private_path u "modules") ++ module_docs saved)%list
    /\ List.length saved <= List.length mods
    /\ Forall2 (module_record (next_id w))
               (firstn (List.length saved) (combine (seq 0 (List.length mods)) mods))
               saved.
Proof.
  intros Hdb Hname Htrim Hu Hne Hgen Hmods.
  rewrite (handleGenerateCourse_run w Hdb Hname Htrim). cbn [snd].
  pose proof (settle_world "Course Generation Error:"
                "An unexpected error occurred during course generation."
                (generate_course (app w) (started w))) as (Hst & _).
  rewrite Hst.
  destruct (@generate_course_loop (app w) (started w) u mods Hu Hne Hgen Hmods)
    as (w4 & Hrun & _ & _ & Helse).
  change (next_id (started w)) with (next_id w) in Hrun.
  change (store (started w)) with (store w) in Helse.
  assert (Hmt : private_path u "modules" <> private_path u "topics")
    by (intros E; apply private_path_inj in E; discriminate E).
  assert (Hmc : private_path u "modules" <> private_path u "courses")
    by (intros E; apply private_path_inj in E; discriminate E).
  rewrite Hrun.
  destruct (@save_modules_loop_prefix (private_path u "modules")
              (private_path u "topics") (courseName (app w)) (next_id w) Hmt
              mods 0 w4) as (saved & Hs & Hlen & Hrec).
  exists saved. rewrite Hs, (Helse _ Hmc). auto.
Qed.
End CourseInversion.

(** C1 (amended). A generate-course run with a store handle, a caller
    identity and a non-blank course name, whose module-generation call
    returns a non-empty array of [N] modules: first every course document of
    the caller is deleted, then the new course is inserted, and it is
    afterwards the only one; every later store operation adds a module or a
    topic.  The module records that the run adds are those of the first [m]
    modules of the array, [m <= N], in order: the [i]-th (0-indexed) with
    order [i + 1] and the id of the new course.  When the run ends without
    error, [m = N], every topic-generation call has returned, and a module
    whose topic-generation call returned an array of [k] topics has [k]
    topic records with orders [1..k] and its own id as [moduleId]; the ids
    of the module records are pairwise distinct. *)
Theorem course_generation `{Host} (w : World) (u : string) (mods : list value) :
  db (app w) = true ->
  courseName (app w) <> "" -> trim (courseName (app w)) <> "" ->
  userId (app w) = Some u -> u <> "" ->
  fst (generation (service w) true (fetched w)) = Ok (VArr mods) ->
  mods <> [] ->
  let w' := snd (handleGenerateCourse w) in
  let coursesCollection := private_path u "courses" in
  let modulesCollection := private_path u "modules" in
  let topicsCollection := private_path u "topics" in
  exists (createdAt : Z) (ops : list Event) (saved : list (DocId * Module_)),
    let newCourse := DCourse (mkCourse (courseName (app w)) "draft" createdAt (Some u)) in
    store_ops (log w')
    = (store_ops (log w)
       ++ GetDocs coursesCollection
       :: map (DeleteDoc coursesCollection) (map fst (store w coursesCollection))
       ++ AddDoc coursesCollection (next_id w) newCourse :: ops)%list
    /\ Forall (adds_to [modulesCollection; topicsCollection]) ops
    /\ store w' coursesCollection = [(next_id w, newCourse)]
    /\ store w' modulesCollection
       = (store w modulesCollection ++ module_docs saved)%list
    /\ List.length saved <= List.length mods
    /\ Forall2 (module_record (next_id w))
               (firstn (List.length saved) (combine (seq 0 (List.length mods)) mods))
               saved
    /\ (error (app w') = None ->
        exists (values : list value) (tree : Tree),
          generations (service w) (fetched w) (Datatypes.S (List.length mods))
          = Ok (VArr mods) :: map Ok values
          /\ List.length saved = List.length mods
          /\ store w' modulesCollection
             = (store w modulesCollection ++ tree_modules tree)%list
          /\ store w' topicsCollection
             = (store w topicsCollection ++ tree_topics tree)%list
          /\ List.length tree = List.length mods
          /\ Forall2 (module_saved (next_id w))
                     (combine (seq 0 (List.length mods)) (combine mods values)) tree
          /\ NoDup (map module_id tree)).
Proof.
  intros Hdb Hname Htrim Hu Hne Hgen Hmods w' cpath mpath tpath.
  assert (Hfirst :
            exists (createdAt : Z) (ops : list Event),
              store w' cpath
              = [(next_id w,
                  DCourse (mkCourse (courseName (app w)) "draft" createdAt (Some u)))]
              /\ store_ops (log w')
                 = (store_ops (log w)
                    ++ GetDocs cpath
                    :: map (DeleteDoc cpath) (map fst (store w cpath))
                    ++ AddDoc cpath (next_id w)
                         (DCourse (mkCourse (courseName (app w)) "draft" createdAt
                                     (Some u)))
                    :: ops)%list
              /\ Forall (adds_to [mpath; tpath]) ops).
  { unfold w'. rewrite (handleGenerateCourse_run w Hdb Hname Htrim). cbn [snd].
    pose proof (settle_world "Course Generation Error:"
                  "An unexpected error occurred during course generation."
                  (generate_course (app w) (started w))) as (Hst & _ & _ & _ & Hlog & _).
    rewrite Hst, Hlog.
    pose proof (generate_course_outcome (app w) (started w)) as (_ & _ & _ & Hcase).
    change (service (started w)) with (service w) in Hcase.
    change (fetched (started w)) with (fetched w) in Hcase.
    rewrite Hgen in Hcase.
    destruct Hcase as [(e & _ & _ & _ & _ & _ & Hwhy)
                      | (u' & mods' & createdAt & ops & Hu' & _ & _ & _ & Hc & _ & Hl & Hops)].
    - exfalso. destruct Hwhy as [Hw | [(v & Hv & Hbad & _) | (mods' & _ & _ & Hnone)]].
      + discriminate Hw.
      + injection Hv as <-. destruct Hbad as [Hb | Hb]; [discriminate Hb|].
        injection Hb as ->. now apply Hmods.
      + rewrite Hu, getCollectionPath_private in Hnone by exact Hne. discriminate Hnone.
    - rewrite Hu in Hu'. injection Hu' as <-.
      exists createdAt, ops. fold cpath mpath tpath in Hc, Hl, Hops.
      split; [exact Hc|]. split; [exact Hl | exact Hops]. }
  destruct Hfirst as (createdAt & ops & Hc & Hl & Hops).
  destruct (handleGenerateCourse_modules w Hdb Hname Htrim Hu Hne Hgen Hmods)
    as (saved & Hsaved & Hle & Hrec).
  fold w' mpath in Hsaved.
  exists createdAt, ops, saved. cbn zeta.
  split; [exact Hl|]. split; [exact Hops|]. split; [exact Hc|].
  split; [exact Hsaved|]. split; [exact Hle|]. split; [exact Hrec|].
  intros Herr.
  destruct (handleGenerateCourse_ok w Hdb Hname Htrim Hu Hne Herr)
    as (mods' & values & Hgens & _ & Hnn & Hvalues).
  assert (Hsame : mods' = mods).
  { cbn [generations] in Hgens.
    destruct (generation (service w) true (fetched w)) as [r n1].
    cbn [fst] in Hgen. subst r. injection Hgens as Hg _. congruence. }
  subst mods'.
  destruct (handleGenerateCourse_complete w Hdb Hname Htrim Hu Hne Hgens Hmods Hnn Hvalues)
    as (w2 & tree & createdAt' & Hrun & _ & _ & Hm & Ht & Htree & Hnd & _).
  assert (Hw' : w' = w2) by (unfold w'; now rewrite Hrun).
  assert (Hsize : List.length tree = List.length mods).
  { apply Forall2_length in Htree. rewrite <- Htree.
    pose proof (generations_length (service w) (Datatypes.S (List.length mods))
                  (fetched w)) as Hlen.
    rewrite Hgens in Hlen. cbn [List.length] in Hlen. rewrite length_map in Hlen.
    rewrite length_combine, length_seq, length_combine. lia. }
  rewrite Hw' in Hsaved |- *. exists values, tree.
  split; [exact Hgens|]. split.
  { fold mpath in Hm. rewrite Hm in Hsaved. apply app_inv_head in Hsaved.
    apply (f_equal (@List.length _)) in Hsaved.
    unfold tree_modules, module_docs in Hsaved. rewrite !length_map in Hsaved.
    congruence. }
  split; [exact Hm|]. split; [exact Ht|].
  split; [exact Hsize|]. split; assumption.
Qed.

Lemma course_generation_witness :
  let w' := snd (@handleGenerateCourse Reference.host course_world) in
  let modulesCollection := @private_path Reference.host "user-1" "modules" in
  let topicsCollection := @private_path Reference.host "user-1" "topics" in
  let mods := [VObj [("title", VStr "Basics"); ("objective", VStr "Start")];
               VObj [("title", VStr "Next"); ("objective", VStr "Go on")]] in
  error (app w') = None
  /\ exists (values : list value) (tree : Tree),
       @generations Reference.host (service course_world) 0 3
       = Ok (VArr mods) :: map Ok values
       /\ store w' modulesCollection = tree_modules tree
       /\ store w' topicsCollection = tree_topics tree
       /\ List.length tree = 2
       /\ Forall2 (module_saved 41) (combine [0; 1] (combine mods values)) tree
       /\ NoDup (map module_id tree).
Proof.
  cbn zeta.
  destruct (@course_generation Reference.host course_world "user-1"
              [VObj [("title", VStr "Basics"); ("objective", VStr "Start")];
               VObj [("title", VStr "Next"); ("objective", VStr "Go on")]]
              eq_refl ltac:(discriminate) ltac:(discriminate) eq_refl ltac:(discriminate)
              eq_refl ltac:(discriminate))
    as (createdAt & ops & saved & _ & _ & _ & _ & _ & _ & Hdone).
  split; [reflexivity|].
  destruct (Hdone eq_refl) as (values & tree & Hgens & _ & Hrest).
  exists values, tree. split; [exact Hgens | exact Hrest].
Defined.

(** C1, as stated, fails: the module-generation call returns two modules, the
    topic-generation call of the first one fails on all five attempts, and the
    run stops there with an error: the second module is never persisted. *)
Lemma later_modules_counterexample :
  fst (@generation Reference.host (service failing_topics_world) true 0)
  = Ok (VArr [VObj [("title", VStr "Basics"); ("objective", VStr "Start")];
              VObj [("title", VStr "Next"); ("objective", VStr "Go on")]])
  /\ store (snd (@handleGenerateCourse Reference.host failing_topics_world))
           (@private_path Reference.host "user-1" "modules")
     = [(1, DModule (mkModule 0 (VStr "Basics") (VStr "Start") 1 0))]
  /\ error (app (snd (@handleGenerateCourse Reference.host failing_topics_world))) <> None
  /\ ~ (exists id m,
          In (id, DModule m)
             (store (snd (@handleGenerateCourse Reference.host failing_topics_world))
                    (@private_path Reference.host "user-1" "modules"))
          /\ module_order m = 2%Z).
Proof.
  split; [reflexivity|].
  assert (Hstore : store (snd (@handleGenerateCourse Reference.host failing_topics_world))
                         (@private_path Reference.host "user-1" "modules")
                   = [(1, DModule (mkModule 0 (VStr "Basics") (VStr "Start") 1 0))])
    by (vm_compute; reflexivity).
  split; [exact Hstore|].
  split; [vm_compute; discriminate|].
  rewrite Hstore. intros (id & m & [Heq | []] & Horder).
  injection Heq as _ <-. discriminate Horder.
Qed.

(** X5. The guards of the three generation handlers are exact.
    [handleGenerateCourse] leaves everything as it is (no request, no
    store operation, no change of state) exactly when there is no store
    handle or the course name is empty or blank; [handleGenerateMCQs] and
    [handleGenerateLab] do so exactly when there is no store handle or no
    active topic.  In every other case at least one request is sent. *)
Theorem handlers_guarded `{Host} (w : World) :
  let stopped := fun (run : M World unit) => run w = (Ok tt, w) in
  let requested := fun (run : M World unit) => fetched w < fetched (snd (run w)) in
  let no_name := courseName (app w) = "" \/ trim (courseName (app w)) = "" in
  ((stopped handleGenerateCourse <-> db (app w) = false \/ no_name)
   /\ (~ (db (app w) = false \/ no_name) -> requested handleGenerateCourse))
  /\ ((stopped handleGenerateMCQs <-> db (app w) = false \/ activeTopic (app w) = None)
      /\ (~ (db (app w) = false \/ activeTopic (app w) = None) ->
          requested handleGenerateMCQs))
  /\ ((stopped handleGenerateLab <-> db (app w) = false \/ activeTopic (app w) = None)
      /\ (~ (db (app w) = false \/ activeTopic (app w) = None) ->
          requested handleGenerateLab)).
Proof.
  intros stopped requested no_name. unfold stopped, requested, no_name.
  assert (Hcourse : db (app w) = true -> courseName (app w) <> "" ->
                    trim (courseName (app w)) <> "" ->
                    fetched w < fetched (snd (handleGenerateCourse w))).
  { intros Hdb Hname Htrim.
    rewrite (handleGenerateCourse_run w Hdb Hname Htrim). cbn [snd].
    pose proof (generate_course_outcome (app w) (started w)) as (_ & _ & Hlt & _).
    pose proof (settle_world "Course Generation Error:"
                  "An unexpected error occurred during course generation."
                  (generate_course (app w) (started w))) as (_ & _ & _ & Hf & _).
    rewrite Hf. exact Hlt. }
  assert (Hmcq : forall topic, db (app w) = true -> activeTopic (app w) = Some topic ->
                               fetched w < fetched (snd (handleGenerateMCQs w))).
  { intros topic Hdb Ht.
    rewrite (handleGenerateMCQs_run w Hdb Ht). cbn [snd].
    pose proof (generate_mcqs_outcome (app w) topic (started w)) as (_ & Hlt & _).
    pose proof (settle_world "MCQ Generation Error:"
                  "An unexpected error occurred during MCQ generation."
                  (generate_mcqs (app w) topic (started w))) as (_ & _ & _ & Hf & _).
    rewrite Hf. exact Hlt. }
  assert (Hlab : forall topic, db (app w) = true -> activeTopic (app w) = Some topic ->
                               fetched w < fetched (snd (handleGenerateLab w))).
  { intros topic Hdb Ht.
    rewrite (handleGenerateLab_run w Hdb Ht). cbn [snd].
    pose proof (generate_lab_outcome (app w) topic (started w)) as (_ & Hlt & _).
    pose proof (settle_world "Lab Generation Error:"
                  "An unexpected error occurred during lab generation."
                  (generate_lab (app w) topic (started w))) as (_ & _ & _ & Hf & _).
    rewrite Hf. exact Hlt. }
  split; [|split].
  - destruct (db (app w)) eqn:Hdb.
    + destruct (String.eqb_spec (courseName (app w)) "") as [Hname|Hname];
        [|destruct (String.eqb_spec (trim (courseName (app w))) "") as [Htrim|Htrim]].
      * split; [|intros Hno; exfalso; apply Hno; auto].
        split; [auto|]. intros _. unfold handleGenerateCourse.
        rewrite Hdb, Hname. reflexivity.
      * split; [|intros Hno; exfalso; apply Hno; auto].
        split; [auto|]. intros _. unfold handleGenerateCourse.
        rewrite Hdb, Htrim, String.eqb_refl. now rewrite orb_true_r.
      * specialize (Hcourse eq_refl Hname Htrim). split; [|intros _; exact Hcourse].
        split.
        -- intros Hrun. rewrite Hrun in Hcourse. cbn [snd] in Hcourse. lia.
        -- intros [E | [E | E]]; [discriminate E | contradiction | contradiction].
    + split; [|intros Hno; exfalso; apply Hno; auto].
      split; [auto|]. intros _. unfold handleGenerateCourse. rewrite Hdb. reflexivity.
  - destruct (db (app w)) eqn:Hdb; [destruct (activeTopic (app w)) as [topic|] eqn:Ht|].
    + specialize (Hmcq topic eq_refl eq_refl). split; [|intros _; exact Hmcq].
      split.
      * intros Hrun. rewrite Hrun in Hmcq. cbn [snd] in Hmcq. lia.
      * intros [E | E]; discriminate E.
    + split; [|intros Hno; exfalso; apply Hno; auto].
      split; [auto|]. intros _. unfold handleGenerateMCQs. rewrite Hdb, Ht. reflexivity.
    + split; [|intros Hno; exfalso; apply Hno; auto].
      split; [auto|]. intros _. unfold handleGenerateMCQs. rewrite Hdb. reflexivity.
  - destruct (db (app w)) eqn:Hdb; [destruct (activeTopic (app w)) as [topic|] eqn:Ht|].
    + specialize (Hlab topic eq_refl eq_refl). split; [|intros _; exact Hlab].
      split.
      * intros Hrun. rewrite Hrun in Hlab. cbn [snd] in Hlab. lia.
      * intros [E | E]; discriminate E.
    + split; [|intros Hno; exfalso; apply Hno; auto].
      split; [auto|]. intros _. unfold handleGenerateLab. rewrite Hdb, Ht. reflexivity.
    + split; [|intros Hno; exfalso; apply Hno; auto].
      split; [auto|]. intros _. unfold handleGenerateLab. rewrite Hdb. reflexivity.
Qed.

(** Either the guard of [handleGenerateCourse] stops it, or it runs. *)
Lemma course_guard_cases `{Host} (w : World) :
  handleGenerateCourse w = (Ok tt, w)
  \/ (db (app w) = true /\ courseName (app w) <> "" /\ trim (courseName (app w)) <> "").
Proof.
  destruct (db (app w)) eqn:Hdb.
  - destruct (String.eqb_spec (courseName (app w)) "") as [He|Hname].
    + left. unfold handleGenerateCourse. rewrite Hdb, He. reflexivity.
    + destruct (String.eqb_spec (trim (courseName (app w))) "") as [He|Htrim].
      * left. unfold handleGenerateCourse. rewrite Hdb, He, String.eqb_refl.
        now rewrite orb_true_r.
      * right. auto.
  - left. unfold handleGenerateCourse. rewrite Hdb. reflexivity.
Qed.

(** How a handler that got past its guard leaves the component state. *)
Lemma settled_cells `{Host} (label fallback : string) (r : Result unit * World)
      (w : World) (tab : option Tab) :
  fallback <> "" ->
  (fst r = Ok tt /\ app (snd r)
                    = match tab with
                      | Some t => setSelectedTab t (app (started w))
                      | None => app (started w)
                      end)
  \/ (exists e, fst r = Throw e /\ app (snd r) = app (started w)) ->
  let a' := app (settle label fallback r) in
  same_cells (app w) a'
  /\ isLoading a' = false
  /\ ((error a' = None
       /\ selectedTab a' = match tab with Some t => t | None => selectedTab (app w) end)
      \/ (exists msg, error a' = Some msg /\ msg <> ""
                      /\ selectedTab a' = selectedTab (app w))).
Proof.
  intros Hfb Hcase a'. unfold a'. rewrite settle_app.
  destruct Hcase as [(Hf & Ha) | (e & Hf & Ha)]; rewrite Hf, Ha.
  - destruct tab as [t|]; (split; [repeat split|]); (split; [reflexivity|]);
      left; split; reflexivity.
  - split; [repeat split|]. split; [reflexivity|]. right.
    eexists. split; [reflexivity|]. split; [|reflexivity].
    apply message_or_not_empty. exact Hfb.
Qed.

(** X6. What the generation handlers do to the component state.  None of
    the three handlers ever throws, and none writes a cell other than
    [isLoading], [error] and [selectedTab].  A handler stopped by its guard
    (no store handle, or a blank course name for [handleGenerateCourse], no
    active topic for the two others) changes nothing at all.  A run that
    got past its guard ends with the loading flag down; it ends either
    without error, and then [handleGenerateMCQs] has selected the MCQ tab
    and [handleGenerateLab] the lab tab, or with an error message that is
    not empty, and then the selected tab is the one before;
    [handleGenerateCourse] never changes the selected tab. *)
Theorem handlers_footprint `{Host} (w : World) :
  let ended (guarded : Prop) (tab : option Tab) (w' : World) :=
    same_cells (app w) (app w')
    /\ (guarded -> w' = w)
    /\ (~ guarded ->
        isLoading (app w') = false
        /\ ((error (app w') = None
             /\ selectedTab (app w')
                = match tab with Some t => t | None => selectedTab (app w) end)
            \/ (exists msg, error (app w') = Some msg /\ msg <> ""
                            /\ selectedTab (app w') = selectedTab (app w)))) in
  (fst (handleGenerateCourse w) = Ok tt
   /\ ended (db (app w) = false \/ courseName (app w) = ""
             \/ trim (courseName (app w)) = "")
            None (snd (handleGenerateCourse w)))
  /\ (fst (handleGenerateMCQs w) = Ok tt
      /\ ended (db (app w) = false \/ activeTopic (app w) = None)
               (Some mcqs_tab) (snd (handleGenerateMCQs w)))
  /\ (fst (handleGenerateLab w) = Ok tt
      /\ ended (db (app w) = false \/ activeTopic (app w) = None)
               (Some lab_tab) (snd (handleGenerateLab w))).
Proof.
  intros ended. unfold ended.
  assert (Hsame : same_cells (app w) (app w)) by (repeat split).
  split; [|split].
  - destruct (course_guard_cases w) as [Hg | (Hdb & Hname & Htrim)].
    + rewrite Hg. split; [reflexivity|]. cbn [snd]. split; [exact Hsame|].
      split; [reflexivity|]. intros Hno. exfalso. apply Hno.
      destruct (db (app w)) eqn:Hdb; [|auto].
      destruct (String.eqb_spec (courseName (app w)) "") as [|Hname]; [auto|].
      destruct (String.eqb_spec (trim (courseName (app w))) "") as [|Htrim]; [auto|].
      exfalso. rewrite (handleGenerateCourse_run w Hdb Hname Htrim) in Hg.
      injection Hg as Hw.
      pose proof (generate_course_outcome (app w) (started w)) as (_ & _ & Hlt & _).
      pose proof (settle_world "Course Generation Error:"
                    "An unexpected error occurred during course generation."
                    (generate_course (app w) (started w))) as (_ & _ & _ & Hf & _).
      rewrite Hw in Hf. change (fetched (started w)) with (fetched w) in Hlt. lia.
    + rewrite (handleGenerateCourse_run w Hdb Hname Htrim). split; [reflexivity|].
      cbn [snd].
      pose proof (generate_course_outcome (app w) (started w)) as (Ha & _).
      destruct (@settled_cells _ "Course Generation Error:"
                  "An unexpected error occurred during course generation."
                  (generate_course (app w) (started w)) w None ltac:(discriminate))
        as (Hcells & Hload & Hend).
      { destruct (fst (generate_course (app w) (started w))) as [[]|e]; eauto. }
      split; [exact Hcells|]. split; [|intros _; split; assumption].
      intros [E | [E | E]]; [rewrite Hdb in E; discriminate E | contradiction
                            | contradiction].
  - destruct (db (app w)) eqn:Hdb.
    2: { unfold handleGenerateMCQs. rewrite Hdb. split; [reflexivity|]. cbn [snd].
         split; [exact Hsame|]. split; [reflexivity|].
         intros Hno. exfalso. apply Hno. auto. }
    destruct (activeTopic (app w)) as [topic|] eqn:Ht.
    2: { unfold handleGenerateMCQs. rewrite Hdb, Ht. split; [reflexivity|]. cbn [snd].
         split; [exact Hsame|]. split; [reflexivity|].
         intros Hno. exfalso. apply Hno. auto. }
    rewrite (handleGenerateMCQs_run w Hdb Ht). split; [reflexivity|]. cbn [snd].
    pose proof (generate_mcqs_outcome (app w) topic (started w)) as (_ & _ & Hcase).
    destruct (@settled_cells _ "MCQ Generation Error:"
                "An unexpected error occurred during MCQ generation."
                (generate_mcqs (app w) topic (started w)) w (Some mcqs_tab)
                ltac:(discriminate))
      as (Hcells & Hload & Hend).
    { destruct Hcase as [(e & Hf & Ha & _) | (u & items & added & ops & _ & _ & _ & _ & _
                                              & _ & _ & _ & _ & Hend)].
      - right. exists e. auto.
      - exact Hend. }
    split; [exact Hcells|]. split; [|intros _; split; assumption].
    intros [E | E]; discriminate E.
  - destruct (db (app w)) eqn:Hdb.
    2: { unfold handleGenerateLab. rewrite Hdb. split; [reflexivity|]. cbn [snd].
         split; [exact Hsame|]. split; [reflexivity|].
         intros Hno. exfalso. apply Hno. auto. }
    destruct (activeTopic (app w)) as [topic|] eqn:Ht.
    2: { unfold handleGenerateLab. rewrite Hdb, Ht. split; [reflexivity|]. cbn [snd].
         split; [exact Hsame|]. split; [reflexivity|].
         intros Hno. exfalso. apply Hno. auto. }
    rewrite (handleGenerateLab_run w Hdb Ht). split; [reflexivity|]. cbn [snd].
    pose proof (generate_lab_outcome (app w) topic (started w)) as (_ & _ & Hcase).
    destruct (@settled_cells _ "Lab Generation Error:"
                "An unexpected error occurred during lab generation."
                (generate_lab (app w) topic (started w)) w (Some lab_tab)
                ltac:(discriminate))
      as (Hcells & Hload & Hend).
    { destruct Hcase as [(e & Hf & Ha & _) | (u & data & createdAt & _ & _ & _ & _ & Hf
                                              & Ha & _)].
      - right. exists e. auto.
      - left. auto. }
    split; [exact Hcells|]. split; [|intros _; split; assumption].
    intros [E | E]; discriminate E.
Qed.
(** ** More on generate-course *)

(** X7. generate-course never deletes or rewrites a module, a topic or an
    asset.  Whatever the run does and however it ends, every collection
    other than the courses collection of the caller still holds all its
    documents, in order; only the modules and the topics collection of the
    caller may have gained documents at their end. *)
Theorem course_run_keeps_content `{Host} (w : World) (p : string) :
  let w' := snd (handleGenerateCourse w) in
  let path := fun name => getCollectionPath (userId (app w)) name false in
  path "courses" <> Some p ->
  exists added,
    store w' p = (store w p ++ added)%list
    /\ (path "modules" <> Some p -> path "topics" <> Some p -> added = []).
Proof.
  intros w' path Hp.
  destruct (course_guard_cases w) as [Hg | (Hdb & Hname & Htrim)].
  { unfold w'. rewrite Hg. exists []. now rewrite app_nil_r. }
  unfold w'. rewrite (handleGenerateCourse_run w Hdb Hname Htrim). cbn [snd].
  pose proof (settle_world "Course Generation Error:"
                "An unexpected error occurred during course generation."
                (generate_course (app w) (started w))) as (Hst & _).
  rewrite Hst.
  pose proof (generate_course_outcome (app w) (started w)) as (_ & _ & _ & Hcase).
  destruct Hcase as [(e & _ & Hs & _) | (u & mods & createdAt & ops & Hu & Hne & _ & _ & _
                                         & Hgrow & _)].
  - rewrite Hs. exists []. now rewrite app_nil_r.
  - unfold path in *. rewrite Hu in *.
    rewrite !getCollectionPath_private in * by exact Hne.
    destruct (Hgrow p) as (added & He & _ & Hnone).
    { intros ->. now apply Hp. }
    exists added. split; [exact He|].
    intros Hm Ht. apply Hnone; intros ->; [now apply Hm | now apply Ht].
Qed.

Lemma course_run_keeps_content_witness :
  exists added,
    store (snd (@handleGenerateCourse Reference.host course_world))
          (@private_path Reference.host "user-1" "assets")
    = (store course_world (@private_path Reference.host "user-1" "assets") ++ added)%list
    /\ (@getCollectionPath Reference.host (Some "user-1") "modules" false
        <> Some (@private_path Reference.host "user-1" "assets") ->
        @getCollectionPath Reference.host (Some "user-1") "topics" false
        <> Some (@private_path Reference.host "user-1" "assets") ->
        added = []).
Proof.
  apply (@course_run_keeps_content Reference.host course_world
           (@private_path Reference.host "user-1" "assets")).
  discriminate.
Defined.

(** X8. Once the module-generation call of a generate-course run has
    returned a non-empty array, the caller ends up with exactly one course
    document, the new one, however the rest of the run goes (a [null]
    module, a topic generation that fails, ...): the courses collection is
    read, each of its documents is deleted, the new course is added, and
    every later store operation adds a module or a topic. *)
Theorem course_replaced_once_generated `{Host} (w : World) (u : string)
        (mods : list value) :
  db (app w) = true ->
  courseName (app w) <> "" -> trim (courseName (app w)) <> "" ->
  userId (app w) = Some u -> u <> "" ->
  fst (generation (service w) true (fetched w)) = Ok (VArr mods) ->
  mods <> [] ->
  let w' := snd (handleGenerateCourse w) in
  let coursesCollection := private_path u "courses" in
  exists (createdAt : Z) (ops : list Event),
    let newCourse := DCourse (mkCourse (courseName (app w)) "draft" createdAt (Some u)) in
    store w' coursesCollection = [(next_id w, newCourse)]
    /\ store_ops (log w')
       = (store_ops (log w)
          ++ GetDocs coursesCollection
          :: map (DeleteDoc coursesCollection) (map fst (store w coursesCollection))
          ++ AddDoc coursesCollection (next_id w) newCourse :: ops)%list
    /\ Forall (adds_to [private_path u "modules"; private_path u "topics"]) ops.
Proof.
  intros Hdb Hname Htrim Hu Hne Hgen Hmods w' cpath.
  unfold w'. rewrite (handleGenerateCourse_run w Hdb Hname Htrim). cbn [snd].
  pose proof (settle_world "Course Generation Error:"
                "An unexpected error occurred during course generation."
                (generate_course (app w) (started w))) as (Hst & _ & _ & _ & Hlog & _).
  rewrite Hst, Hlog.
  pose proof (generate_course_outcome (app w) (started w)) as (_ & _ & _ & Hcase).
  change (service (started w)) with (service w) in Hcase.
  change (fetched (started w)) with (fetched w) in Hcase.
  rewrite Hgen in Hcase.
  destruct Hcase as [(e & _ & _ & _ & _ & _ & Hwhy)
                    | (u' & mods' & createdAt & ops & Hu' & _ & _ & _ & Hc & _ & Hl & Hops)].
  - exfalso. destruct Hwhy as [Hw | [(v & Hv & Hbad & _) | (mods' & _ & _ & Hnone)]].
    + discriminate Hw.
    + injection Hv as <-. destruct Hbad as [Hb | Hb]; [discriminate Hb|].
      injection Hb as ->. now apply Hmods.
    + rewrite Hu, getCollectionPath_private in Hnone by exact Hne. discriminate Hnone.
  - rewrite Hu in Hu'. injection Hu' as <-.
    exists createdAt, ops. cbn zeta. fold cpath in Hc, Hl.
    split; [exact Hc|]. split; [exact Hl | exact Hops].
Qed.

Lemma course_replaced_once_generated_witness :
  exists (createdAt : Z) (ops : list Event),
    store (snd (@handleGenerateCourse Reference.host failing_topics_world))
          (@private_path Reference.host "user-1" "courses")
    = [(0, DCourse (mkCourse "Full Stack Java" "draft" createdAt (Some "user-1")))]
    /\ store_ops (log (snd (@handleGenerateCourse Reference.host failing_topics_world)))
       = (GetDocs (@private_path Reference.host "user-1" "courses")
          :: AddDoc (@private_path Reference.host "user-1" "courses") 0
               (DCourse (mkCourse "Full Stack Java" "draft" createdAt (Some "user-1")))
          :: ops)%list
    /\ Forall (adds_to [@private_path Reference.host "user-1" "modules";
                        @private_path Reference.host "user-1" "topics"]) ops.
Proof.
  exact (@course_replaced_once_generated Reference.host failing_topics_world "user-1"
           [VObj [("title", VStr "Basics"); ("objective", VStr "Start")];
            VObj [("title", VStr "Next"); ("objective", VStr "Go on")]]
           eq_refl ltac:(discriminate) ltac:(discriminate) eq_refl ltac:(discriminate)
           eq_refl ltac:(discriminate)).
Defined.

(** X9. A generate-course run whose module-generation call fails, or
    returns something other than a non-empty array, changes nothing in the
    store: the old course and its content are kept and no store operation is
    attempted.  The error shown is the message of the failure, or "AI failed
    to generate module structure." for a value of the wrong shape; the error
    is logged to the console and the loading flag is down at the end. *)
Theorem failed_module_generation `{Host} (w : World) :
  db (app w) = true ->
  courseName (app w) <> "" -> trim (courseName (app w)) <> "" ->
  (forall mods, fst (generation (service w) true (fetched w)) = Ok (VArr mods) ->
                mods = []) ->
  let w' := snd (handleGenerateCourse w) in
  let e := match fst (generation (service w) true (fetched w)) with
           | Throw e => e
           | Ok _ => Error "AI failed to generate module structure."
           end in
  store w' = store w /\ next_id w' = next_id w
  /\ store_ops (log w') = store_ops (log w)
  /\ error (app w')
     = Some (message_or e "An unexpected error occurred during course generation.")
  /\ isLoading (app w') = false
  /\ exists l, log w' = (log w ++ l ++ [ConsoleError "Course Generation Error:" e])%list.
Proof.
  intros Hdb Hname Htrim Hgen w' e.
  unfold w'. rewrite (handleGenerateCourse_run w Hdb Hname Htrim). cbn [snd].
  pose proof (generate_course_outcome (app w) (started w)) as (Ha & _ & _ & Hcase).
  change (service (started w)) with (service w) in Hcase.
  change (fetched (started w)) with (fetched w) in Hcase.
  destruct Hcase as [(e' & Hf & Hs & Hn & Hl & (l & Hlog & _) & Hwhy)
                    | (u' & mods' & createdAt & ops & _ & _ & Hg & Hm & _)].
  2: { exfalso. apply Hm. apply Hgen. exact Hg. }
  assert (He : e' = e).
  { unfold e. destruct Hwhy as [Hw | [(v & Hv & Hbad & He') | (mods' & Hg & Hm & _)]].
    - now rewrite Hw.
    - now rewrite Hv.
    - exfalso. apply Hm. apply Hgen. exact Hg. }
  subst e'. clearbody e.
  destruct (generate_course (app w) (started w)) as [r w1].
  cbn [fst snd] in *. subst r. cbn [settle with_app emit store next_id log app].
  rewrite Hs, Hn, Ha, store_ops_app, Hl, Hlog.
  repeat split.
  - cbn. apply app_nil_r.
  - exists l. now rewrite <- app_assoc.
Qed.

Lemma failed_module_generation_witness :
  store (snd (@handleGenerateCourse Reference.host object_reply_world))
  = store object_reply_world
  /\ error (app (snd (@handleGenerateCourse Reference.host object_reply_world)))
     = Some "AI failed to generate module structure."
  /\ isLoading (app (snd (@handleGenerateCourse Reference.host object_reply_world))) = false.
Proof.
  pose proof (@failed_module_generation Reference.host object_reply_world
                eq_refl ltac:(discriminate) ltac:(discriminate)
                ltac:(intros mods Hm; discriminate Hm))
    as (Hs & _ & _ & He & Hl & _).
  split; [exact Hs|]. split; [exact He | exact Hl].
Defined.

(** ** More on the asset generations *)

(** X10. A generate-assessment run whose generation call fails, or returns
    something other than a non-empty array, changes nothing in the store:
    the MCQs of the topic are kept and no store operation is attempted.
    The error shown is the message of the failure, or "AI failed to generate
    MCQs." for a value of the wrong shape; the selected tab stays and the
    loading flag is down at the end. *)
Theorem failed_assessment_generation `{Host} (w : World) (topic : DocId * Topic) :
  db (app w) = true -> activeTopic (app w) = Some topic ->
  (forall items, fst (generation (service w) true (fetched w)) = Ok (VArr items) ->
                 items = []) ->
  let w' := snd (handleGenerateMCQs w) in
  let e := match fst (generation (service w) true (fetched w)) with
           | Throw e => e
           | Ok _ => Error "AI failed to generate MCQs."
           end in
  store w' = store w /\ next_id w' = next_id w
  /\ store_ops (log w') = store_ops (log w)
  /\ error (app w')
     = Some (message_or e "An unexpected error occurred during MCQ generation.")
  /\ selectedTab (app w') = selectedTab (app w)
  /\ isLoading (app w') = false
  /\ exists l, log w' = (log w ++ l ++ [ConsoleError "MCQ Generation Error:" e])%list.
Proof.
  intros Hdb Ht Hgen w' e.
  unfold w'. rewrite (handleGenerateMCQs_run w Hdb Ht). cbn [snd].
  pose proof (generate_mcqs_outcome (app w) topic (started w)) as (_ & _ & Hcase).
  change (service (started w)) with (service w) in Hcase.
  change (fetched (started w)) with (fetched w) in Hcase.
  destruct Hcase as [(e' & Hf & Ha & Hs & Hn & Hl & (l & Hlog & _) & Hwhy)
                    | (u' & items' & added & ops & _ & _ & Hg & Hm & _)].
  2: { exfalso. apply Hm. apply Hgen. exact Hg. }
  assert (He : e' = e).
  { unfold e. destruct Hwhy as [Hw | [(v & Hv & Hbad & He') | (items' & Hg & Hm & _)]].
    - now rewrite Hw.
    - now rewrite Hv.
    - exfalso. apply Hm. apply Hgen. exact Hg. }
  subst e'. clearbody e.
  destruct (generate_mcqs (app w) topic (started w)) as [r w1].
  cbn [fst snd] in *. subst r. cbn [settle with_app emit store next_id log app].
  rewrite Hs, Hn, Ha, store_ops_app, Hl, Hlog.
  repeat split.
  - cbn. apply app_nil_r.
  - exists l. now rewrite <- app_assoc.
Qed.

Lemma failed_assessment_generation_witness :
  let w := world_of on_topic_5 empty_store 0 (Reference.scripted [Reference.answers "{}"]) in
  store (snd (@handleGenerateMCQs Reference.host w)) = store w
  /\ error (app (snd (@handleGenerateMCQs Reference.host w)))
     = Some "AI failed to generate MCQs."
  /\ selectedTab (app (snd (@handleGenerateMCQs Reference.host w))) = content_tab.
Proof.
  pose proof (@failed_assessment_generation Reference.host
                (world_of on_topic_5 empty_store 0
                   (Reference.scripted [Reference.answers "{}"]))
                topic_5 eq_refl eq_refl ltac:(intros items Hm; discriminate Hm))
    as (Hs & _ & _ & He & Ht & _).
  split; [exact Hs|]. split; [exact He | exact Ht].
Defined.

(** X11. A generate-lab run whose generation call fails, or returns a
    value without a truthy [problemStatement] (an array, as the array schema
    of the other calls would give, [null], a string, an object without the
    field, ...), changes nothing in the store: the lab of the topic is kept
    and no store operation is attempted.  The error shown is the message of
    the failure, or "AI failed to generate lab instructions." for such a
    value; the selected tab stays and the loading flag is down at the end. *)
Theorem failed_lab_generation `{Host} (w : World) (topic : DocId * Topic) :
  db (app w) = true -> activeTopic (app w) = Some topic ->
  (forall data, fst (generation (service w) true (fetched w)) = Ok data ->
                truthy (opt_get data "problemStatement") = false) ->
  let w' := snd (handleGenerateLab w) in
  let e := match fst (generation (service w) true (fetched w)) with
           | Throw e => e
           | Ok _ => Error "AI failed to generate lab instructions."
           end in
  store w' = store w /\ next_id w' = next_id w
  /\ store_ops (log w') = store_ops (log w)
  /\ error (app w')
     = Some (message_or e "An unexpected error occurred during lab generation.")
  /\ selectedTab (app w') = selectedTab (app w)
  /\ isLoading (app w') = false
  /\ exists l, log w' = (log w ++ l ++ [ConsoleError "Lab Generation Error:" e])%list.
Proof.
  intros Hdb Ht Hgen w' e.
  unfold w'. rewrite (handleGenerateLab_run w Hdb Ht). cbn [snd].
  pose proof (generate_lab_outcome (app w) topic (started w)) as (_ & _ & Hcase).
  change (service (started w)) with (service w) in Hcase.
  change (fetched (started w)) with (fetched w) in Hcase.
  destruct Hcase as [(e' & Hf & Ha & Hs & Hn & Hl & (l & Hlog & _) & Hwhy)
                    | (u' & data & createdAt & _ & _ & Hg & Hp & _)].
  2: { exfalso. rewrite (Hgen data Hg) in Hp. discriminate Hp. }
  assert (He : e' = e).
  { unfold e. destruct Hwhy as [Hw | [(v & Hv & Hbad & He') | (data & Hg & Hp & _)]].
    - now rewrite Hw.
    - now rewrite Hv.
    - exfalso. rewrite (Hgen data Hg) in Hp. discriminate Hp. }
  subst e'. clearbody e.
  destruct (generate_lab (app w) topic (started w)) as [r w1].
  cbn [fst snd] in *. subst r. cbn [settle with_app emit store next_id log app].
  rewrite Hs, Hn, Ha, store_ops_app, Hl, Hlog.
  repeat split.
  - cbn. apply app_nil_r.
  - exists l. now rewrite <- app_assoc.
Qed.

Lemma failed_lab_generation_witness :
  let w := world_of on_topic_5 empty_store 0
             (Reference.scripted
                [Reference.answers
                   (Reference.js "[{'problemStatement':'P','steps':['a'],'expectedOutcome':'O'}]")]) in
  store (snd (@handleGenerateLab Reference.host w)) = store w
  /\ error (app (snd (@handleGenerateLab Reference.host w)))
     = Some "AI failed to generate lab instructions."
  /\ selectedTab (app (snd (@handleGenerateLab Reference.host w))) = content_tab.
Proof.
  pose proof (@failed_lab_generation Reference.host
                (world_of on_topic_5 empty_store 0
                   (Reference.scripted
                      [Reference.answers
                         (Reference.js "[{'problemStatement':'P','steps':['a'],'expectedOutcome':'O'}]")]))
                topic_5 eq_refl eq_refl
                ltac:(intros data Hd; injection Hd as <-; reflexivity))
    as (Hs & _ & _ & He & Ht & _).
  split; [exact Hs|]. split; [exact He | exact Ht].
Defined.
(** ** What a regeneration leaves alone *)

Lemma NoDup_fst_unique (A B : Type) (c : list (A * B)) (k : A) (x y : B) :
  NoDup (map fst c) -> In (k, x) c -> In (k, y) c -> x = y.
Proof.
  induction c as [|[k' z] c IH]; cbn; intros Hnd Hx Hy; [contradiction|].
  inversion Hnd as [|? ? Hnotin Hnd']; subst.
  destruct Hx as [Hx | Hx], Hy as [Hy | Hy].
  - congruence.
  - injection Hx as -> ->. exfalso. apply Hnotin.
    change k with (fst (k, y)). now apply in_map.
  - injection Hy as -> ->. exfalso. apply Hnotin.
    change k with (fst (k, x)). now apply in_map.
  - now apply IH.
Qed.

Lemma AssetType_eqb_eq (a b : AssetType) : AssetType_eqb a b = true <-> a = b.
Proof. destruct a, b; cbn; split; intros; congruence. Qed.

Lemma assets_where_remove_doc (id : DocId) (c : Collection) (t : DocId) (ty : AssetType) :
  assets_where (remove_doc id c) t ty
  = filter (fun d => negb (fst d =? id)%nat) (assets_where c t ty).
Proof.
  unfold remove_doc. induction c as [|[id' d] c IH]; [reflexivity|].
  cbn [filter fst]. destruct (id' =? id)%nat eqn:E; cbn [negb].
  - destruct d as [| | |a]; cbn [assets_where]; try exact IH.
    destruct ((asset_topicId a =? t)%nat && AssetType_eqb (asset_type a) ty); [|exact IH].
    cbn [filter fst]. rewrite E. exact IH.
  - destruct d as [| | |a]; cbn [assets_where]; try exact IH.
    destruct ((asset_topicId a =? t)%nat && AssetType_eqb (asset_type a) ty); [|exact IH].
    cbn [filter fst]. rewrite E. cbn [negb]. f_equal. exact IH.
Qed.

Lemma filter_twice (A : Type) (f g : A -> bool) (l : list A) :
  filter f (filter g l) = filter (fun x => g x && f x) l.
Proof.
  induction l as [|x l IH]; [reflexivity|]. cbn [filter].
  destruct (g x); cbn [filter andb]; [destruct (f x); now rewrite IH | exact IH].
Qed.

Lemma assets_where_remove_docs (ids : list DocId) :
  forall (c : Collection) (t : DocId) (ty : AssetType),
    assets_where (remove_docs ids c) t ty
    = filter (fun d => negb (existsb (Nat.eqb (fst d)) ids)) (assets_where c t ty).
Proof.
  induction ids as [|id ids IH]; intros c t ty; cbn [remove_docs existsb].
  - cbn [negb]. symmetry. apply forallb_filter_id. now apply forallb_forall.
  - rewrite IH, assets_where_remove_doc, filter_twice. apply filter_ext.
    intros d. now rewrite negb_orb.
Qed.

(** Deleting documents that a query returns does not change what another
    query returns, ids being unique. *)
Lemma assets_where_frame (c : Collection) (t0 : DocId) (ty0 : AssetType)
      (ids : list DocId) (t : DocId) (ty : AssetType) :
  NoDup (map fst c) ->
  (forall id, In id ids -> exists a, In (id, a) (assets_where c t0 ty0)) ->
  (t, ty) <> (t0, ty0) ->
  assets_where (remove_docs ids c) t ty = assets_where c t ty.
Proof.
  intros Hnd Hids Hneq. rewrite assets_where_remove_docs.
  apply forallb_filter_id. apply forallb_forall. intros [id a] Hin. cbn [fst].
  apply negb_true_iff. destruct (existsb (Nat.eqb id) ids) eqn:E; [|reflexivity].
  exfalso. apply existsb_exists in E as (id' & Hid' & Heq).
  apply Nat.eqb_eq in Heq. subst id'.
  destruct (Hids id Hid') as (a0 & Ha0).
  apply assets_where_sound in Hin as (Hin & Hm).
  apply assets_where_sound in Ha0 as (Hin0 & Hm0).
  assert (E : DAsset a = DAsset a0) by (eapply NoDup_fst_unique; eassumption).
  injection E as <-.
  apply andb_prop in Hm as (Ht & Hty). apply andb_prop in Hm0 as (Ht0 & Hty0).
  apply Nat.eqb_eq in Ht, Ht0. apply AssetType_eqb_eq in Hty, Hty0.
  apply Hneq. congruence.
Qed.

(** Assets of one kind for one topic are invisible to every other query. *)
Lemma assets_where_none (added : Collection) (t0 : DocId) (ty0 : AssetType)
      (t : DocId) (ty : AssetType) :
  Forall (fun d => exists a, snd d = DAsset a /\ asset_topicId a = t0
                             /\ asset_type a = ty0) added ->
  (t, ty) <> (t0, ty0) ->
  assets_where added t ty = [].
Proof.
  intros Hall Hneq. induction Hall as [|[id d] added (a & Hd & Ht & Hty) _ IH];
    [reflexivity|].
  cbn [snd] in Hd. subst d. cbn [assets_where].
  destruct ((asset_topicId a =? t)%nat && AssetType_eqb (asset_type a) ty) eqn:E;
    [|exact IH].
  exfalso. apply andb_prop in E as (E1 & E2).
  apply Nat.eqb_eq in E1. apply AssetType_eqb_eq in E2. apply Hneq. congruence.
Qed.

(** X12. Regenerating the MCQs of a topic leaves every other asset alone.
    With the asset listeners caught up and document ids unique, a
    generate-assessment run, however it ends, changes neither the lab of
    the topic nor any asset of another topic, nor any other collection. *)
Theorem assessment_regeneration_frame `{Host} (w : World) (topic : DocId * Topic)
        (u : string) :
  isAuthReady (app w) = true -> db (app w) = true ->
  activeTopic (app w) = Some topic ->
  userId (app w) = Some u -> u <> "" ->
  let path := private_path u "assets" in
  NoDup (map fst (store w path)) ->
  let w' := regenerate_mcqs w in
  (forall t ty, (t, ty) <> (fst topic, mcq) ->
     assets_where (store w' path) t ty = assets_where (store w path) t ty)
  /\ (forall p, p <> path -> store w' p = store w p).
Proof.
  intros Hready Hdb Htopic Hu Hne path Hnd w'.
  destruct (notify_assets_spec w Hready Hdb Htopic Hu Hne)
    as (Hm & _ & (Hdb' & Hu' & _ & Ht' & _) & Hst & _).
  fold path in Hm.
  unfold w', regenerate_mcqs.
  set (wn := notify_assets w) in *.
  rewrite Hdb in Hdb'. rewrite Htopic in Ht'. rewrite Hu in Hu'.
  rewrite (handleGenerateMCQs_run wn Hdb' Ht'). cbn [snd].
  pose proof (settle_world "MCQ Generation Error:"
                "An unexpected error occurred during MCQ generation."
                (generate_mcqs (app wn) topic (started wn))) as (Hs & _).
  rewrite Hs.
  pose proof (generate_mcqs_outcome (app wn) topic (started wn)) as (_ & _ & Hcase).
  change (store (started wn)) with (store wn) in Hcase. rewrite Hst in Hcase.
  destruct Hcase as [(e & _ & _ & Hsame & _)
                    | (u' & items & added & ops & Hu'' & _ & _ & _ & Hpath & Hadded
                       & Hother & _)].
  - rewrite Hsame. split; [reflexivity|]. intros; reflexivity.
  - rewrite Hu' in Hu''. injection Hu'' as <-. fold path in Hpath, Hother.
    split; [|exact Hother].
    intros t ty Hneq. rewrite Hpath, assets_where_app.
    rewrite (@assets_where_none added (fst topic) mcq t ty); [|
      eapply Forall_impl; [|exact Hadded]; cbn; intros d (Hd & _); exact Hd | exact Hneq].
    rewrite app_nil_r, Hm.
    apply (@assets_where_frame (store w path) (fst topic) mcq _ t ty);
      [exact Hnd | | exact Hneq].
    intros id Hid. apply in_map_iff in Hid as ([id' a] & <- & Hin). exists a. exact Hin.
Qed.

Lemma assessment_regeneration_frame_witness :
  let path := @private_path Reference.host "user-1" "assets" in
  let w' := @regenerate_mcqs Reference.host assessment_over_assets_world in
  assets_where (store w' path) 5 lab
  = [(11, LabAsset 5 "Loops Practice Lab" (VStr "Old P") (VArr []) (VStr "Old O") 0)]
  /\ assets_where (store w' path) 6 mcq
     = [(12, McqAsset 6 (VStr "Other Q") (VArr []) (of_Z 1) 0)].
Proof.
  pose proof (@assessment_regeneration_frame Reference.host assessment_over_assets_world
                topic_5 "user-1" eq_refl eq_refl eq_refl eq_refl ltac:(discriminate)
                ltac:(vm_compute; repeat (constructor; [cbn; intuition congruence|]);
                      constructor))
    as (Hframe & _).
  split.
  - exact (Hframe 5 lab ltac:(discriminate)).
  - exact (Hframe 6 mcq ltac:(discriminate)).
Defined.

(** X13. Regenerating the lab of a topic leaves every other asset alone.
    With the asset listeners caught up and document ids unique, a
    generate-lab run, however it ends, changes neither the MCQs of the
    topic nor any asset of another topic, nor any other collection. *)
Theorem lab_regeneration_frame `{Host} (w : World) (topic : DocId * Topic)
        (u : string) :
  isAuthReady (app w) = true -> db (app w) = true ->
  activeTopic (app w) = Some topic ->
  userId (app w) = Some u -> u <> "" ->
  let path := private_path u "assets" in
  NoDup (map fst (store w path)) ->
  let w' := regenerate_lab w in
  (forall t ty, (t, ty) <> (fst topic, lab) ->
     assets_where (store w' path) t ty = assets_where (store w path) t ty)
  /\ (forall p, p <> path -> store w' p = store w p).
Proof.
  intros Hready Hdb Htopic Hu Hne path Hnd w'.
  destruct (notify_assets_spec w Hready Hdb Htopic Hu Hne)
    as (_ & Hl & (Hdb' & Hu' & _ & Ht' & _) & Hst & _).
  fold path in Hl.
  unfold w', regenerate_lab.
  set (wn := notify_assets w) in *.
  rewrite Hdb in Hdb'. rewrite Htopic in Ht'. rewrite Hu in Hu'.
  rewrite (handleGenerateLab_run wn Hdb' Ht'). cbn [snd].
  pose proof (settle_world "Lab Generation Error:"
                "An unexpected error occurred during lab generation."
                (generate_lab (app wn) topic (started wn))) as (Hs & _).
  rewrite Hs.
  pose proof (generate_lab_outcome (app wn) topic (started wn)) as (_ & _ & Hcase).
  change (store (started wn)) with (store wn) in Hcase. rewrite Hst in Hcase.
  change (next_id (started wn)) with (next_id wn) in Hcase.
  destruct Hcase as [(e & _ & _ & Hsame & _)
                    | (u' & data & createdAt & Hu'' & _ & _ & _ & _ & _ & Hpath
                       & Hother & _)].
  - rewrite Hsame. split; [reflexivity|]. intros; reflexivity.
  - rewrite Hu' in Hu''. injection Hu'' as <-. fold path in Hpath, Hother.
    split; [|exact Hother].
    intros t ty Hneq. rewrite Hpath, assets_where_app.
    rewrite (@assets_where_none [_] (fst topic) lab t ty);
      [| constructor; [|constructor]; cbn; eexists; split; [reflexivity|]; split; reflexivity
       | exact Hneq].
    rewrite app_nil_r.
    apply (@assets_where_frame (store w path) (fst topic) lab _ t ty);
      [exact Hnd | | exact Hneq].
    intros id Hid. rewrite Hl in Hid.
    destruct (assets_where (store w path) (fst topic) lab) as [|[id' a] rest] eqn:E;
      cbn in Hid; [contradiction|].
    destruct Hid as [<- | []]. exists a. now left.
Qed.

Lemma lab_regeneration_frame_witness :
  let path := @private_path Reference.host "user-1" "assets" in
  let w' := @regenerate_lab Reference.host lab_over_assets_world in
  assets_where (store w' path) 5 mcq
  = [(10, McqAsset 5 (VStr "Old Q") (VArr []) (of_Z 0) 0)]
  /\ assets_where (store w' path) 6 mcq
     = [(12, McqAsset 6 (VStr "Other Q") (VArr []) (of_Z 1) 0)].
Proof.
  pose proof (@lab_regeneration_frame Reference.host lab_over_assets_world
                topic_5 "user-1" eq_refl eq_refl eq_refl eq_refl ltac:(discriminate)
                ltac:(vm_compute; repeat (constructor; [cbn; intuition congruence|]);
                      constructor))
    as (Hframe & _).
  split.
  - exact (Hframe 5 mcq ltac:(discriminate)).
  - exact (Hframe 6 mcq ltac:(discriminate)).
Defined.

(** ** Collection paths *)

Lemma string_length_append (a b : string) :
  String.length (a ++ b) = String.length a + String.length b.
Proof. induction a as [|c a IH]; cbn; [reflexivity|]. now rewrite IH. Qed.

Lemma append_cancel_r (a b s : string) : a ++ s = b ++ s -> a = b.
Proof.
  revert b. induction a as [|c a IH]; intros [|d b] E; cbn in E.
  - reflexivity.
  - exfalso. apply (f_equal String.length) in E. cbn in E.
    rewrite string_length_append in E. lia.
  - exfalso. apply (f_equal String.length) in E. cbn in E.
    rewrite string_length_append in E. lia.
  - injection E as -> E. f_equal. now apply IH.
Qed.

(** Strips the common prefix off both sides of an equation between strings. *)
Ltac peel E :=
  repeat first [ apply append_cancel in E | injection E as E ].

(** X14. The paths [getCollectionPath] gives.  There is no path exactly
    when the user id is [null] or empty.  For one user, two collection
    names give the same path only if they are the same name; the private
    paths of one collection name are different for different users, while
    its public path is the same for all users; and a public path is never a
    private path. *)
Theorem collection_paths `{Host} :
  (forall (uid : option string) (name : string) (isPublic : bool),
      getCollectionPath uid name isPublic = None <-> uid = None \/ uid = Some "")
  /\ (forall (u a b : string) (isPublic : bool) (p : string),
         getCollectionPath (Some u) a isPublic = Some p ->
         getCollectionPath (Some u) b isPublic = Some p -> a = b)
  /\ (forall (u v name p : string),
         getCollectionPath (Some u) name false = Some p ->
         getCollectionPath (Some v) name false = Some p -> u = v)
  /\ (forall (u v name : string),
         u <> "" -> v <> "" ->
         getCollectionPath (Some u) name true = getCollectionPath (Some v) name true)
  /\ (forall (u v a b p : string),
         getCollectionPath (Some u) a true = Some p ->
         getCollectionPath (Some v) b false = Some p -> False).
Proof.
  unfold getCollectionPath. split; [|split; [|split; [|split]]].
  - intros [u|] name isPublic; [|split; auto].
    destruct (String.eqb_spec u "") as [->|Hu].
    + split; auto.
    + destruct isPublic; split; try discriminate;
        intros [E | E]; try discriminate E; injection E as ->; contradiction.
  - intros u a b isPublic p.
    destruct (u =? ""); [discriminate|].
    destruct isPublic; intros Ha Hb; rewrite <- Hb in Ha; injection Ha as E.
    + peel E. exact E.
    + peel E. exact E.
  - intros u v name p.
    destruct (u =? ""); [discriminate|]. destruct (v =? ""); [discriminate|].
    intros Ha Hb. rewrite <- Hb in Ha. injection Ha as E.
    apply append_cancel in E. injection E as E.
    change (u ++ ("/" ++ name) = v ++ ("/" ++ name)) in E.
    now apply append_cancel_r in E.
  - intros u v name Hu Hv.
    destruct (String.eqb_spec u ""); [contradiction|].
    destruct (String.eqb_spec v ""); [contradiction|]. reflexivity.
  - intros u v a b p.
    destruct (u =? ""); [discriminate|]. destruct (v =? ""); [discriminate|].
    intros Ha Hb. rewrite <- Hb in Ha. injection Ha as E.
    apply append_cancel in E. discriminate E.
Qed.

Lemma collection_paths_witness :
  @getCollectionPath Reference.host (Some "") "courses" false = None
  /\ @getCollectionPath Reference.host (Some "user-1") "courses" true
     = @getCollectionPath Reference.host (Some "user-2") "courses" true.
Proof.
  split.
  - apply (proj1 (@collection_paths Reference.host) (Some "") "courses" false).
    right. reflexivity.
  - apply (proj1 (proj2 (proj2 (proj2 (@collection_paths Reference.host))))
             "user-1" "user-2" "courses"); discriminate.
Defined.
(** ** More on the sync engine *)

Section Stability.
Variable A : Type.
Variable order : A -> Z.

(** [insert_by] puts the new element before every element of its own key. *)
Lemma insert_by_stable (k : Z) (x : A) (l : list A) :
  filter (fun y => (order y =? k)%Z) (insert_by order x l)
  = filter (fun y => (order y =? k)%Z) (x :: l).
Proof.
  induction l as [|y l IH]; [reflexivity|].
  cbn [insert_by]. destruct (order x <=? order y)%Z eqn:E; [reflexivity|].
  apply Z.leb_gt in E.
  cbn [filter] in *. rewrite IH.
  destruct (order x =? k)%Z eqn:Ex; [|reflexivity].
  apply Z.eqb_eq in Ex.
  destruct (order y =? k)%Z eqn:Ey; [|reflexivity].
  apply Z.eqb_eq in Ey. lia.
Qed.

(** The sort is stable: elements of equal key stay in their order. *)
Lemma sort_by_stable (k : Z) (l : list A) :
  filter (fun y => (order y =? k)%Z) (sort_by order l)
  = filter (fun y => (order y =? k)%Z) l.
Proof.
  induction l as [|x l IH]; [reflexivity|].
  cbn [sort_by]. rewrite insert_by_stable. cbn [filter]. now rewrite IH.
Qed.

(** A list that is in order already is left as it is. *)
Lemma sort_by_sorted_id (l : list A) :
  StronglySorted (fun x y => (order x <= order y)%Z) l -> sort_by order l = l.
Proof.
  induction 1 as [|x l Hs IH Hall]; [reflexivity|].
  cbn [sort_by]. rewrite IH. destruct l as [|y l]; [reflexivity|].
  cbn [insert_by]. inversion Hall as [|? ? Hxy _]; subst.
  apply Z.leb_le in Hxy. now rewrite Hxy.
Qed.
End Stability.

(** X15. A topics notification replaces the local topics by the notified
    snapshot sorted by ascending [order]; the sort is stable (topics of
    equal order keep the order of the snapshot) and leaves a snapshot that
    is in order as it is.  Nothing else is written: in particular the
    active topic is not re-resolved, so it stays the object selected
    earlier even when the snapshot carries a newer version of it. *)
Theorem topics_notification (docs : list (DocId * Topic)) (a : AppState) :
  let a' := on_topics docs a in
  let ordered := StronglySorted
                   (fun x y : DocId * Topic => (topic_order (snd x) <= topic_order (snd y))%Z) in
  Permutation (topics a') docs
  /\ ordered (topics a')
  /\ (forall k : Z,
        filter (fun t => (topic_order (snd t) =? k)%Z) (topics a')
        = filter (fun t => (topic_order (snd t) =? k)%Z) docs)
  /\ (ordered docs -> topics a' = docs)
  /\ activeTopic a' = activeTopic a
  /\ a' = setTopics (topics a') a.
Proof.
  cbn zeta. unfold on_topics. cbn [topics setTopics].
  split; [apply sort_by_perm|].
  split; [apply (sort_by_sorted (fun t : DocId * Topic => topic_order (snd t)))|].
  split; [intros k; apply (sort_by_stable (fun t : DocId * Topic => topic_order (snd t)))|].
  split; [apply (sort_by_sorted_id (fun t : DocId * Topic => topic_order (snd t)))|].
  split; reflexivity.
Qed.

Lemma topics_notification_witness :
  topics (on_topics [topic_5] initial_app) = [topic_5].
Proof.
  refine (proj1 (proj2 (proj2 (proj2 (topics_notification [topic_5] initial_app)))) _).
  repeat constructor.
Defined.

(** X16. What the asset listeners make of the store.  With the component
    ready and a topic selected, the [mcqs] cell holds exactly the MCQ
    assets of that topic found in the assets collection of the caller, and
    the [lab] cell one lab asset of that topic, when there is any, and
    [null] exactly when there is none.  Without a topic, a user or a store
    handle, both cells are cleared.  A notification writes nothing but
    these two cells. *)
Theorem assets_notification `{Host} (w : World) :
  let w' := notify_assets w in
  (forall (topic : DocId * Topic) (u : string),
      isAuthReady (app w) = true -> db (app w) = true ->
      activeTopic (app w) = Some topic ->
      userId (app w) = Some u -> u <> "" ->
      let c := store w (private_path u "assets") in
      (forall id x,
          In (id, x) (mcqs (app w'))
          <-> In (id, DAsset x) c /\ asset_topicId x = fst topic /\ asset_type x = mcq)
      /\ (forall l, lab_ (app w') = Some l ->
            In (fst l, DAsset (snd l)) c /\ asset_topicId (snd l) = fst topic
            /\ asset_type (snd l) = lab)
      /\ (lab_ (app w') = None <->
          forall id x, In (id, DAsset x) c -> asset_topicId x = fst topic ->
                       asset_type x <> lab))
  /\ (isAuthReady (app w) = false \/ db (app w) = false \/ activeTopic (app w) = None
      \/ userId (app w) = None \/ userId (app w) = Some "" ->
      mcqs (app w') = [] /\ lab_ (app w') = None)
  /\ w' = with_app (fun a => setLab (lab_ (app w')) (setMcqs (mcqs (app w')) a)) w.
Proof.
  intros w'. split; [|split].
  - intros topic u Hready Hdb Htopic Hu Hne c.
    destruct (notify_assets_spec w Hready Hdb Htopic Hu Hne) as (Hm & Hl & _).
    fold w' in Hm, Hl. fold c in Hm, Hl.
    assert (Hmatch : forall x ty,
               (asset_topicId x =? fst topic)%nat && AssetType_eqb (asset_type x) ty = true
               <-> asset_topicId x = fst topic /\ asset_type x = ty).
    { intros x ty. rewrite andb_true_iff, Nat.eqb_eq, AssetType_eqb_eq. reflexivity. }
    split; [|split].
    + intros id x. rewrite Hm. split.
      * intros Hin. apply assets_where_sound in Hin as (Hin & Hc).
        apply Hmatch in Hc. tauto.
      * intros (Hin & Ht & Hty). apply assets_where_complete; [exact Hin|].
        apply Hmatch. auto.
    + intros [id x] Hsome. rewrite Hl in Hsome. cbn [fst snd].
      destruct (assets_where c (fst topic) lab) as [|d rest] eqn:E; [discriminate|].
      injection Hsome as ->.
      assert (Hin : In (id, x) (assets_where c (fst topic) lab)) by (rewrite E; now left).
      apply assets_where_sound in Hin as (Hin & Hc). apply Hmatch in Hc. tauto.
    + rewrite Hl. split.
      * intros Hnone id x Hin Ht Hty.
        assert (Hin' : In (id, x) (assets_where c (fst topic) lab))
          by (apply assets_where_complete; [exact Hin | apply Hmatch; auto]).
        destruct (assets_where c (fst topic) lab); [contradiction | discriminate].
      * intros Hno. destruct (assets_where c (fst topic) lab) as [|[id x] rest] eqn:E;
          [reflexivity|].
        exfalso.
        assert (Hin : In (id, x) (assets_where c (fst topic) lab)) by (rewrite E; now left).
        apply assets_where_sound in Hin as (Hin & Hc). apply Hmatch in Hc.
        destruct Hc as (Ht & Hty). exact (Hno id x Hin Ht Hty).
  - unfold w', notify_assets.
    intros [-> | [-> | [-> | [-> | ->]]]].
    + cbn. split; reflexivity.
    + rewrite andb_false_r. split; reflexivity.
    + destruct (isAuthReady (app w) && db (app w)); split; reflexivity.
    + destruct (isAuthReady (app w) && db (app w)), (activeTopic (app w)); split; reflexivity.
    + destruct (isAuthReady (app w) && db (app w)), (activeTopic (app w)); split; reflexivity.
  - unfold w', notify_assets.
    destruct (isAuthReady (app w) && db (app w)); [|reflexivity].
    destruct (activeTopic (app w)) as [topic|]; [|reflexivity].
    destruct (getCollectionPath (userId (app w)) "assets" false) as [path|]; [|reflexivity].
    unfold on_lab, on_mcqs. destruct (assets_where (store w path) (fst topic) lab);
      reflexivity.
Qed.

Lemma assets_notification_witness :
  In (10, McqAsset 5 (VStr "Old Q") (VArr []) (of_Z 0) 0)
     (mcqs (app (@notify_assets Reference.host assessment_over_assets_world)))
  /\ mcqs (app (@notify_assets Reference.host
                  (world_of viewing_module_1 mixed_assets 13 (fun _ => Rejects (Error "down")))))
     = [].
Proof.
  split.
  - apply (proj1 (proj1 (@assets_notification Reference.host assessment_over_assets_world)
                    topic_5 "user-1" eq_refl eq_refl eq_refl eq_refl ltac:(discriminate))).
    split; [|split; reflexivity]. left. reflexivity.
  - apply (proj1 (proj2 (@assets_notification Reference.host
                           (world_of viewing_module_1 mixed_assets 13
                              (fun _ => Rejects (Error "down")))))).
    right. right. left. reflexivity.
Defined.

(** ** From generation to display *)

Lemma modules_where_app (c1 c2 : Collection) (k : DocId) :
  modules_where (c1 ++ c2)%list k = (modules_where c1 k ++ modules_where c2 k)%list.
Proof.
  induction c1 as [|[id d] c1 IH]; [reflexivity|].
  destruct d as [|m| |]; cbn [modules_where List.app]; try exact IH.
  destruct (module_courseId m =? k)%nat; [cbn; now rewrite IH | exact IH].
Qed.

Lemma topics_where_app (c1 c2 : Collection) (k : DocId) :
  topics_where (c1 ++ c2)%list k = (topics_where c1 k ++ topics_where c2 k)%list.
Proof.
  induction c1 as [|[id d] c1 IH]; [reflexivity|].
  destruct d as [| |t|]; cbn [topics_where List.app]; try exact IH.
  destruct (topic_moduleId t =? k)%nat; [cbn; now rewrite IH | exact IH].
Qed.

Lemma modules_where_none (c : Collection) (k : DocId) :
  (forall id m, In (id, DModule m) c -> module_courseId m <> k) ->
  modules_where c k = [].
Proof.
  induction c as [|[id d] c IH]; intros Hno; [reflexivity|].
  assert (Hrest : modules_where c k = [])
    by (apply IH; intros id' m Hin; apply (Hno id' m); now right).
  destruct d as [|m| |]; cbn [modules_where]; try exact Hrest.
  destruct (Nat.eqb_spec (module_courseId m) k) as [E|_]; [|exact Hrest].
  exfalso. apply (Hno id m); [now left | exact E].
Qed.

Lemma topics_where_none (c : Collection) (k : DocId) :
  (forall id t, In (id, DTopic t) c -> topic_moduleId t <> k) ->
  topics_where c k = [].
Proof.
  induction c as [|[id d] c IH]; intros Hno; [reflexivity|].
  assert (Hrest : topics_where c k = [])
    by (apply IH; intros id' t Hin; apply (Hno id' t); now right).
  destruct d as [| |t|]; cbn [topics_where]; try exact Hrest.
  destruct (Nat.eqb_spec (topic_moduleId t) k) as [E|_]; [|exact Hrest].
  exfalso. apply (Hno id t); [now left | exact E].
Qed.

Lemma modules_where_tree (tree : Tree) (k : DocId) :
  Forall (fun n => module_courseId (snd (fst n)) = k) tree ->
  modules_where (tree_modules tree) k = map fst tree.
Proof.
  induction 1 as [|[[id m] ts] tree Hk _ IH]; [reflexivity|].
  cbn in Hk |- *. rewrite Hk, Nat.eqb_refl. f_equal. exact IH.
Qed.

Lemma topics_where_docs (l : list (DocId * Topic)) (k : DocId) :
  Forall (fun d => topic_moduleId (snd d) = k) l ->
  topics_where (topic_docs l) k = l.
Proof.
  induction 1 as [|[id t] l Hk _ IH]; [reflexivity|].
  cbn in Hk |- *. rewrite Hk, Nat.eqb_refl. f_equal. exact IH.
Qed.

Lemma topics_where_other_docs (l : list (DocId * Topic)) (k k' : DocId) :
  Forall (fun d => topic_moduleId (snd d) = k') l -> k' <> k ->
  topics_where (topic_docs l) k = [].
Proof.
  intros Hall Hneq. apply topics_where_none. intros id t Hin.
  unfold topic_docs in Hin. apply in_map_iff in Hin as ([id' t'] & E & Hin).
  injection E as -> ->. rewrite Forall_forall in Hall.
  specialize (Hall _ Hin). cbn in Hall. congruence.
Qed.

(** In a tree whose topics carry the id of their module, and whose modules
    have different ids, the topics of a module are those of its node. *)
Lemma topics_where_tree (tree : Tree) :
  Forall (fun n => Forall (fun d => topic_moduleId (snd d) = module_id n) (snd n)) tree ->
  NoDup (map module_id tree) ->
  forall n, In n tree -> topics_where (tree_topics tree) (module_id n) = snd n.
Proof.
  induction 1 as [|m tree Hm Hall IH]; intros Hnd n Hin; [contradiction|].
  cbn [map] in Hnd. inversion Hnd as [|? ? Hnotin Hnd']; subst.
  cbn [tree_topics flat_map]. rewrite topics_where_app.
  destruct Hin as [<- | Hin].
  - rewrite (topics_where_docs Hm).
    rewrite topics_where_none; [apply app_nil_r|].
    intros id t Hin. unfold tree_topics in Hin. apply in_flat_map in Hin as (n' & Hn' & Hin).
    unfold topic_docs in Hin. apply in_map_iff in Hin as ([id' t'] & E & Hin).
    injection E as -> ->. rewrite Forall_forall in Hall.
    pose proof (Hall _ Hn') as Hk. rewrite Forall_forall in Hk.
    specialize (Hk _ Hin). cbn in Hk. rewrite Hk. intros E. apply Hnotin.
    rewrite <- E. now apply in_map.
  - rewrite (topics_where_other_docs (k' := module_id m)); [| exact Hm |].
    + cbn [List.app]. now apply IH.
    + intros E. apply Hnotin. rewrite E. now apply in_map.
Qed.

(** Records saved for the elements number [i], [i + 1], ... of an array
    are in ascending order. *)
Lemma saved_in_order (X D : Type) (order : D -> Z) (R : nat * X -> D -> Prop) :
  (forall e d, R e d -> order d = Z.of_nat (fst e + 1)) ->
  forall (xs : list X) (i k : nat) (l : list D),
    Forall2 R (combine (seq i k) xs) l ->
    StronglySorted (fun x y => (order x <= order y)%Z) l
    /\ Forall (fun d => (Z.of_nat (i + 1) <= order d)%Z) l.
Proof.
  intros HR. induction xs as [|x xs IH]; intros i k l Hall.
  - destruct k; cbn in Hall; inversion Hall; split; constructor.
  - destruct k as [|k]; cbn in Hall; [inversion Hall; split; constructor|].
    inversion Hall as [|? d ? l' Hd Hrest]; subst.
    destruct (IH (Datatypes.S i) k l' Hrest) as (Hs & Hb).
    apply HR in Hd. cbn [fst] in Hd.
    split.
    + constructor; [exact Hs|]. eapply Forall_impl; [|exact Hb]. cbn. intros y Hy. lia.
    + constructor; [lia|]. eapply Forall_impl; [|exact Hb]. cbn. intros y Hy. lia.
Qed.

Lemma StronglySorted_map (A B : Type) (f : A -> B) (R : B -> B -> Prop) (l : list A) :
  StronglySorted (fun x y => R (f x) (f y)) l -> StronglySorted R (map f l).
Proof.
  induction 1 as [|x l Hs IH Hall]; cbn; constructor; [exact IH|].
  apply Forall_map. exact Hall.
Qed.

Section Shown.
Context {host : Host}.

(** [handleGenerateCourse] writes no cell but [isLoading] and [error]. *)
Lemma course_handler_cells (w : World) :
  same_cells (app w) (app (snd (handleGenerateCourse w))).
Proof.
  destruct (course_guard_cases w) as [Hg | (Hdb & Hname & Htrim)].
  - rewrite Hg. repeat split.
  - rewrite (handleGenerateCourse_run w Hdb Hname Htrim). cbn [snd].
    pose proof (generate_course_outcome (app w) (started w)) as (Ha & _).
    rewrite settle_app, Ha.
    destruct (fst (generate_course (app w) (started w))); repeat split.
Qed.
End Shown.

(** What a complete run of generate-course has written is what the
    listeners show. *)
Lemma generated_course_listed `{Host} (w : World) (u : string)
        (mods values : list value) :
  isAuthReady (app w) = true -> db (app w) = true ->
  courseName (app w) <> "" -> trim (courseName (app w)) <> "" ->
  userId (app w) = Some u -> u <> "" ->
  generations (service w) (fetched w) (Datatypes.S (List.length mods))
  = Ok (VArr mods) :: map Ok values ->
  mods <> [] ->
  Forall (fun md => nullish md = false) mods ->
  Forall (fun v => Forall (fun t => nullish t = false) (elements v)) values ->
  (forall id m, In (id, DModule m) (store w (private_path u "modules")) ->
                module_courseId m < next_id w) ->
  (forall id t, In (id, DTopic t) (store w (private_path u "topics")) ->
                topic_moduleId t < next_id w) ->
  let shown := notify_modules (notify_courses (snd (handleGenerateCourse w))) in
  exists (tree : Tree) (createdAt : Z),
    course (app shown)
    = Some (next_id w, mkCourse (courseName (app w)) "draft" createdAt (Some u))
    /\ currentView (app shown) = modules_view
    /\ modules (app shown) = map fst tree
    /\ Forall2 (module_saved (next_id w))
               (combine (seq 0 (List.length mods)) (combine mods values)) tree
    /\ forall n, In n tree ->
         topics (app (notify_topics (with_app (handleViewModule (fst n)) shown)))
         = snd n.
Proof.
  intros Hready Hdb Hname Htrim Hu Hne Hgens Hmods Hnn Hvalues Holdm Holdt shown.
  destruct (handleGenerateCourse_complete w Hdb Hname Htrim Hu Hne Hgens Hmods Hnn Hvalues)
    as (w2 & tree & createdAt & Hrun & Herr & Hc & Hm & Ht & Htree & Hnd & _).
  pose proof (course_handler_cells w) as Hcells. rewrite Hrun in Hcells. cbn [snd] in Hcells.
  destruct Hcells as (Cdb & Cu & Cready & Cview & Cname & Ccourse & Cmods & Cam & Ctopics
                      & Cat & _).
  (* the ids of the new modules *)
  assert (Hfresh : Forall (fun n => next_id w < module_id n) tree).
  { pose proof (generate_course_outcome (app w) (started w)) as (_ & _ & _ & Hcase).
    pose proof (settle_world "Course Generation Error:"
                  "An unexpected error occurred during course generation."
                  (generate_course (app w) (started w))) as (Hst & _).
    rewrite (handleGenerateCourse_run w Hdb Hname Htrim) in Hrun. injection Hrun as Hw2.
    rewrite Hw2 in Hst.
    destruct Hcase as [(e & Hf & _) | (u' & mods' & createdAt' & ops & Hu' & _ & _ & _
                                       & Hc' & Hgrow & _)].
    - exfalso. rewrite <- Hw2, settle_app, Hf in Herr. discriminate Herr.
    - rewrite Hu in Hu'. injection Hu' as <-.
      destruct (Hgrow (private_path u "modules")) as (added & He & Hb & _).
      { intros E. apply private_path_inj in E. discriminate E. }
      change (store (started w)) with (store w) in He.
      change (next_id (started w)) with (next_id w) in Hb.
      rewrite <- Hst, Hm in He. apply app_inv_head in He. subst added.
      unfold tree_modules in Hb. rewrite Forall_map in Hb. exact Hb. }
  (* what the records of the tree say *)
  assert (Hcid : Forall (fun n => module_courseId (snd (fst n)) = next_id w) tree).
  { clear -Htree. induction Htree as [|e n es tree' (Hc0 & _) _ IH]; constructor; auto. }
  assert (Hwf : Forall (fun n => Forall (fun d => topic_moduleId (snd d) = module_id n)
                                        (snd n)) tree).
  { clear -Htree. induction Htree as [|e n es tree' (_ & _ & _ & _ & Hts) _ IH];
      constructor; [|exact IH].
    clear -Hts. induction Hts as [|e' d es' ds (Hk & _) _ IH']; constructor; auto. }
  assert (Hsm : StronglySorted
                  (fun x y : DocId * Module_ => (module_order (snd x) <= module_order (snd y))%Z)
                  (map fst tree)).
  { apply StronglySorted_map.
    apply (@saved_in_order _ _ (fun n : DocId * Module_ * list (DocId * Topic) =>
                                  module_order (snd (fst n)))
             (module_saved (next_id w)))
      with (xs := combine mods values) (i := 0) (k := List.length mods);
      [|exact Htree].
    intros e d (_ & Ho & _). exact Ho. }
  assert (Hst : Forall (fun n => StronglySorted
                                   (fun x y : DocId * Topic =>
                                      (topic_order (snd x) <= topic_order (snd y))%Z)
                                   (snd n)) tree).
  { clear -Htree. induction Htree as [|e n es tree' (_ & _ & _ & _ & Hts) _ IH];
      constructor; [|exact IH].
    apply (@saved_in_order _ _ (fun d : DocId * Topic => topic_order (snd d))
             (topic_saved (module_id n))) in Hts; [exact (proj1 Hts)|].
    intros e' d (_ & Ho & _). exact Ho. }
  (* the listeners *)
  rewrite Hdb in Cdb. rewrite Hu in Cu. rewrite Hready in Cready.
  set (c := mkCourse (courseName (app w)) "draft" createdAt (Some u)) in *.
  assert (Hw3 : notify_courses w2
                = with_app (fun a => setCurrentView modules_view
                                       (setCourse (Some (next_id w, c)) a)) w2).
  { unfold notify_courses. rewrite Cready, Cdb, Cu, getCollectionPath_private by exact Hne.
    cbn [andb]. rewrite Hc. reflexivity. }
  assert (Hmw : modules_where (store w2 (private_path u "modules")) (next_id w)
                = map fst tree).
  { rewrite Hm, modules_where_app, (modules_where_tree Hcid).
    rewrite modules_where_none; [reflexivity|].
    intros id m Hin E. specialize (Holdm id m Hin). lia. }
  assert (Hshown : shown
                   = with_app (fun a => setModules (map fst tree)
                                          (setCurrentView modules_view
                                             (setCourse (Some (next_id w, c)) a))) w2).
  { unfold shown. rewrite Hrun. cbn [snd]. rewrite Hw3.
    unfold notify_modules. cbn [app with_app isAuthReady db userId course
                                setCurrentView setCourse store fst].
    rewrite Cready, Cdb, Cu, getCollectionPath_private by exact Hne.
    cbn [andb]. rewrite Hmw. unfold on_modules.
    rewrite (sort_by_sorted_id _ Hsm). reflexivity. }
  exists tree, createdAt. rewrite Hshown. cbn [app with_app].
  split; [reflexivity|]. split; [reflexivity|]. split; [reflexivity|].
  split; [exact Htree|].
  intros n Hn. unfold notify_topics.
  cbn [app with_app isAuthReady db userId activeModule handleViewModule setModules
       setCurrentView setCourse setTopics setActiveTopic setActiveModule setSelectedTab
       store fst].
  rewrite Cready, Cdb, Cu, getCollectionPath_private by exact Hne.
  cbn [andb app with_app topics on_topics setTopics].
  rewrite Ht, topics_where_app.
  rewrite topics_where_none.
  2: { intros id t Hin E. specialize (Holdt id t Hin).
       rewrite Forall_forall in Hfresh. specialize (Hfresh n Hn).
       unfold module_id in Hfresh. lia. }
  cbn [List.app]. change (fst (fst n)) with (module_id n).
  rewrite (topics_where_tree Hwf Hnd n Hn).
  rewrite Forall_forall in Hst. apply sort_by_sorted_id. exact (Hst n Hn).
Qed.

(** X17. What generate-course has written is what the listeners show.
    After a run that ends without error, in a store whose modules and
    topics refer to documents that exist already: the courses listener
    makes the new course the current one and switches to the module list;
    the modules listener then lists exactly the generated modules, in the
    order of generation; and for each of them, once the user has opened it,
    the topics listener lists exactly the topics generated for it, in their
    order. *)
Theorem generated_course_shown `{Host} (w : World) (u : string) :
  isAuthReady (app w) = true -> db (app w) = true ->
  courseName (app w) <> "" -> trim (courseName (app w)) <> "" ->
  userId (app w) = Some u -> u <> "" ->
  (forall id m, In (id, DModule m) (store w (private_path u "modules")) ->
                module_courseId m < next_id w) ->
  (forall id t, In (id, DTopic t) (store w (private_path u "topics")) ->
                topic_moduleId t < next_id w) ->
  error (app (snd (handleGenerateCourse w))) = None ->
  let shown := notify_modules (notify_courses (snd (handleGenerateCourse w))) in
  exists (mods values : list value) (tree : Tree) (createdAt : Z),
    generations (service w) (fetched w) (Datatypes.S (List.length mods))
    = Ok (VArr mods) :: map Ok values
    /\ course (app shown)
       = Some (next_id w, mkCourse (courseName (app w)) "draft" createdAt (Some u))
    /\ currentView (app shown) = modules_view
    /\ modules (app shown) = map fst tree
    /\ Forall2 (module_saved (next_id w))
               (combine (seq 0 (List.length mods)) (combine mods values)) tree
    /\ forall n, In n tree ->
         topics (app (notify_topics (with_app (handleViewModule (fst n)) shown)))
         = snd n.
Proof.
  intros Hready Hdb Hname Htrim Hu Hne Holdm Holdt Herr shown.
  destruct (handleGenerateCourse_ok w Hdb Hname Htrim Hu Hne Herr)
    as (mods & values & Hgens & Hmods & Hnn & Hvalues).
  destruct (generated_course_listed w Hready Hdb Hname Htrim Hu Hne Hgens Hmods Hnn
              Hvalues Holdm Holdt)
    as (tree & createdAt & Hshown).
  exists mods, values, tree, createdAt. split; [exact Hgens | exact Hshown].
Qed.

Lemma generated_course_shown_witness :
  let shown := @notify_modules Reference.host
                 (@notify_courses Reference.host
                    (snd (@handleGenerateCourse Reference.host second_course_world))) in
  exists (mods values : list value) (tree : Tree) (createdAt : Z),
    @generations Reference.host (service second_course_world)
      (fetched second_course_world) (Datatypes.S (List.length mods))
    = Ok (VArr mods) :: map Ok values
    /\ course (app shown)
       = Some (41, mkCourse "Full Stack Java" "draft" createdAt (Some "user-1"))
    /\ currentView (app shown) = modules_view
    /\ modules (app shown) = map fst tree
    /\ Forall2 (module_saved 41)
               (combine (seq 0 (List.length mods)) (combine mods values)) tree
    /\ forall n, In n tree ->
         topics (app (@notify_topics Reference.host
                        (with_app (handleViewModule (fst n)) shown)))
         = snd n.
Proof.
  exact (@generated_course_shown Reference.host second_course_world "user-1"
           eq_refl eq_refl ltac:(discriminate) ltac:(discriminate) eq_refl
           ltac:(discriminate)
           ltac:(intros id m Hin; vm_compute in Hin; destruct Hin as [E|[]];
                 injection E as _ <-; cbn; lia)
           ltac:(intros id t Hin; vm_compute in Hin; destruct Hin as [E|[]];
                 injection E as _ <-; cbn; lia)
           eq_refl).
Defined.

(** ** The component as a whole *)

Section Running.
Context {host : Host}.

Lemma signed_in_ready (a : AppState) : signed_in a = true -> isAuthReady a = true.
Proof.
  unfold signed_in. intros E. apply andb_prop in E as (E & _).
  now apply andb_prop in E as (E & _).
Qed.

Lemma init_effect_app (r1 r2 r3 : Result unit) (s : Instances * World) :
  let a := app (snd s) in
  let a' := app (snd (snd (init_effect r1 r2 r3 s))) in
  a' = a \/ a' = setDb true a
  \/ a' = setIsAuthReady true
            (setError (Some "Firebase initialization failed. Check console for details.") a).
Proof.
  destruct s as [i w]. unfold init_effect. cbn [fst snd].
  destruct (dbInstance i); cbn [negb].
  - cbn. destruct (authInstance i); cbn; auto.
  - destruct r1 as [[]|e1]; [|cbn; auto].
    destruct r2 as [[]|e2]; [|cbn; auto].
    destruct r3 as [[]|e3]; cbn; auto.
Qed.

Lemma auth_listener_app (custom : string -> Result string) (anonymous : Result string)
      (uuid : string) (user : option string) (w : World) :
  exists u, app (snd (auth_listener custom anonymous uuid user w))
            = setIsAuthReady true (setUserId (Some u) (app w)).
Proof.
  unfold auth_listener. destruct user as [uid|].
  - exists uid. reflexivity.
  - unfold initialAuthToken. destruct anonymous as [uid|e].
    + exists uid. reflexivity.
    + exists ("guest-" ++ uuid). reflexivity.
Qed.

(** What rendering a view tells about the state. *)
Lemma render_view (a : AppState) :
  match render a with
  | ModulesView =>
      currentView a = modules_view \/ (course a <> None /\ activeModule a = None)
  | ModuleDetailView => currentView a = module_view /\ activeModule a <> None
  | TopicDetailView =>
      currentView a = topic_view /\ activeTopic a <> None
      /\ (course a = None \/ activeModule a <> None)
  | _ => True
  end.
Proof.
  unfold render.
  destruct (error_truthy a && negb (isAuthReady a)); [exact I|].
  destruct (negb (isAuthReady a) || negb (db a)); [exact I|].
  destruct (negb (is_some (course a)) && negb (isLoading a)); [exact I|].
  destruct (View_eqb (currentView a) modules_view
            || is_some (course a) && negb (is_some (activeModule a))) eqn:E2.
  { apply orb_prop in E2 as [E | E].
    - left. destruct (currentView a); try discriminate E. reflexivity.
    - right. apply andb_prop in E as (Ec & Em).
      destruct (course a); [|discriminate Ec]. destruct (activeModule a); [discriminate Em|].
      split; [discriminate | reflexivity]. }
  apply orb_false_elim in E2 as (_ & E2).
  destruct (View_eqb (currentView a) module_view && is_some (activeModule a)
            && negb (is_some (activeTopic a))) eqn:E3.
  { apply andb_prop in E3 as (E3 & _). apply andb_prop in E3 as (Ev & Em).
    destruct (currentView a); try discriminate Ev.
    destruct (activeModule a); [|discriminate Em]. split; [reflexivity | discriminate]. }
  destruct (View_eqb (currentView a) topic_view && is_some (activeTopic a)) eqn:E4;
    [|exact I].
  apply andb_prop in E4 as (Ev & Et).
  destruct (currentView a); try discriminate Ev.
  destruct (activeTopic a); [|discriminate Et].
  split; [reflexivity|]. split; [discriminate|].
  destruct (course a); [|now left]. right.
  destruct (activeModule a); [discriminate | discriminate E2].
Qed.

Lemma on_modules_frame (docs : list (DocId * Module_)) (a : AppState) :
  course (on_modules docs a) = course a
  /\ currentView (on_modules docs a) = currentView a
  /\ error (on_modules docs a) = error a
  /\ isAuthReady (on_modules docs a) = isAuthReady a.
Proof.
  unfold on_modules.
  destruct (currentView a) eqn:Ev, (activeModule a) eqn:Em; try destruct (find _ _);
    repeat split; cbn; auto.
Qed.

Lemma step_settled (s s' : Instances * World) :
  step s s' -> settled (app (snd s)) -> settled (app (snd s')).
Proof.
  intros Hstep (I1 & J).
  destruct Hstep as [s r1 r2 r3 | i w custom anonymous uuid user _
                     | i w docs Hsub | i w e Hsub | i w docs _ | i w docs _
                     | i w docs _ | i w docs _ | i w _ | i w act Hact | i w w' Hr _ Hc];
    cbn [snd] in *.
  - destruct (init_effect_app r1 r2 r3 s) as [E | [E | E]];
      cbn zeta in E; rewrite E; split; cbn; auto; discriminate.
  - destruct (auth_listener_app custom anonymous uuid user w) as (u & E).
    rewrite E. split; cbn; [exact I1 | discriminate].
  - cbn [app with_app]. unfold on_courses. destruct docs; split; cbn; auto; discriminate.
  - apply signed_in_ready in Hsub. split; cbn; [exact I1 | congruence].
  - cbn [app with_app].
    destruct (on_modules_frame docs (app w)) as (E1 & E2 & E3 & E4).
    unfold settled. rewrite E1, E2, E3, E4. auto.
  - split; cbn; auto.
  - split; cbn; auto.
  - cbn [app with_app]. unfold on_lab. destruct docs; split; cbn; auto.
  - split; cbn; auto.
  - cbn [app with_app]. pose proof (render_view (app w)) as Hv.
    unfold offers in Hact.
    destruct act; cbn [perform]; try (split; cbn; assumption);
      destruct (render (app w)); try contradiction;
      split; cbn; try exact J; intros Hnone.
    + exfalso. destruct Hv as [Hv | (Hv & _)]; [|contradiction].
      specialize (I1 Hnone). congruence.
    + exfalso. destruct Hv as (Hv & _). specialize (I1 Hnone). congruence.
    + exfalso. destruct Hv as (Hv & _). specialize (I1 Hnone). congruence.
    + exfalso. destruct Hv as (Hv & _). specialize (I1 Hnone). congruence.
  - destruct Hc as (_ & _ & Hready & Hview & _ & Hcourse & _).
    split; [rewrite Hcourse, Hview; exact I1 | congruence].
Qed.

Lemma reachable_settled (s : Instances * World) :
  reachable s -> settled (app (snd s)).
Proof.
  induction 1 as [i w Hw | s s' _ IH Hstep].
  - cbn [snd]. rewrite Hw. split; reflexivity.
  - exact (step_settled Hstep IH).
Qed.
End Running.
Section RunningHandlers.
Context {host : Host}.

Lemma mcq_handler_cells (w : World) :
  same_cells (app w) (app (snd (handleGenerateMCQs w))).
Proof.
  destruct (db (app w)) eqn:Hdb.
  2: { unfold handleGenerateMCQs. rewrite Hdb. repeat split. }
  destruct (activeTopic (app w)) as [topic|] eqn:Ht.
  2: { unfold handleGenerateMCQs. rewrite Hdb, Ht. repeat split. }
  rewrite (handleGenerateMCQs_run w Hdb Ht). cbn [snd].
  pose proof (generate_mcqs_outcome (app w) topic (started w)) as (_ & _ & Hcase).
  rewrite settle_app.
  destruct Hcase as [(e & Hf & Ha & _) | (u & items & added & ops & _ & _ & _ & _ & _ & _
                                          & _ & _ & _ & [(Hf & Ha) | (e & Hf & Ha)])];
    rewrite Hf, Ha; repeat split.
Qed.

Lemma lab_handler_cells (w : World) :
  same_cells (app w) (app (snd (handleGenerateLab w))).
Proof.
  destruct (db (app w)) eqn:Hdb.
  2: { unfold handleGenerateLab. rewrite Hdb. repeat split. }
  destruct (activeTopic (app w)) as [topic|] eqn:Ht.
  2: { unfold handleGenerateLab. rewrite Hdb, Ht. repeat split. }
  rewrite (handleGenerateLab_run w Hdb Ht). cbn [snd].
  pose proof (generate_lab_outcome (app w) topic (started w)) as (_ & _ & Hcase).
  rewrite settle_app.
  destruct Hcase as [(e & Hf & Ha & _) | (u & data & createdAt & _ & _ & _ & _ & Hf & Ha & _)];
    rewrite Hf, Ha; repeat split.
Qed.

(** A view is rendered only once authentication is ready and the store
    handle is there. *)
Lemma render_ready (a : AppState) :
  match render a with
  | ApplicationError | Initializing => True
  | _ => isAuthReady a = true /\ db a = true
  end.
Proof.
  unfold render.
  destruct (error_truthy a && negb (isAuthReady a)); [exact I|].
  destruct (negb (isAuthReady a) || negb (db a)) eqn:E; [exact I|].
  apply orb_false_elim in E as (E1 & E2).
  apply negb_false_iff in E1, E2.
  repeat match goal with |- context [if ?b then _ else _] => destruct b end; auto.
Qed.

Lemma offers_ready (a : AppState) (act : Action) :
  offers a act -> isAuthReady a = true /\ db a = true.
Proof.
  unfold offers. pose proof (render_ready a) as Hr.
  destruct (render a); destruct act; try contradiction; intros _; exact Hr.
Qed.
End RunningHandlers.

(** X18. The authentication listener never throws and always ends with
    authentication marked ready and a user id set: the id of the signed-in
    user, else the id that the anonymous sign-in returns, else, when that
    sign-in fails, ["guest-"] followed by a random UUID, the failure being
    logged; for that guest id too the private collection paths are defined.
    Sign-in with a custom token is never attempted, and nothing but the two
    cells is written. *)
Theorem authentication_listener `{Host} (custom : string -> Result string)
        (anonymous : Result string) (uuid : string) (user : option string) (w : World) :
  let out := auth_listener custom anonymous uuid user w in
  let uid := match user, anonymous with
             | Some uid, _ => uid
             | None, Ok uid => uid
             | None, Throw _ => "guest-" ++ uuid
             end in
  fst out = Ok tt
  /\ snd out
     = match user, anonymous with
       | None, Throw e =>
           with_app (fun a => setIsAuthReady true (setUserId (Some uid) a))
             (emit (ConsoleError "Anonymous or Custom Token sign-in failed:" e) w)
       | _, _ => with_app (fun a => setIsAuthReady true (setUserId (Some uid) a)) w
       end
  /\ (user = None -> (exists e, anonymous = Throw e) ->
      forall name,
        getCollectionPath (userId (app (snd out))) name false
        = Some (private_path ("guest-" ++ uuid) name))
  /\ (forall custom', auth_listener custom' anonymous uuid user w = out).
Proof.
  cbn zeta. unfold auth_listener, initialAuthToken.
  destruct user as [uid|]; [|destruct anonymous as [uid|e]].
  - repeat split. intros E. discriminate E.
  - repeat split. intros _ (e & E). discriminate E.
  - repeat split.
Qed.

Lemma authentication_listener_witness :
  userId (app (snd (@auth_listener (fun _ => Ok "token-user") (Throw (Error "offline"))
                      "1b4e" None mounted_world)))
  = Some "guest-1b4e"
  /\ @getCollectionPath Reference.host
       (userId (app (snd (@auth_listener (fun _ => Ok "token-user") (Throw (Error "offline"))
                            "1b4e" None mounted_world)))) "courses" false
     = Some (@private_path Reference.host "guest-1b4e" "courses").
Proof.
  split; [reflexivity|].
  apply (proj1 (proj2 (proj2 (@authentication_listener Reference.host
                                (fun _ => Ok "token-user") (Throw (Error "offline"))
                                "1b4e" None mounted_world)))).
  - reflexivity.
  - exists (Error "offline"). reflexivity.
Defined.

(** X19. Initialisation.  On empty caches, when [initializeApp],
    [getFirestore] and [getAuth] succeed, both caches are filled, the [db]
    cell is set and the authentication listener is subscribed.  When one of
    them throws, the error cell and [isAuthReady] are set together and no
    listener is subscribed: what is rendered then is the initialisation
    spinner, not the error card.  Once [dbInstance] is cached the effect
    initialises nothing and writes nothing: it subscribes the listener when
    [authInstance] is cached too, and otherwise (after [getAuth] has failed
    once) it does nothing at all, in any component state: no retry, no
    subscription, no error. *)
Theorem initialization (i : Instances) (w : World) (r1 r2 r3 : Result unit) :
  let out := init_effect r1 r2 r3 (i, w) in
  let a' := app (snd (snd out)) in
  (dbInstance i = false -> r1 = Ok tt -> r2 = Ok tt -> r3 = Ok tt ->
   fst out = Ok true
   /\ snd out = (mkInstances true true, with_app (setDb true) w))
  /\ (dbInstance i = false ->
      (exists e, r1 = Throw e \/ r2 = Throw e \/ r3 = Throw e) ->
      fst out = Ok false
      /\ a' = setIsAuthReady true
                (setError (Some "Firebase initialization failed. Check console for details.")
                   (app w))
      /\ store (snd (snd out)) = store w
      /\ (db (app w) = false -> render a' = Initializing))
  /\ (dbInstance i = true -> out = (Ok (authInstance i), (i, w)))
  /\ (dbInstance i = false -> authInstance i = false ->
      r1 = Ok tt -> r2 = Ok tt -> (exists e, r3 = Throw e) ->
      forall (w' : World) (r1' r2' r3' : Result unit),
        init_effect r1' r2' r3' (fst (snd out), w') = (Ok false, (fst (snd out), w'))).
Proof.
  cbn zeta. unfold init_effect. cbn [fst snd].
  split; [|split; [|split]].
  - intros -> -> -> ->. cbn. split; reflexivity.
  - intros -> (e & [-> | [-> | ->]]).
    + cbn. repeat split. intros ->. reflexivity.
    + destruct r1 as [[]|e1]; cbn; repeat split; intros ->; reflexivity.
    + destruct r1 as [[]|e1]; [destruct r2 as [[]|e2]|]; cbn; repeat split;
        intros ->; reflexivity.
  - intros ->. cbn. destruct (authInstance i); reflexivity.
  - intros -> Hauth -> -> (e & ->) w' r1' r2' r3'. cbn. rewrite Hauth. reflexivity.
Qed.

Lemma initialization_witness :
  render (app (snd (snd (init_effect (Ok tt) (Throw (Error "no firestore")) (Ok tt)
                           (fresh, mounted_world)))))
  = Initializing
  /\ error (app (snd (snd (init_effect (Ok tt) (Throw (Error "no firestore")) (Ok tt)
                             (fresh, mounted_world)))))
     = Some "Firebase initialization failed. Check console for details.".
Proof.
  pose proof (proj1 (proj2 (initialization fresh mounted_world (Ok tt)
                              (Throw (Error "no firestore")) (Ok tt)))
                eq_refl
                (ex_intro _ (Error "no firestore") (or_intror (or_introl eq_refl))))
    as (_ & Ha & _ & Hr).
  split; [exact (Hr eq_refl)|]. rewrite Ha. reflexivity.
Defined.

(** X20. The router keeps each view with the object it is rendered for.
    In every state the running component can reach (effects and listeners
    running, the user acting on what is rendered, generation handlers in
    progress): the error card is never what is rendered; when the module
    list is rendered the [course] cell is set; when a module is rendered the
    [activeModule] cell is set; when a topic is rendered the [activeModule]
    and [activeTopic] cells are set.  A run of a generation handler started
    from a button that is offered leads to such a state again.  (What the
    views read inside the listed modules, topics and assets is not part of
    this.) *)
Theorem view_objects_set `{Host} (s : Instances * World) :
  reachable s ->
  let a := app (snd s) in
  render a <> ApplicationError
  /\ (render a = ModulesView -> course a <> None)
  /\ (render a = ModuleDetailView -> activeModule a <> None)
  /\ (render a = TopicDetailView -> activeModule a <> None /\ activeTopic a <> None)
  /\ (offers a ClickGenerateCourse ->
      reachable (fst s, snd (handleGenerateCourse (snd s))))
  /\ (offers a ClickGenerateMCQs ->
      reachable (fst s, snd (handleGenerateMCQs (snd s))))
  /\ (offers a ClickGenerateLab ->
      reachable (fst s, snd (handleGenerateLab (snd s)))).
Proof.
  intros Hreach a.
  destruct (reachable_settled Hreach) as (I1 & J). fold a in I1, J.
  pose proof (render_view a) as Hv.
  split; [|split; [|split; [|split; [|split; [|split]]]]].
  - unfold render. destruct (error_truthy a && negb (isAuthReady a)) eqn:E.
    + exfalso. apply andb_prop in E as (Ee & Er). apply negb_true_iff in Er.
      unfold error_truthy in Ee. rewrite (J Er) in Ee. discriminate Ee.
    + repeat match goal with |- context [if ?b then _ else _] => destruct b end;
        discriminate.
  - intros Hr Hnone. rewrite Hr in Hv. destruct Hv as [Hv | (Hc & _)]; [|contradiction].
    specialize (I1 Hnone). congruence.
  - intros Hr. rewrite Hr in Hv. exact (proj2 Hv).
  - intros Hr. rewrite Hr in Hv. destruct Hv as (Hv & Ht & [Hc | Hm]); [|auto].
    specialize (I1 Hc). congruence.
  - intros Ho. apply offers_ready in Ho as (Hr & Hd).
    apply (reachable_step Hreach). destruct s as [i w].
    apply step_progress; [exact Hr | exact Hd | apply course_handler_cells].
  - intros Ho. apply offers_ready in Ho as (Hr & Hd).
    apply (reachable_step Hreach). destruct s as [i w].
    apply step_progress; [exact Hr | exact Hd | apply mcq_handler_cells].
  - intros Ho. apply offers_ready in Ho as (Hr & Hd).
    apply (reachable_step Hreach). destruct s as [i w].
    apply step_progress; [exact Hr | exact Hd | apply lab_handler_cells].
Qed.

Lemma view_objects_set_witness :
  render (app (snd signed_in_session)) = ModulesView
  /\ course (app (snd signed_in_session)) <> None.
Proof.
  split; [reflexivity|].
  refine (proj1 (proj2 (@view_objects_set Reference.host signed_in_session _))
            eq_refl).
  unfold signed_in_session.
  eapply reachable_step.
  - eapply reachable_step.
    + eapply reachable_step.
      * apply (reachable_mounted (host := Reference.host) fresh mounted_world eq_refl).
      * apply (step_init (host := Reference.host) (fresh, mounted_world) (Ok tt) (Ok tt) (Ok tt)).
    + apply (step_auth (host := Reference.host) (mkInstances true true)
               (with_app (setDb true) mounted_world)
               (fun _ => Throw (Error "no token")) (Ok "user-1") "uuid" None eq_refl).
  - apply (step_courses (host := Reference.host)). reflexivity.
Defined.
Section RunningFrames.
Context {host : Host}.

Lemma on_modules_ready (docs : list (DocId * Module_)) (a : AppState) :
  db (on_modules docs a) = db a.
Proof.
  unfold on_modules.
  destruct (currentView a), (activeModule a); try destruct (find _ _); reflexivity.
Qed.

(** No step takes the store handle away or makes authentication not ready
    again. *)
Lemma step_ready (s s' : Instances * World) :
  step s s' ->
  isAuthReady (app (snd s)) = true /\ db (app (snd s)) = true ->
  isAuthReady (app (snd s')) = true /\ db (app (snd s')) = true.
Proof.
  intros Hstep (Hr & Hd).
  destruct Hstep as [s r1 r2 r3 | i w custom anonymous uuid user _
                     | i w docs _ | i w e _ | i w docs _ | i w docs _
                     | i w docs _ | i w docs _ | i w _ | i w act _ | i w w' _ _ Hc];
    cbn [snd] in *.
  - destruct (init_effect_app r1 r2 r3 s) as [E | [E | E]];
      cbn zeta in E; rewrite E; cbn; auto.
  - destruct (auth_listener_app custom anonymous uuid user w) as (u & E).
    rewrite E. cbn. auto.
  - cbn [app with_app]. unfold on_courses. destruct docs; cbn; auto.
  - cbn. auto.
  - cbn [app with_app]. destruct (on_modules_frame docs (app w)) as (_ & _ & _ & E).
    rewrite E, on_modules_ready. auto.
  - cbn. auto.
  - cbn. auto.
  - cbn [app with_app]. unfold on_lab. destruct docs; cbn; auto.
  - cbn. auto.
  - cbn [app with_app]. destruct act; cbn; auto.
  - destruct Hc as (Hdb & _ & Hready & _). rewrite Hdb, Hready. auto.
Qed.

Lemma ready_rendered (a : AppState) :
  isAuthReady a = true -> db a = true ->
  render a <> ApplicationError /\ render a <> Initializing.
Proof.
  intros Hr Hd. unfold render. rewrite Hr, Hd. cbn [negb andb orb].
  rewrite andb_false_r.
  repeat match goal with |- context [if ?b then _ else _] => destruct b end;
    split; discriminate.
Qed.
End RunningFrames.

(** X21. A generate button that is offered starts a generation.  Where
    [trim] maps the empty string to itself: a click on the MCQ or lab
    button of the topic view, and on the generate button of the home view,
    always gets past the guard of its handler, so that at least one request
    is sent.  The regenerate button of the module list is the exception: it
    is offered whatever the course name is, and with a blank name the click
    does nothing at all. *)
Theorem offered_generation_starts `{Host} (w : World) :
  trim "" = "" ->
  let a := app w in
  (offers a ClickGenerateMCQs -> fetched w < fetched (snd (handleGenerateMCQs w)))
  /\ (offers a ClickGenerateLab -> fetched w < fetched (snd (handleGenerateLab w)))
  /\ (offers a ClickGenerateCourse ->
      if trim (courseName a) =? ""
      then render a = ModulesView /\ handleGenerateCourse w = (Ok tt, w)
      else fetched w < fetched (snd (handleGenerateCourse w))).
Proof.
  intros Htrim a.
  pose proof (render_ready a) as Hready. pose proof (render_view a) as Hview.
  split; [|split]; intros Ho; unfold offers in Ho.
  - destruct (render a); try contradiction.
    destruct Hready as (_ & Hdb). destruct Hview as (_ & Ht & _).
    destruct (activeTopic a) as [topic|] eqn:Et; [|contradiction].
    rewrite (handleGenerateMCQs_run w Hdb Et). cbn [snd].
    pose proof (settle_world "MCQ Generation Error:"
                  "An unexpected error occurred during MCQ generation."
                  (generate_mcqs (app w) topic (started w))) as (_ & _ & _ & Hf & _).
    pose proof (generate_mcqs_outcome (app w) topic (started w)) as (_ & Hlt & _).
    rewrite Hf. exact Hlt.
  - destruct (render a); try contradiction.
    destruct Hready as (_ & Hdb). destruct Hview as (_ & Ht & _).
    destruct (activeTopic a) as [topic|] eqn:Et; [|contradiction].
    rewrite (handleGenerateLab_run w Hdb Et). cbn [snd].
    pose proof (settle_world "Lab Generation Error:"
                  "An unexpected error occurred during lab generation."
                  (generate_lab (app w) topic (started w))) as (_ & _ & _ & Hf & _).
    pose proof (generate_lab_outcome (app w) topic (started w)) as (_ & Hlt & _).
    rewrite Hf. exact Hlt.
  - assert (Hdb : db a = true).
    { destruct (render a); try contradiction; exact (proj2 Hready). }
    destruct (String.eqb_spec (trim (courseName a)) "") as [He | Hne].
    + destruct (render a); try contradiction.
      * destruct Ho as (Ho & _). contradiction.
      * split; [reflexivity|]. unfold handleGenerateCourse. fold a.
        rewrite He, String.eqb_refl. now rewrite orb_true_r.
    + assert (Hname : courseName a <> "").
      { intros E. apply Hne. rewrite E. exact Htrim. }
      rewrite (handleGenerateCourse_run w Hdb Hname Hne). cbn [snd].
      pose proof (settle_world "Course Generation Error:"
                    "An unexpected error occurred during course generation."
                    (generate_course (app w) (started w))) as (_ & _ & _ & Hf & _).
      pose proof (generate_course_outcome (app w) (started w)) as (_ & _ & Hlt & _).
      rewrite Hf. exact Hlt.
Qed.

Lemma offered_generation_starts_witness :
  @offers Reference.host (app on_mcq_tab_world) ClickGenerateMCQs
  /\ fetched on_mcq_tab_world
     < fetched (snd (@handleGenerateMCQs Reference.host on_mcq_tab_world)).
Proof.
  assert (Ho : @offers Reference.host (app on_mcq_tab_world) ClickGenerateMCQs)
    by (split; reflexivity).
  split; [exact Ho|].
  exact (proj1 (@offered_generation_starts Reference.host on_mcq_tab_world eq_refl) Ho).
Defined.

(** X22. The initialisation spinner never comes back.  From a state in
    which authentication is ready and the store handle is there, whatever
    the component does next (effects, listeners, user actions, generation
    handlers, in any number and order), authentication stays ready and the
    handle stays: what is rendered is never again the initialisation
    spinner, nor the error card. *)
Theorem initialised_for_good `{Host} (s s' : Instances * World) :
  steps s s' ->
  isAuthReady (app (snd s)) = true -> db (app (snd s)) = true ->
  isAuthReady (app (snd s')) = true /\ db (app (snd s')) = true
  /\ render (app (snd s')) <> ApplicationError
  /\ render (app (snd s')) <> Initializing.
Proof.
  intros Hrun Hr Hd.
  assert (Hend : isAuthReady (app (snd s')) = true /\ db (app (snd s')) = true).
  { induction Hrun as [s | s s1 s' Hstep _ IH]; [auto|].
    destruct (step_ready Hstep (conj Hr Hd)) as (Hr1 & Hd1). exact (IH Hr1 Hd1). }
  destruct Hend as (Hr' & Hd'). split; [exact Hr'|]. split; [exact Hd'|].
  exact (ready_rendered _ Hr' Hd').
Qed.

Lemma initialised_for_good_witness :
  render (app (with_app (on_courses []) (snd signed_in_session))) = HomeView
  /\ render (app (with_app (on_courses []) (snd signed_in_session))) <> Initializing.
Proof.
  split; [reflexivity|].
  refine (proj2 (proj2 (proj2 (@initialised_for_good Reference.host signed_in_session
            (fst signed_in_session, with_app (on_courses []) (snd signed_in_session))
            _ eq_refl eq_refl)))).
  eapply steps_more; [|apply steps_done].
  apply (step_courses (host := Reference.host) (fst signed_in_session)
           (snd signed_in_session) []).
  reflexivity.
Defined.
